(** * Daily.co webhook receiver: a shallow embedding of [webhook-server.js]

    The development follows the source file top to bottom: configuration,
    [writeLog], [verifyWebhookSignature], the two enrichment lookups, the
    three event handlers and the routes.  The Node.js and Express library
    calls the receiver relies on ([crypto.createHmac],
    [Buffer.from(_, 'hex')], [crypto.timingSafeEqual], [JSON.parse], the
    [express.raw] / [express.json] body parsers) are modelled as
    executable functions, so that every definition can be run on a
    concrete request.

    What is modelled and what is not:
    - strings and buffers are byte strings (UTF-8);
    - a handler is a computation that may throw and that appends lines to
      the log file; a line is the message given to [writeLog], kept as
      the template literal of the source with its holes;
    - the provider's API is a function from the URL of a call to its
      outcome, about which nothing is assumed;
    - the output on the console, the clock and the timing of the
      asynchronous calls are left out.

    The command-line tool [daily-test.js] is embedded after the
    receiver, in the module [DailyTester]; its properties come last. *)

From Stdlib Require Import NArith ZArith Ascii String List Lia Bool.
From stdpp Require Import base option strings gmap.
Import ListNotations.

Local Open Scope string_scope.
Local Open Scope list_scope.

(** ** Bytes and strings

    A JavaScript string and a Node [Buffer] are both modelled as a Rocq
    [string], that is a sequence of bytes: the UTF-8 encoding of the
    JavaScript string.  [Buffer.toString()] and the implicit UTF-8
    encoding of [hmac.update(string)] are then the identity. *)

Definition bytes_of_string (s : string) : list N :=
  map N_of_ascii (list_ascii_of_string s).

(** The double-quote character, code 34. *)
Abbreviation dquote := (Ascii false true false false false true false false).

(** ** Hexadecimal text: [digest('hex')] and [Buffer.from(_, 'hex')] *)

Module Hex.

Definition digit (n : N) : ascii :=
  match n with
  | 0 => "0" | 1 => "1" | 2 => "2" | 3 => "3" | 4 => "4" | 5 => "5"
  | 6 => "6" | 7 => "7" | 8 => "8" | 9 => "9" | 10 => "a" | 11 => "b"
  | 12 => "c" | 13 => "d" | 14 => "e" | _ => "f"
  end%N%char.

(** Value of a hex digit, upper or lower case; [None] for any other
    character (Node's [unhex] table). *)
Definition unhex (c : ascii) : option N :=
  let n := N_of_ascii c in
  if ((48 <=? n) && (n <=? 57))%N then Some (n - 48)%N
  else if ((97 <=? n) && (n <=? 102))%N then Some (n - 87)%N
  else if ((65 <=? n) && (n <=? 70))%N then Some (n - 55)%N
  else None.

(** [buf.toString('hex')]: two lower-case digits per byte. *)
Fixpoint encode (l : list N) : string :=
  match l with
  | [] => EmptyString
  | b :: l' => String (digit (b / 16)) (String (digit (b mod 16)) (encode l'))
  end.

(** [Buffer.from(s, 'hex')]: decodes pairs of hex digits and stops at
    the first pair that is not two hex digits, or when fewer than two
    characters are left; what was decoded so far is the buffer.  It
    never throws. *)
Fixpoint decode (s : string) : list N :=
  match s with
  | String c1 (String c2 s') =>
      match unhex c1, unhex c2 with
      | Some h, Some l => (h * 16 + l)%N :: decode s'
      | _, _ => []
      end
  | _ => []
  end.

End Hex.

(** ** SHA-256 (FIPS 180-4) and HMAC (RFC 2104)

    [crypto.createHmac('sha256', secret).update(payload).digest('hex')]. *)

Module SHA256.

Local Open Scope N_scope.

Definition w32 (x : N) : N := N.land x 0xFFFFFFFF.
Definition add32 (a b : N) : N := w32 (a + b).
Definition rotr (n x : N) : N :=
  N.lor (N.shiftr x n) (w32 (N.shiftl x (32 - n))).
Definition not32 (x : N) : N := N.lxor x 0xFFFFFFFF.

Definition Ch (e f g : N) : N := N.lxor (N.land e f) (N.land (not32 e) g).
Definition Maj (a b c : N) : N :=
  N.lxor (N.lxor (N.land a b) (N.land a c)) (N.land b c).
Definition Sigma0 (a : N) : N :=
  N.lxor (N.lxor (rotr 2 a) (rotr 13 a)) (rotr 22 a).
Definition Sigma1 (e : N) : N :=
  N.lxor (N.lxor (rotr 6 e) (rotr 11 e)) (rotr 25 e).
Definition sigma0 (x : N) : N :=
  N.lxor (N.lxor (rotr 7 x) (rotr 18 x)) (N.shiftr x 3).
Definition sigma1 (x : N) : N :=
  N.lxor (N.lxor (rotr 17 x) (rotr 19 x)) (N.shiftr x 10).

(** The constants are defined as FIPS 180-4 defines them: the first 32
    bits of the fractional parts of the cube roots (for [K]) and of the
    square roots (for [H0]) of the first primes. *)
Definition is_prime (n : N) : bool :=
  forallb (fun d => negb (n mod d =? 0)) (map N.of_nat (seq 2 (N.to_nat n - 2))).

Definition primes (count : nat) : list N :=
  firstn count (filter is_prime (map N.of_nat (seq 2 310))).

Definition cube_root (n : N) : N :=
  fold_left (fun r i => let r' := r + 2 ^ i in if r' * r' * r' <=? n then r' else r)
            (map N.of_nat (rev (seq 0 48))) 0.

Definition K : list N :=
  Eval vm_compute in map (fun p => cube_root (p * 2 ^ 96) mod 2 ^ 32) (primes 64).

(** The eight working registers [a .. h]. *)
Definition regs : Type := N * N * N * N * N * N * N * N.

Definition H0 : regs :=
  Eval vm_compute in
    match map (fun p => N.sqrt (p * 2 ^ 64) mod 2 ^ 32) (primes 8) with
    | [a; b; c; d; e; f; g; h] => (a, b, c, d, e, f, g, h)
    | _ => (0, 0, 0, 0, 0, 0, 0, 0)
    end.

(** Padding: one [0x80] byte, zeros up to 56 mod 64, then the length in
    bits as a 64-bit big-endian integer. *)
Definition be_bytes (n : nat) (x : N) : list N :=
  map (fun i => N.land (N.shiftr x (8 * N.of_nat i)) 0xFF) (rev (seq 0 n)).

Definition pad (msg : list N) : list N :=
  let len := N.of_nat (length msg) in
  let zeros := N.to_nat ((119 - len mod 64) mod 64) in
  msg ++ [0x80] ++ repeat 0 zeros ++ be_bytes 8 (8 * len).

Fixpoint words_of_bytes (l : list N) : list N :=
  match l with
  | b3 :: b2 :: b1 :: b0 :: l' =>
      (N.shiftl b3 24 + N.shiftl b2 16 + N.shiftl b1 8 + b0)
        :: words_of_bytes l'
  | _ => []
  end.

(** Splits into blocks of [n] elements; [fuel] bounds the number of
    blocks and is the length of the input where it is called. *)
Fixpoint chunks {A} (fuel n : nat) (l : list A) : list (list A) :=
  match fuel, l with
  | _, [] => []
  | O, _ => []
  | S fuel', _ => firstn n l :: chunks fuel' n (skipn n l)
  end.

(** Message schedule, most recent word first: [w] holds
    [W(t-1); W(t-2); ...]. *)
Fixpoint schedule (n : nat) (w : list N) : list N :=
  match n with
  | O => w
  | S n' =>
      let wt :=
        add32 (add32 (sigma1 (nth 1 w 0)) (nth 6 w 0))
              (add32 (sigma0 (nth 14 w 0)) (nth 15 w 0)) in
      schedule n' (wt :: w)
  end.

Definition round (r : regs) (kw : N * N) : regs :=
  let '(a, b, c, d, e, f, g, h) := r in
  let t1 := add32 (add32 (add32 h (Sigma1 e)) (add32 (Ch e f g) (fst kw)))
                  (snd kw) in
  let t2 := add32 (Sigma0 a) (Maj a b c) in
  (add32 t1 t2, a, b, c, add32 d t1, e, f, g).

Definition compress (r : regs) (block : list N) : regs :=
  let w := rev (schedule 48 (rev (words_of_bytes block))) in
  let '(a, b, c, d, e, f, g, h) := fold_left round (combine K w) r in
  let '(a0, b0, c0, d0, e0, f0, g0, h0) := r in
  (add32 a0 a, add32 b0 b, add32 c0 c, add32 d0 d,
   add32 e0 e, add32 f0 f, add32 g0 g, add32 h0 h).

Definition word_bytes (x : N) : list N :=
  [ N.land (N.shiftr x 24) 0xFF; N.land (N.shiftr x 16) 0xFF;
    N.land (N.shiftr x 8) 0xFF; N.land x 0xFF ].

Definition digest_of_regs (r : regs) : list N :=
  let '(a, b, c, d, e, f, g, h) := r in
  word_bytes a ++ word_bytes b ++ word_bytes c ++ word_bytes d ++
  word_bytes e ++ word_bytes f ++ word_bytes g ++ word_bytes h.

Definition sha256 (msg : list N) : list N :=
  let p := pad msg in
  digest_of_regs (fold_left compress (chunks (length p) 64 p) H0).

(** HMAC: keys longer than the 64-byte block are hashed first, shorter
    ones are padded with zeros. *)
Definition hmac_key (key : list N) : list N :=
  let k := if (64 <? length key)%nat then sha256 key else key in
  k ++ repeat 0 (64 - length k)%nat.

Definition hmac (key msg : list N) : list N :=
  let k := hmac_key key in
  sha256 (map (N.lxor 0x5c) k ++ sha256 (map (N.lxor 0x36) k ++ msg)).

End SHA256.

(** [createHmac('sha256', secret).update(payload).digest('hex')] for a
    string secret and a payload given by its bytes. *)
Definition hmac_sha256_hex (secret payload : string) : string :=
  Hex.encode (SHA256.hmac (bytes_of_string secret) (bytes_of_string payload)).

(** ** JSON values and [JSON.parse] *)

Module Json.

(** A number keeps the decimal literal exactly: [Num m e] is
    [m * 10^e].  An object keeps its members in textual order,
    duplicates included; a property read takes the last one, as the
    object built by [JSON.parse] does. *)
#[warnings="-register-all"] Inductive value : Type :=
| Null
| Bool (b : bool)
| Num (m e : Z)
| Str (s : string)
| Arr (l : list value)
| Obj (kv : list (string * value)).

Inductive presult (A : Type) : Type :=
| POk (a : A) (rest : string)
| PSyntax
| PFuel.
Arguments POk {A} a rest.
Arguments PSyntax {A}.
Arguments PFuel {A}.

Definition is_ws (c : ascii) : bool :=
  let n := N_of_ascii c in
  ((n =? 32) || (n =? 9) || (n =? 10) || (n =? 13))%N.

Fixpoint skip_ws (s : string) : string :=
  match s with
  | String c s' => if is_ws c then skip_ws s' else s
  | EmptyString => s
  end.

Definition is_digit (c : ascii) : bool :=
  let n := N_of_ascii c in ((48 <=? n) && (n <=? 57))%N.

Definition digit_val (c : ascii) : Z := Z.of_N (N_of_ascii c) - 48.

(** Reads a run of decimal digits: the accumulated value, how many
    digits were read, and what follows. *)
Fixpoint digits (acc : Z) (n : Z) (s : string) : Z * Z * string :=
  match s with
  | String c s' =>
      if is_digit c then digits (10 * acc + digit_val c) (n + 1) s'
      else (acc, n, s)
  | EmptyString => (acc, n, s)
  end.

(** The character [s] starts with, and what follows it. *)
Definition starts_with (c : ascii) (s : string) : option string :=
  match s with
  | String c' r => if Ascii.eqb c' c then Some r else None
  | EmptyString => None
  end.

(** number = [-] int [frac] [exp]; [int] is [0] or starts with [1-9]. *)
Definition parse_int_part (s : string) : option (Z * string) :=
  match s with
  | String c s' =>
      if Ascii.eqb c "0"%char then Some (0%Z, s')
      else if is_digit c then let '(v, _, r) := digits 0 0 s in Some (v, r)
      else None
  | EmptyString => None
  end.

Definition parse_frac (m : Z) (s : string) : option (Z * Z * string) :=
  match starts_with "."%char s with
  | Some s' =>
      let '(v, n, r) := digits m 0 s' in
      if (n =? 0)%Z then None else Some (v, n, r)
  | None => Some (m, 0%Z, s)
  end.

Definition parse_exp_digits (sign : Z) (s : string) : option (Z * string) :=
  let '(v, n, r) := digits 0 0 s in
  if (n =? 0)%Z then None else Some ((sign * v)%Z, r).

Definition parse_exp (s : string) : option (Z * string) :=
  match s with
  | String c s' =>
      if (Ascii.eqb c "e" || Ascii.eqb c "E")%char then
        match starts_with "+"%char s', starts_with "-"%char s' with
        | Some s'', _ => parse_exp_digits 1 s''
        | None, Some s'' => parse_exp_digits (-1) s''
        | None, None => parse_exp_digits 1 s'
        end
      else Some (0%Z, s)
  | EmptyString => Some (0%Z, s)
  end.

Definition parse_sign (s : string) : Z * string :=
  match starts_with "-"%char s with
  | Some s' => ((-1)%Z, s')
  | None => (1%Z, s)
  end.

Definition parse_number (s : string) : presult value :=
  let '(sign, s1) := parse_sign s in
  match parse_int_part s1 with
  | None => PSyntax
  | Some (i, s2) =>
      match parse_frac i s2 with
      | None => PSyntax
      | Some (m, nfrac, s3) =>
          match parse_exp s3 with
          | None => PSyntax
          | Some (ex, s4) => POk (Num (sign * m) (ex - nfrac)) s4
          end
      end
  end.

(** UTF-8 encoding of a code point, as a list of bytes. *)
Definition utf8 (u : N) : list N :=
  (if u <? 0x80 then [u]
   else if u <? 0x800 then [0xC0 + u / 64; 0x80 + u mod 64]
   else if u <? 0x10000 then
     [0xE0 + u / 4096; 0x80 + (u / 64) mod 64; 0x80 + u mod 64]
   else
     [0xF0 + u / 262144; 0x80 + (u / 4096) mod 64;
      0x80 + (u / 64) mod 64; 0x80 + u mod 64])%N.

Definition append_bytes (l : list N) (s : string) : string :=
  fold_right (fun b acc => String (ascii_of_N b) acc) s l.

Definition is_high_surrogate (u : N) : bool := ((0xD800 <=? u) && (u <=? 0xDBFF))%N.
Definition is_low_surrogate (u : N) : bool := ((0xDC00 <=? u) && (u <=? 0xDFFF))%N.

Definition hex4 (c1 c2 c3 c4 : ascii) : option N :=
  match Hex.unhex c1, Hex.unhex c2, Hex.unhex c3, Hex.unhex c4 with
  | Some a, Some b, Some c, Some d => Some (((a * 16 + b) * 16 + c) * 16 + d)%N
  | _, _, _, _ => None
  end.

Definition simple_escape (c : ascii) : option ascii :=
  match c with
  | dquote => Some dquote
  | "\"%char => Some "\"%char
  | "/"%char => Some "/"%char
  | "b"%char => Some "008"%char
  | "f"%char => Some "012"%char
  | "n"%char => Some "010"%char
  | "r"%char => Some "013"%char
  | "t"%char => Some "009"%char
  | _ => None
  end.

Definition flush (pending : option N) (s : string) : string :=
  match pending with
  | Some hi => append_bytes (utf8 hi) s
  | None => s
  end.

Definition pmap {A B} (f : A -> B) (r : presult A) : presult B :=
  match r with
  | POk a rest => POk (f a) rest
  | PSyntax => PSyntax
  | PFuel => PFuel
  end.

(** What a [\u] escape with code unit [u] writes, given the pending
    high surrogate: the bytes to put out and the new pending one. *)
Definition unicode_escape (pending : option N) (u : N) : list N * option N :=
  match pending with
  | Some hi =>
      if is_low_surrogate u then
        (utf8 (0x10000 + (hi - 0xD800) * 1024 + (u - 0xDC00))%N, None)
      else if is_high_surrogate u then (utf8 hi, Some u)
      else (utf8 hi ++ utf8 u, None)
  | None =>
      if is_high_surrogate u then ([], Some u) else (utf8 u, None)
  end.

(** The characters of a string literal after its opening quote.
    [pending] is a high surrogate read from a [\u] escape and not yet
    written: followed by a low surrogate it makes one code point. *)
Fixpoint parse_chars (pending : option N) (s : string) : presult string :=
  match s with
  | EmptyString => PSyntax
  | String c r =>
      if Ascii.eqb c dquote then POk (flush pending EmptyString) r
      else if Ascii.eqb c "\"%char then
        match r with
        | EmptyString => PSyntax
        | String c' r' =>
            if Ascii.eqb c' "u"%char then
              match r' with
              | String c1 (String c2 (String c3 (String c4 r''))) =>
                  match hex4 c1 c2 c3 c4 with
                  | None => PSyntax
                  | Some u =>
                      let '(out, pending') := unicode_escape pending u in
                      pmap (append_bytes out) (parse_chars pending' r'')
                  end
              | _ => PSyntax
              end
            else
              match simple_escape c' with
              | None => PSyntax
              | Some e =>
                  pmap (fun t => flush pending (String e t)) (parse_chars None r')
              end
        end
      else if (N_of_ascii c <? 32)%N then PSyntax
      else pmap (fun t => flush pending (String c t)) (parse_chars None r)
  end.

(** [s] without the prefix [lit], if it starts with it. *)
Fixpoint strip_prefix (lit s : string) : option string :=
  match lit, s with
  | EmptyString, _ => Some s
  | String a lit', String b s' =>
      if Ascii.eqb a b then strip_prefix lit' s' else None
  | String _ _, EmptyString => None
  end.

Definition expect (lit : string) (v : value) (s : string) : presult value :=
  match strip_prefix lit s with
  | Some rest => POk v rest
  | None => PSyntax
  end.

(** value = object | array | string | [true] | [false] | [null] | number.
    [fuel] bounds the depth of the recursion; [parse] gives enough. *)
Fixpoint parse_value (fuel : nat) (s : string) : presult value :=
  match fuel with
  | O => PFuel
  | S fuel' =>
      match skip_ws s with
      | EmptyString => PSyntax
      | String c r =>
          if Ascii.eqb c "{"%char then
            match starts_with "}"%char (skip_ws r) with
            | Some r' => POk (Obj []) r'
            | None => pmap Obj (parse_members fuel' r)
            end
          else if Ascii.eqb c "["%char then
            match starts_with "]"%char (skip_ws r) with
            | Some r' => POk (Arr []) r'
            | None => pmap Arr (parse_elements fuel' r)
            end
          else if Ascii.eqb c dquote then pmap Str (parse_chars None r)
          else if Ascii.eqb c "t"%char then expect "true" (Bool true) (String c r)
          else if Ascii.eqb c "f"%char then expect "false" (Bool false) (String c r)
          else if Ascii.eqb c "n"%char then expect "null" Null (String c r)
          else parse_number (String c r)
      end
  end
with parse_elements (fuel : nat) (s : string) : presult (list value) :=
  match fuel with
  | O => PFuel
  | S fuel' =>
      match parse_value fuel' s with
      | POk v r =>
          match skip_ws r with
          | EmptyString => PSyntax
          | String c r' =>
              if Ascii.eqb c ","%char then pmap (cons v) (parse_elements fuel' r')
              else if Ascii.eqb c "]"%char then POk [v] r'
              else PSyntax
          end
      | PSyntax => PSyntax
      | PFuel => PFuel
      end
  end
with parse_members (fuel : nat) (s : string) : presult (list (string * value)) :=
  match fuel with
  | O => PFuel
  | S fuel' =>
      match starts_with dquote (skip_ws s) with
      | None => PSyntax
      | Some r =>
          match parse_chars None r with
          | POk k r1 =>
              match starts_with ":"%char (skip_ws r1) with
              | None => PSyntax
              | Some r2 =>
                  match parse_value fuel' r2 with
                  | POk v r3 =>
                      match skip_ws r3 with
                      | EmptyString => PSyntax
                      | String c r4 =>
                          if Ascii.eqb c ","%char then
                            pmap (cons (k, v)) (parse_members fuel' r4)
                          else if Ascii.eqb c "}"%char then POk [(k, v)] r4
                          else PSyntax
                      end
                  | PSyntax => PSyntax
                  | PFuel => PFuel
                  end
              end
          | PSyntax => PSyntax
          | PFuel => PFuel
          end
      end
  end.

(** [JSON.parse(text)]: one value, then only white space.  [None] is
    the [SyntaxError] it throws.  The fuel is never used up
    ([parse_value_total] below). *)
Definition parse (text : string) : option value :=
  match parse_value (S (2 * String.length text)) text with
  | POk v rest =>
      match skip_ws rest with
      | EmptyString => Some v
      | _ => None
      end
  | _ => None
  end.

(** Own property [k] of the object built from the members [kv]. *)
Fixpoint get (kv : list (string * value)) (k : string) : option value :=
  match kv with
  | [] => None
  | (k', v) :: kv' =>
      match get kv' k with
      | Some v' => Some v'
      | None => if String.eqb k' k then Some v else None
      end
  end.

End Json.

(** A JSON text written with ['] where the text has the double-quote
    character; used to write request bodies in the examples. *)
Fixpoint json_text (s : string) : string :=
  match s with
  | EmptyString => EmptyString
  | String c s' =>
      String (if Ascii.eqb c "'"%char then dquote else c) (json_text s')
  end.

(** ** JavaScript values and errors *)

(** A value the receiver handles: [undefined] ([None]) or a value built
    by [JSON.parse]. *)
Definition jsval : Type := option Json.value.

Abbreviation undefined := (@None Json.value).
Definition js_null : jsval := Some Json.Null.
Definition js_str (s : string) : jsval := Some (Json.Str s).

(** The exceptions the built-ins used by the receiver throw. *)
Inductive js_error : Type :=
| SyntaxError_JSON        (* JSON.parse on a text that is not JSON *)
| TypeError_property      (* reading a property of undefined or null *)
| TypeError_primitive     (* "Cannot convert object to primitive value" *)
| TypeError_arg_type      (* ERR_INVALID_ARG_TYPE, from hmac.update *)
| RangeError_length.      (* ERR_CRYPTO_TIMING_SAFE_EQUAL_LENGTH *)

Inductive completion (A : Type) : Type :=
| Return (a : A)
| Throw (e : js_error).
Arguments Return {A} a.
Arguments Throw {A} e.

(** The double nearest to [m * 10^e] is zero: the literal is zero, or it
    is at most [2^-1075], half the smallest positive double. *)
Definition number_is_zero (m e : Z) : bool :=
  ((m =? 0) || ((e <? 0) && (Z.abs m * 2 ^ 1075 <=? 10 ^ (- e))))%Z.

(** ToBoolean. *)
Definition truthy (v : jsval) : bool :=
  match v with
  | None => false
  | Some Json.Null => false
  | Some (Json.Bool b) => b
  | Some (Json.Num m e) => negb (number_is_zero m e)
  | Some (Json.Str s) => negb (String.eqb s EmptyString)
  | Some (Json.Arr _) => true
  | Some (Json.Obj _) => true
  end.

(** [a || b]. *)
Definition js_or (a b : jsval) : jsval := if truthy a then a else b.

(** ToBoolean of a value that is a string or [undefined], such as an
    environment variable or a request header. *)
Definition truthy_str (s : option string) : bool :=
  match s with
  | Some s => negb (String.eqb s EmptyString)
  | None => false
  end.

(** [v.k], for the property names the receiver reads ([type],
    [payload], the payload fields and [download_link]): none of them is a
    built-in property of a string, a number, a boolean or an array, so
    only an object can have one.  Reading a property of [undefined] or
    [null] throws. *)
Definition prop (v : jsval) (k : string) : jsval :=
  match v with
  | Some (Json.Obj kv) => Json.get kv k
  | _ => None
  end.

Definition get_prop (v : jsval) (k : string) : completion jsval :=
  match v with
  | None | Some Json.Null => Throw TypeError_property
  | _ => Return (prop v k)
  end.

(** ToPrimitive succeeds, so that [`${v}`] and [v * 1000] do not throw.
    A parsed object has no callable property of its own: an own
    [toString] member hides [Object.prototype.toString], and since
    [Object.prototype.valueOf] (or a hidden one) gives no primitive, the
    conversion throws a TypeError.  An array is joined, converting each
    element that is not [null]. *)
Fixpoint to_primitive_ok (v : Json.value) : bool :=
  match v with
  | Json.Obj kv =>
      match Json.get kv "toString" with
      | Some _ => false
      | None => true
      end
  | Json.Arr l => forallb to_primitive_ok l
  | _ => true
  end.

Definition convertible (v : jsval) : bool :=
  match v with
  | Some v => to_primitive_ok v
  | None => true
  end.

(** ** The log file

    A log line is the message given to [writeLog]; the timestamp
    [writeLog] puts before it is left out.  A message is the template
    literal of the source with its holes: [Interp v] is [`${v}`],
    [LocaleTime v] is [new Date(v * 1000).toLocaleString()], [Minutes v]
    is [Math.round(v / 60 * 100) / 100] and [ErrorMessage e] is
    [error.message]. *)
Inductive fragment : Type :=
| Lit (s : string)
| Interp (v : jsval)
| LocaleTime (v : jsval)
| Minutes (v : jsval)
| ErrorMessage (e : js_error).

Definition message : Type := list fragment.

(** What a request handler does besides answering: the lines it appends
    to [LOG_FILE], oldest first, and (as a ghost field, to state which
    handler ran) the handlers the dispatch [switch] calls.  No handler
    reads the log, so a computation is given by what it appends. *)
Inductive handler : Type :=
| HandleRecordingStarted
| HandleRecordingReady
| HandleRecordingError.

Record effects : Type := mkEffects {
  logged : list message;
  handled : list handler
}.

Definition no_effects : effects := {| logged := []; handled := [] |}.

Definition and_then (x y : effects) : effects :=
  {| logged := logged x ++ logged y; handled := handled x ++ handled y |}.

(** Computations that append to the log and may throw.  What was logged
    before an exception stays logged. *)
Definition M (A : Type) : Type := completion A * effects.

Definition ret {A} (a : A) : M A := (Return a, no_effects).
Definition throw {A} (e : js_error) : M A := (Throw e, no_effects).
Definition lift {A} (c : completion A) : M A := (c, no_effects).
Definition bind {A B} (m : M A) (f : A -> M B) : M B :=
  match m with
  | (Return a, x) => let '(c, y) := f a in (c, and_then x y)
  | (Throw e, x) => (Throw e, x)
  end.

Notation "'let*' x ':=' m 'in' k" := (bind m (fun x => k))
  (at level 10, x name, m at level 100, k at level 200).
Notation "m '>>' k" := (bind m (fun _ => k))
  (at level 100, k at level 200, right associativity).

(** [try { body } catch (error) { handle(error) }] *)
Definition try_catch {A} (body : M A) (handle : js_error -> M A) : M A :=
  match body with
  | (Return a, x) => (Return a, x)
  | (Throw e, x) => let '(c, y) := handle e in (c, and_then x y)
  end.

(** [writeLog(message)]: the append to the log file.  A failure of
    [fs.appendFileSync] is caught inside [writeLog], which therefore
    never throws; the file is taken to be writable. *)
Definition writeLog (msg : message) : M unit :=
  (Return tt, {| logged := [msg]; handled := [] |}).

Definition called (h : handler) : M unit :=
  (Return tt, {| logged := []; handled := [h] |}).

(** [`${v}`] inside a template literal. *)
Definition interp (v : jsval) : M fragment :=
  if convertible v then ret (Interp v) else throw TypeError_primitive.

(** A numeric use [v * k] or [v / k]. *)
Definition to_number (v : jsval) : M unit :=
  if convertible v then ret tt else throw TypeError_primitive.

(** ** Configuration, requests and responses *)

(** [process.env], after [dotenv.config()]. *)
Definition environment : Type := gmap string string.

Record config : Type := mkConfig {
  PORT : string;
  LOG_FILE : string;
  WEBHOOK_SECRET : option string
}.

(** [x || d] for an environment variable [x]. *)
Definition env_or (x : option string) (d : string) : string :=
  if truthy_str x then default d x else d.

Definition load_config (env : environment) : config :=
  {| PORT := env_or (env !! "WEBHOOK_PORT") "3001";
     LOG_FILE := env_or (env !! "LOG_FILE") "./recording_events.log";
     WEBHOOK_SECRET := env !! "DAILY_WEBHOOK_SECRET" |}.

(** [req.body] as a route handler finds it: the [Buffer] left by
    [express.raw], or a value (the object built by [express.json], or
    whatever else a body parser left there). *)
Inductive body : Type :=
| Buffer (b : string)
| Parsed (v : jsval).

Record request : Type := mkRequest {
  method : string;
  headers : gmap string string;   (* names in lower case, as Node gives them *)
  req_body : body;
  now : string                    (* [new Date().toISOString()] *)
}.

Inductive response_body : Type :=
| JsonBody (v : Json.value)       (* [res.json(v)] *)
| ErrorPage.                      (* the page of Express's error handler *)

Record response : Type := mkResponse {
  status : Z;
  res_body : response_body
}.

Definition res_json (code : Z) (kv : list (string * Json.value)) : response :=
  {| status := code; res_body := JsonBody (Json.Obj kv) |}.

(** ** Signature verification *)

(** [crypto.timingSafeEqual(a, b)]: throws when the byte lengths differ,
    else tells whether the buffers are equal. *)
Definition timingSafeEqual (a b : list N) : completion bool :=
  if bool_decide (length a = length b)
  then Return (bool_decide (a = b))
  else Throw RangeError_length.

(** The bytes [hmac.update(payload)] hashes: [payload] must be a string
    or a [Buffer] (a typed array or [DataView] cannot be a request body);
    any other value makes [update] throw. *)
Definition hmac_input (payload : body) : completion string :=
  match payload with
  | Buffer b => Return b
  | Parsed (Some (Json.Str s)) => Return s
  | Parsed _ => Throw TypeError_arg_type
  end.

(** [s.startsWith(p)] *)
Fixpoint startsWith (p s : string) : bool :=
  match p, s with
  | EmptyString, _ => true
  | String a p', String b s' => Ascii.eqb a b && startsWith p' s'
  | String _ _, EmptyString => false
  end.

(** [s.slice(n)] *)
Definition slice (n : nat) (s : string) : string :=
  String.substring n (String.length s - n) s.

Definition verifyWebhookSignature
    (payload : body) (signature secret : option string) : completion bool :=
  if negb (truthy_str secret) || negb (truthy_str signature) then Return false
  else
    match hmac_input payload with
    | Throw e => Throw e
    | Return data =>
        let signature := default EmptyString signature in
        let expectedSignature := hmac_sha256_hex (default EmptyString secret) data in
        let actualSignature :=
          if startsWith "sha256=" signature then slice 7 signature
          else signature in
        timingSafeEqual (Hex.decode expectedSignature)
                        (Hex.decode actualSignature)
    end.

(** ** Enrichment lookups *)

(** What [await axios.get(url, ...)] does: it throws (network failure,
    status outside 2xx) or gives a response whose [data] is a value. *)
Inductive axios_result : Type :=
| AxiosRejected
| AxiosResponse (data : jsval).

(** The provider's API, as seen through [axios.get]: the URL is the
    template literal of the call. *)
Definition provider : Type := list fragment -> axios_result.

(** The body of both lookups after the URL is built:
    [return response.data.download_link || null], with every exception
    caught and turned into [null]. *)
Definition download_link_of (r : axios_result) : jsval :=
  match r with
  | AxiosRejected => js_null
  | AxiosResponse data =>
      match get_prop data "download_link" with
      | Return v => js_or v js_null
      | Throw _ => js_null
      end
  end.

Definition getRecordingDownloadUrl (api : provider) (recordingId : jsval) : jsval :=
  if convertible recordingId then
    download_link_of
      (api [Lit "https://api.daily.co/v1/recordings/"; Interp recordingId])
  else js_null.

Definition getRecordingAccessLink
    (api : provider) (recordingId : jsval) (validForSecs : jsval) : jsval :=
  if convertible recordingId && convertible validForSecs then
    download_link_of
      (api [Lit "https://api.daily.co/v1/recordings/"; Interp recordingId;
            Lit "/access-link?valid_for_secs="; Interp validForSecs])
  else js_null.

Definition default_valid_for_secs : jsval := Some (Json.Num 3600 0).

(** ** Event handlers *)

Definition not_available : jsval := js_str "Not available".

(** [!event || !event.payload] *)
Definition missing_payload (event : jsval) : bool :=
  negb (truthy event) || negb (truthy (prop event "payload")).

Definition invalid_event (kind : string) : message :=
  [Lit ("❌ INVALID EVENT: Missing payload in " +:+ kind +:+ " event")].

Definition handleRecordingStarted (event : jsval) : M unit :=
  if missing_payload event then
    writeLog (invalid_event "recording.started")
  else
    let payload := prop event "payload" in
    let room_name := prop payload "room_name" in
    let recording_id := prop payload "recording_id" in
    let started_by := prop payload "started_by" in
    let start_ts := prop payload "start_ts" in
    to_number start_ts >>
    let* room := interp room_name in
    let* id := interp recording_id in
    let* by_ := interp (js_or started_by (js_str "Unknown")) in
    writeLog [Lit "🎬 RECORDING STARTED
    Room: "; room; Lit "
    Recording ID: "; id; Lit "
    Started by: "; by_; Lit "
    Start time: "; LocaleTime start_ts].

Definition handleRecordingReady (api : provider) (event : jsval) : M unit :=
  if missing_payload event then
    writeLog (invalid_event "recording.ready-to-download")
  else
    let payload := prop event "payload" in
    let room_name := prop payload "room_name" in
    let recording_id := prop payload "recording_id" in
    let duration := prop payload "duration" in
    let start_ts := prop payload "start_ts" in
    let s3_key := prop payload "s3_key" in
    to_number start_ts >>
    to_number duration >>
    let downloadUrl := getRecordingDownloadUrl api recording_id in
    let accessLink :=
      getRecordingAccessLink api recording_id default_valid_for_secs in
    let* room := interp room_name in
    let* id := interp recording_id in
    let* key := interp (js_or s3_key not_available) in
    let* download := interp (js_or downloadUrl not_available) in
    let* streaming := interp (js_or accessLink not_available) in
    writeLog [Lit "✅ RECORDING STOPPED & READY
    Room: "; room; Lit "
    Recording ID: "; id; Lit "
    Duration: "; Minutes duration; Lit " minutes
    Started: "; LocaleTime start_ts; Lit "
    S3 Key: "; key; Lit "
    
    📥 Download URL: "; download; Lit "
    🎦 Streaming URL: "; streaming].

Definition handleRecordingError (event : jsval) : M unit :=
  if missing_payload event then
    writeLog (invalid_event "recording.error")
  else
    let payload := prop event "payload" in
    let room_name := prop payload "room_name" in
    let recording_id := prop payload "recording_id" in
    let error_msg := prop payload "error_msg" in
    let* room := interp room_name in
    let* id := interp recording_id in
    let* err := interp (js_or error_msg (js_str "Unknown error")) in
    writeLog [Lit "❌ RECORDING ERROR
    Room: "; room; Lit "
    Recording ID: "; id; Lit "
    Error: "; err].

(** ** Routes *)

(** [req.headers['x-daily-signature'] || req.headers['x-signature']] *)
Definition signature_header (req : request) : option string :=
  if truthy_str (headers req !! "x-daily-signature")
  then headers req !! "x-daily-signature"
  else headers req !! "x-signature".

(** [JSON.parse(text)] *)
Definition JSON_parse (text : string) : M jsval :=
  match Json.parse text with
  | Some v => ret (Some v)
  | None => throw SyntaxError_JSON
  end.

(** The event: the body is parsed when it is a string or a [Buffer]
    and used as it is otherwise. *)
Definition decode_event (payload : body) : M jsval :=
  match payload with
  | Buffer b => JSON_parse b
  | Parsed (Some (Json.Str s)) => JSON_parse s
  | Parsed v => ret v
  end.

(** [x === 'literal'] *)
Definition is_string (v : jsval) (s : string) : bool :=
  match v with
  | Some (Json.Str s') => String.eqb s' s
  | _ => false
  end.

(** [switch (event.type) { ... }] *)
Definition dispatch (api : provider) (event : jsval) : M unit :=
  let* type := lift (get_prop event "type") in
  if is_string type "recording.started" then
    called HandleRecordingStarted >> handleRecordingStarted event
  else if is_string type "recording.ready-to-download" then
    called HandleRecordingReady >> handleRecordingReady api event
  else if is_string type "recording.error" then
    called HandleRecordingError >> handleRecordingError event
  else
    let* t := interp type in
    writeLog [Lit "📝 WEBHOOK: Received event type: "; t].

Definition invalid_signature_line : message :=
  [Lit "❌ WEBHOOK ERROR: Invalid signature"].

Definition webhook_error_line (e : js_error) : message :=
  [Lit "❌ WEBHOOK ERROR: "; ErrorMessage e].

Definition unauthorized : response :=
  res_json 401 [("error", Json.Str "Invalid signature")].
Definition received : response :=
  res_json 200 [("status", Json.Str "received")].
Definition internal_error : response :=
  res_json 500 [("error", Json.Str "Internal server error")].
Definition method_not_allowed : response :=
  res_json 405 [("error", Json.Str "Method not allowed")].
Definition verified (req : request) : response :=
  res_json 200 [("message", Json.Str "Daily.co webhook endpoint verified");
                ("timestamp", Json.Str (now req))].

(** The [catch] block of both webhook routes. *)
Definition on_error (e : js_error) : M response :=
  writeLog (webhook_error_line e) >> ret internal_error.

(** [app.post('/webhook', ...)] *)
Definition post_webhook (cfg : config) (api : provider) (req : request) : M response :=
  try_catch
    (let signature := signature_header req in
     let payload := req_body req in
     let* rejected :=
       if truthy_str (WEBHOOK_SECRET cfg) && truthy_str signature then
         let* isValid :=
           lift (verifyWebhookSignature payload signature (WEBHOOK_SECRET cfg)) in
         ret (negb isValid)
       else ret false in
     if rejected then
       writeLog invalid_signature_line >> ret unauthorized
     else
       let* event := decode_event payload in
       dispatch api event >>
       ret received)
    on_error.

(** [app.all('/', ...)] *)
Definition all_root (cfg : config) (api : provider) (req : request) : M response :=
  try_catch
    (if String.eqb (method req) "GET" then
       writeLog [Lit "🔍 VERIFICATION: Daily.co webhook verification request received"] >>
       ret (verified req)
     else if String.eqb (method req) "POST" then
       let signature := signature_header req in
       let payload := req_body req in
       let* rejected :=
         if truthy_str (WEBHOOK_SECRET cfg) && truthy_str signature then
           let* isValid :=
             lift (verifyWebhookSignature payload signature (WEBHOOK_SECRET cfg)) in
           ret (negb isValid)
         else ret false in
       if rejected then
         writeLog invalid_signature_line >> ret unauthorized
       else
         let* event := decode_event payload in
         let* type := lift (get_prop event "type") in
         let* t := interp type in
         writeLog [Lit "📝 WEBHOOK EVENT RECEIVED: "; t] >>
         dispatch api event >>
         ret received
     else ret method_not_allowed)
    on_error.

(** [app.get('/webhook', ...)] *)
Definition get_webhook (req : request) : M response :=
  writeLog [Lit "🔍 VERIFICATION: Daily.co webhook GET verification request"] >>
  ret (verified req).

(** ** Body parsers and routing

    [app.use('/webhook', express.raw({ type: 'application/json' }))]
    followed by [app.use(express.json())], for a POST request that
    carries a body with [Content-Type: application/json] (what the
    provider sends), not compressed and within the parsers' size limit.
    On [/webhook] the raw parser stores the bytes as a [Buffer] and the
    JSON parser, finding the body already read, does nothing.  On [/]
    only the JSON parser runs. *)

Definition first_char (s : string) : option ascii :=
  match Json.skip_ws s with
  | String c _ => Some c
  | EmptyString => None
  end.

(** [express.json()] with its default options: an empty body is [{}];
    in strict mode the first character that is not white space must open
    an object or an array; the text is then given to [JSON.parse].
    [None] is the 400 error the parser hands to Express. *)
Definition express_json (raw : string) : option jsval :=
  if String.eqb raw EmptyString then Some (Some (Json.Obj []))
  else
    match first_char raw with
    | Some "{"%char | Some "["%char =>
        match Json.parse raw with
        | Some v => Some (Some v)
        | None => None
        end
    | _ => None
    end.

Inductive path : Type :=
| Root       (* [/] *)
| Webhook.   (* [/webhook] *)

Record delivery : Type := mkDelivery {
  d_headers : gmap string string;
  d_body : string;
  d_now : string
}.

Definition bad_request : response := {| status := 400; res_body := ErrorPage |}.

(** The request the route handler receives, with the body the parsers
    left in [req.body]. *)
Definition request_of (d : delivery) (b : body) : request :=
  {| method := "POST"; headers := d_headers d; req_body := b; now := d_now d |}.

Definition deliver_post
    (cfg : config) (api : provider) (p : path) (d : delivery) : M response :=
  match p with
  | Webhook => post_webhook cfg api (request_of d (Buffer (d_body d)))
  | Root =>
      match express_json (d_body d) with
      | Some v => all_root cfg api (request_of d (Parsed v))
      | None => ret bad_request
      end
  end.

(** ** Start-up *)

Inductive startup_step : Type :=
| MkdirLogDir                (* [fs.mkdirSync(logDir, { recursive: true })] *)
| WriteEnvFile               (* [fs.writeFileSync(envPath, ...)] *)
| Listen (port : string)     (* [app.listen(PORT, ...)] *)
| Exit (code : Z).           (* [process.exit(code)] *)

(** The module body of [webhook-server.js], from [dotenv.config()] to
    [app.listen]: the configuration is read, the directory of the log
    file is created if it is missing, the routes are registered and the
    listener is bound.  [DAILY_API_KEY] is read by the two lookups only. *)
Definition webhook_server_startup
    (env : environment) (log_dir_exists : bool) : list startup_step :=
  let cfg := load_config env in
  (if log_dir_exists then [] else [MkdirLogDir]) ++ [Listen (PORT cfg)].

(** The first statements of [daily-test.js], the command-line tool: an
    empty list is the script going on to its commands. *)
Definition daily_test_startup
    (env : environment) (env_file_exists : bool) : list startup_step :=
  if negb env_file_exists then [WriteEnvFile; Exit 1]
  else if negb (truthy_str (env !! "DAILY_API_KEY")) then [Exit 1]
  else [].

(** A configuration with the signing secret [s], and a request to a
    route handler with the given signature header and body. *)
Definition config_with (secret : option string) : config :=
  {| PORT := "3001"; LOG_FILE := "./recording_events.log";
     WEBHOOK_SECRET := secret |}.

Definition signed_headers (signature : option string) : gmap string string :=
  match signature with
  | Some s => {[ "x-daily-signature" := s ]}
  | None => ∅
  end.

Definition post_request (signature : option string) (b : body) : request :=
  {| method := "POST"; headers := signed_headers signature;
     req_body := b; now := "2024-01-01T00:00:00.000Z" |}.

(** A provider whose every call fails. *)
Definition provider_down : provider := fun _ => AxiosRejected.

(** ** Notions used to state the properties *)

(** The signature with the algorithm tag removed: [actualSignature]. *)
Definition strip_tag (signature : string) : string :=
  if startsWith "sha256=" signature then slice 7 signature else signature.

(** The route verifies the signature: [WEBHOOK_SECRET && signature]. *)
Definition verification_runs (cfg : config) (req : request) : bool :=
  truthy_str (WEBHOOK_SECRET cfg) && truthy_str (signature_header req).

Definition verification_result (cfg : config) (req : request) : completion bool :=
  verifyWebhookSignature (req_body req) (signature_header req) (WEBHOOK_SECRET cfg).

(** The request is authenticated, or the route runs without
    verification: in both cases the route goes on to decode the event. *)
Definition accepted (cfg : config) (req : request) : Prop :=
  verification_runs cfg req = false \/ verification_result cfg req = Return true.

(** The handler the dispatch calls for an event type, if it knows it. *)
Definition handler_of (kind : string) : option handler :=
  if String.eqb kind "recording.started" then Some HandleRecordingStarted
  else if String.eqb kind "recording.ready-to-download" then Some HandleRecordingReady
  else if String.eqb kind "recording.error" then Some HandleRecordingError
  else None.

(** What is left of a webhook route once the request is accepted. *)
Definition process_event (api : provider) (payload : body) : M response :=
  let* event := decode_event payload in
  dispatch api event >>
  ret received.

(** Requests used in the examples. *)
Definition error_event_text : string :=
  json_text "{'type':'recording.error','payload':{'room_name':'demo','recording_id':'r1','error_msg':'disk full'}}".

Definition error_event_line : message :=
  [Lit "❌ RECORDING ERROR
    Room: "; Interp (js_str "demo"); Lit "
    Recording ID: "; Interp (js_str "r1"); Lit "
    Error: "; Interp (js_str "disk full")].

(** The line [handleRecordingReady] writes for a payload, given the
    results of the two lookups. *)
Definition ready_line (payload download streaming : jsval) : message :=
  [Lit "✅ RECORDING STOPPED & READY
    Room: "; Interp (prop payload "room_name"); Lit "
    Recording ID: "; Interp (prop payload "recording_id"); Lit "
    Duration: "; Minutes (prop payload "duration"); Lit " minutes
    Started: "; LocaleTime (prop payload "start_ts"); Lit "
    S3 Key: "; Interp (js_or (prop payload "s3_key") not_available); Lit "
    
    📥 Download URL: "; Interp download; Lit "
    🎦 Streaming URL: "; Interp streaming].

Definition unknown_type_line (type : jsval) : message :=
  [Lit "📝 WEBHOOK: Received event type: "; Interp type].

Definition is_str (v : jsval) : bool :=
  match v with Some (Json.Str _) => true | _ => false end.
Definition is_num (v : jsval) : bool :=
  match v with Some (Json.Num _ _) => true | _ => false end.
Definition is_absent (v : jsval) : bool :=
  match v with None => true | _ => false end.

(** A well-formed payload of a [recording.ready-to-download] event: an
    object with a room name and a recording id that are strings, a
    duration and a start timestamp that are numbers, and, if present, a
    storage key that is a string. *)
Definition well_formed_ready (payload : jsval) : bool :=
  match payload with
  | Some (Json.Obj _) =>
      is_str (prop payload "room_name") && is_str (prop payload "recording_id")
      && is_num (prop payload "duration") && is_num (prop payload "start_ts")
      && (is_str (prop payload "s3_key") || is_absent (prop payload "s3_key"))
  | _ => false
  end.

(** Both enrichment calls for the recording fail. *)
Definition lookups_fail (api : provider) (recordingId : jsval) : Prop :=
  api [Lit "https://api.daily.co/v1/recordings/"; Interp recordingId]
    = AxiosRejected
  /\ api [Lit "https://api.daily.co/v1/recordings/"; Interp recordingId;
          Lit "/access-link?valid_for_secs="; Interp default_valid_for_secs]
    = AxiosRejected.

(** The answer of the [catch] block: 500 and one error line, no handler. *)
Definition rejected_as_malformed (out : M response) : Prop :=
  exists e, out = (Return internal_error,
                   {| logged := [webhook_error_line e]; handled := [] |}).

(** A request to [/webhook] signed with the digest of its body. *)
Definition signed_request (secret text : string) : request :=
  post_request (Some ("sha256=" +:+ hmac_sha256_hex secret text)) (Buffer text).

Definition unknown_event_text : string :=
  json_text "{'type':'meeting.ended','payload':{'room':'demo'}}".

Definition ready_event_text : string :=
  json_text "{'type':'recording.ready-to-download','payload':{'room_name':'demo','recording_id':'r1','duration':125,'start_ts':1700000000}}".

Definition ready_event_payload : jsval :=
  Some (Json.Obj [("room_name", Json.Str "demo"); ("recording_id", Json.Str "r1");
                  ("duration", Json.Num 125 0); ("start_ts", Json.Num 1700000000 0)]).

Definition started_without_payload_text : string :=
  json_text "{'type':'recording.started'}".

(** The line the root route writes before the dispatch, when the type
    of the event can be printed. *)
Definition root_extra_line (type : jsval) : list message :=
  if convertible type then [[Lit "📝 WEBHOOK EVENT RECEIVED: "; Interp type]]
  else [].

Definition is_container (v : Json.value) : bool :=
  match v with
  | Json.Obj _ | Json.Arr _ => true
  | _ => false
  end.

Definition unsigned_delivery (text : string) : delivery :=
  {| d_headers := ∅; d_body := text; d_now := "2024-01-01T00:00:00.000Z" |}.

Definition signed_delivery (secret text : string) : delivery :=
  {| d_headers := signed_headers (Some ("sha256=" +:+ hmac_sha256_hex secret text));
     d_body := text; d_now := "2024-01-01T00:00:00.000Z" |}.

(** Start-up ends the process with a non-zero status; start-up binds the
    listener. *)
Definition exits_nonzero (steps : list startup_step) : bool :=
  existsb (fun s => match s with Exit c => negb (c =? 0)%Z | _ => false end) steps.

Definition listens (steps : list startup_step) : bool :=
  existsb (fun s => match s with Listen _ => true | _ => false end) steps.

Definition error_event_value : jsval :=
  Some (Json.Obj
    [("type", Json.Str "recording.error");
     ("payload", Json.Obj [("room_name", Json.Str "demo");
                           ("recording_id", Json.Str "r1");
                           ("error_msg", Json.Str "disk full")])]).

(** ** Notions used to state the further properties *)

(** The lines the known handlers write for a payload. *)
Definition started_line (payload : jsval) : message :=
  [Lit "🎬 RECORDING STARTED
    Room: "; Interp (prop payload "room_name"); Lit "
    Recording ID: "; Interp (prop payload "recording_id"); Lit "
    Started by: "; Interp (js_or (prop payload "started_by") (js_str "Unknown")); Lit "
    Start time: "; LocaleTime (prop payload "start_ts")].

Definition error_line (payload : jsval) : message :=
  [Lit "❌ RECORDING ERROR
    Room: "; Interp (prop payload "room_name"); Lit "
    Recording ID: "; Interp (prop payload "recording_id"); Lit "
    Error: "; Interp (js_or (prop payload "error_msg") (js_str "Unknown error"))].

(** The values a handler converts to text or to a number before it
    writes its line, in the order of the source. *)
Definition started_fields (payload : jsval) : list jsval :=
  [prop payload "start_ts"; prop payload "room_name"; prop payload "recording_id";
   js_or (prop payload "started_by") (js_str "Unknown")].

Definition error_fields (payload : jsval) : list jsval :=
  [prop payload "room_name"; prop payload "recording_id";
   js_or (prop payload "error_msg") (js_str "Unknown error")].

Definition ready_fields (payload : jsval) : list jsval :=
  [prop payload "start_ts"; prop payload "duration"; prop payload "room_name";
   prop payload "recording_id"; js_or (prop payload "s3_key") not_available].

(** The number of lines a computation appends is one when it returns and
    none when it throws. *)
Definition one_line_or_throw {A} (m : M A) : Prop :=
  match fst m with
  | Return _ => length (logged (snd m)) = 1%nat
  | Throw _ => logged (snd m) = []
  end.

(** The hex digits of a text written with capital letters. *)
Definition upper_digit (c : ascii) : ascii :=
  let n := N_of_ascii c in
  if ((97 <=? n) && (n <=? 102))%N then ascii_of_N (n - 32) else c.

Fixpoint upper_hex (s : string) : string :=
  match s with
  | EmptyString => EmptyString
  | String c s' => String (upper_digit c) (upper_hex s')
  end.

(** [Buffer.from(_, 'hex')] reads nothing of [junk]: it is at most one
    character long, or its first two characters are not both hex
    digits. *)
Definition stops_decoding (junk : string) : bool :=
  match junk with
  | String c1 (String c2 _) =>
      match Hex.unhex c1, Hex.unhex c2 with
      | Some _, Some _ => false
      | _, _ => true
      end
  | _ => true
  end.

(** The handler the dispatch runs, and the values it converts. *)
Definition run_handler (api : provider) (h : handler) (event : jsval) : M unit :=
  match h with
  | HandleRecordingStarted => handleRecordingStarted event
  | HandleRecordingReady => handleRecordingReady api event
  | HandleRecordingError => handleRecordingError event
  end.

Definition handler_fields (h : handler) (payload : jsval) : list jsval :=
  match h with
  | HandleRecordingStarted => started_fields payload
  | HandleRecordingReady => ready_fields payload
  | HandleRecordingError => error_fields payload
  end.

(** The URLs of the two lookups for a recording. *)
Definition recording_url (recordingId : jsval) : list fragment :=
  [Lit "https://api.daily.co/v1/recordings/"; Interp recordingId].

Definition access_link_url (recordingId : jsval) : list fragment :=
  [Lit "https://api.daily.co/v1/recordings/"; Interp recordingId;
   Lit "/access-link?valid_for_secs="; Interp default_valid_for_secs].

Definition started_event_text : string :=
  json_text "{'type':'recording.started','payload':{'room_name':'demo','recording_id':'r1','started_by':'alice','start_ts':1700000000}}".

Definition started_event_payload : jsval :=
  Some (Json.Obj [("room_name", Json.Str "demo"); ("recording_id", Json.Str "r1");
                  ("started_by", Json.Str "alice");
                  ("start_ts", Json.Num 1700000000 0)]).

Definition error_event_payload : jsval :=
  Some (Json.Obj [("room_name", Json.Str "demo"); ("recording_id", Json.Str "r1");
                  ("error_msg", Json.Str "disk full")]).

(** A provider that answers every metadata call and every access-link
    call with a link. *)
Definition provider_up : provider :=
  fun url =>
    match url with
    | [_; _] =>
        AxiosResponse (Some (Json.Obj [("download_link", Json.Str "https://dl/r1.mp4")]))
    | [_; _; _; _] =>
        AxiosResponse (Some (Json.Obj [("download_link", Json.Str "https://stream/r1")]))
    | _ => AxiosRejected
    end.

Definition null_payload_text : string :=
  json_text "{'type':'recording.error','payload':null}".

Definition unprintable_text : string :=
  json_text "{'type':'recording.error','payload':{'room_name':{'toString':1}}}".

(** * The command-line tool ([daily-test.js])

    The [DailyTester] class and [runTests], the command dispatcher the
    module calls once its start-up checks ([daily_test_startup]) have
    passed.  A run of the tool is modelled by what it does to the
    outside: the calls it sends to the provider and the files it writes
    or removes, in order, and how it ends.  What the run depends on is
    gathered in a [world]: the environment, the command line, the files
    of the working directory, the answers of the provider, and the
    results of the library calls that are not computed here
    ([uuidv4], [Date.now], [jwt.sign]).  No run makes the same call
    twice, so that the provider is given by a function from a call to
    its answer.

    Left out: the output on the console, except that building a message
    from a template literal may throw, which is kept.  The calls
    [fs.writeFileSync], [fs.unlinkSync] and [fs.mkdirSync] are taken to
    succeed. *)

Declare Scope tool_scope.

Module DailyTester.

(** The values thrown inside the tool; each is an [Error] object, of
    which the catch-all of [runTests] prints the message. *)
Inductive thrown : Type :=
| Error (message : string)   (* [new Error(message)] *)
| Builtin (e : js_error)     (* thrown by a built-in, as in the receiver *)
| NotAFunction               (* TypeError: calling what is not a function *)
| AxiosError                 (* the rejection of an axios call *)
| SignError                  (* thrown by [jwt.sign] *)
| ReadError                  (* thrown by [fs.readFileSync] *)
| StreamError.               (* the ['error'] event of the write stream *)

Inductive verb : Type := GET | POST | PATCH | DELETE.

(** A call through [dailyApi]: the URL is the template literal of the
    call, relative to [https://api.daily.co/v1/]. *)
Record call : Type := mkCall {
  verb_of : verb;
  url : list fragment;
  sent : option Json.value
}.

(** Texts built from template literals: besides the holes of a log
    line, a hole may hold a token made by [jwt.sign] from a payload, or
    a reading of [Date.now()]. *)
Inductive piece : Type :=
| Part (f : fragment)
| Jwt (payload : Json.value)
| Millis (t : Z).

(** A member of an object given to [JSON.stringify]. *)
Inductive cell : Type :=
| Val (v : jsval)
| Text (t : list piece).

(** How the download of a recording goes, from [axios({ url,
    responseType: 'stream' })] on. *)
Inductive transfer : Type :=
| NoResponse     (* the axios call is rejected *)
| Saved          (* the write stream emits ['finish'] *)
| WriterFailed   (* the write stream emits ['error'] *)
| SourceFailed.  (* the response stream fails: the write stream emits neither *)

(** What a run does to the outside. *)
Inductive action : Type :=
| Api (c : call)                 (* the call is made through [dailyApi] *)
| SaveJson (file : string) (members : list (string * cell))
                                 (* [fs.writeFileSync(file, JSON.stringify({...}))] *)
| Unlink (file : string)         (* [fs.unlinkSync(file)] *)
| Mkdir (dir : string)           (* [fs.mkdirSync(dir, { recursive: true })] *)
| Fetch (link : jsval)           (* [axios({ method: 'GET', url: link, responseType: 'stream' })] *)
| CreateWriteStream (dir : string) (filename : list piece).
                                 (* [fs.createWriteStream(path.join(dir, filename))] *)

Record world : Type := mkWorld {
  env : environment;                  (* [process.env] *)
  argv : list string;                 (* [process.argv.slice(2)] *)
  files : gmap string string;         (* the regular files, by the path the tool uses *)
  directories : gset string;          (* the directories, likewise *)
  api : call -> axios_result;         (* the provider, through [dailyApi] *)
  fetch : jsval -> transfer;          (* the download of a link *)
  uuid : string;                      (* [uuidv4()] *)
  clock : nat -> Z;                   (* the successive readings of [Date.now()] *)
  signs : Json.value -> bool;         (* [jwt.sign] returns a token for the payload *)
  exceeds_zero : Json.value -> completion bool
                                      (* [v > 0], for a [length] member [v] of an object *)
}.

(** The fields of the [DailyTester] object, the number of clock readings
    taken and the actions done so far, oldest first. *)
Record state : Type := mkState {
  domainId : jsval;
  roomName : jsval;
  recordingId : jsval;
  ticks : nat;
  trace : list action
}.

(** [new DailyTester()] *)
Definition constructor : state :=
  {| domainId := js_null; roomName := js_null; recordingId := js_null;
     ticks := 0; trace := [] |}.

(** An asynchronous computation either returns, or throws (its promise
    is rejected), or never settles. *)
Inductive outcome (A : Type) : Type :=
| Done (a : A)
| Raised (e : thrown)
| Pending.
Arguments Done {A} a.
Arguments Raised {A} e.
Arguments Pending {A}.

Definition async (A : Type) : Type := state -> outcome A * state.

Definition pure {A} (a : A) : async A := fun s => (Done a, s).

Definition raise {A} (e : thrown) : async A := fun s => (Raised e, s).

Definition pending {A} : async A := fun s => (Pending, s).

Definition chain {A B} (m : async A) (f : A -> async B) : async B :=
  fun s =>
    match m s with
    | (Done a, s') => f a s'
    | (Raised e, s') => (Raised e, s')
    | (Pending, s') => (Pending, s')
    end.

Notation "'let*' x ':=' m 'in' k" := (chain m (fun x => k))
  (at level 10, x name, m at level 100, k at level 200) : tool_scope.
Notation "m '>>' k" := (chain m (fun _ => k))
  (at level 100, k at level 200, right associativity) : tool_scope.

Local Open Scope tool_scope.

(** [try { body } catch (error) { handle(error) }] *)
Definition rescue {A} (body : async A) (handle : thrown -> async A) : async A :=
  fun s =>
    match body s with
    | (Raised e, s') => handle e s'
    | r => r
    end.

Definition this : async state := fun s => (Done s, s).

Definition perform (a : action) : async unit :=
  fun s =>
    (Done tt,
     {| domainId := domainId s; roomName := roomName s;
        recordingId := recordingId s; ticks := ticks s;
        trace := trace s ++ [a] |}).

Definition set_domainId (v : jsval) : async unit :=
  fun s =>
    (Done tt,
     {| domainId := v; roomName := roomName s; recordingId := recordingId s;
        ticks := ticks s; trace := trace s |}).

Definition set_roomName (v : jsval) : async unit :=
  fun s =>
    (Done tt,
     {| domainId := domainId s; roomName := v; recordingId := recordingId s;
        ticks := ticks s; trace := trace s |}).

Definition set_recordingId (v : jsval) : async unit :=
  fun s =>
    (Done tt,
     {| domainId := domainId s; roomName := roomName s; recordingId := v;
        ticks := ticks s; trace := trace s |}).

Definition builtin {A} (c : completion A) : async A :=
  match c with
  | Return a => pure a
  | Throw e => raise (Builtin e)
  end.

(** [v.k] *)
Definition member (v : jsval) (k : string) : async jsval :=
  builtin (get_prop v k).

(** [`${v}`] inside a template literal. *)
Definition hole (v : jsval) : async fragment :=
  if convertible v then pure (Interp v) else raise (Builtin TypeError_primitive).

Section Tool.

Variable w : world.

(** [await dailyApi.get(url)] and the like. *)
Definition request (v : verb) (u : list fragment) (d : option Json.value)
    : async jsval :=
  let c := {| verb_of := v; url := u; sent := d |} in
  perform (Api c) >>
  match api w c with
  | AxiosResponse data => pure data
  | AxiosRejected => raise AxiosError
  end.

(** [Date.now()] *)
Definition Date_now : async Z :=
  fun s =>
    (Done (clock w (ticks s)),
     {| domainId := domainId s; roomName := roomName s;
        recordingId := recordingId s; ticks := S (ticks s);
        trace := trace s |}).

(** [Math.floor(Date.now() / 1000)] *)
Definition seconds : async Z :=
  let* t := Date_now in pure (t / 1000)%Z.

(** [fs.existsSync(file)] *)
Definition existsSync (file : string) : bool :=
  bool_decide (is_Some (files w !! file)) || bool_decide (file ∈ directories w).

(** [JSON.parse(fs.readFileSync(file))]: reading a directory, or a path
    at which there is nothing, throws. *)
Definition read_json (file : string) : async jsval :=
  match files w !! file with
  | Some text =>
      match Json.parse text with
      | Some v => pure (Some v)
      | None => raise (Builtin SyntaxError_JSON)
      end
  | None => raise ReadError
  end.

(** [process.env.DAILY_DOMAIN || 'api.daily.co'] *)
Definition domain : string := env_or (env w !! "DAILY_DOMAIN") "api.daily.co".

Definition getDomainConfig : async jsval :=
  rescue
    (let* data := request GET [Lit "/"] None in
     let* id := member data "domain_id" in
     set_domainId id >>
     pure data)
    (fun _ => raise (Error "Failed to get domain configuration")).

Definition room_options (name : string) (now : Z) : Json.value :=
  Json.Obj
    [("name", Json.Str name);
     ("privacy", Json.Str "private");
     ("properties", Json.Obj
        [("exp", Json.Num (now + 24 * 60 * 60) 0);
         ("enable_chat", Json.Bool true);
         ("enable_screenshare", Json.Bool true);
         ("start_video_off", Json.Bool false);
         ("start_audio_off", Json.Bool false);
         ("enable_recording", Json.Str "cloud")])].

Definition createRoom : async jsval :=
  rescue
    (set_roomName (js_str ("test-room-" +:+ String.substring 0 8 (uuid w))) >>
     let* now := seconds in
     request POST [Lit "/rooms"]
       (Some (room_options ("test-room-" +:+ String.substring 0 8 (uuid w)) now)))
    (fun _ => raise (Error "Failed to create room")).

Definition token_payload (room domain_id : Json.value) (isInterviewer : bool)
    (now : Z) : Json.value :=
  Json.Obj
    ([("r", room);
      ("d", domain_id);
      ("u", Json.Str (if isInterviewer then "Test Interviewer"
                      else "Test Candidate"));
      ("o", Json.Bool isInterviewer);
      ("iat", Json.Num now 0);
      ("exp", Json.Num (now + 2 * 60 * 60) 0)]
     ++ (if isInterviewer
         then [("sr", Json.Bool true); ("er", Json.Str "cloud")]
         else [])
     ++ [("p", Json.Obj
            [("hasPresence", Json.Bool true);
             ("canSend", Json.Bool true);
             ("canReceive", Json.Obj [("base", Json.Bool true)])])]).

(** The token is given by the payload it was signed from. *)
Definition generateMeetingToken (isInterviewer : bool) : async piece :=
  let* self := this in
  if negb (truthy (domainId self)) || negb (truthy (roomName self)) then
    raise (Error "Domain ID and Room Name must be set before generating token")
  else
    let* now := seconds in
    let payload :=
      token_payload (default Json.Null (roomName self))
                    (default Json.Null (domainId self)) isInterviewer now in
    if signs w payload then pure (Jwt payload) else raise SignError.

Definition recording_options : Json.value :=
  Json.Obj [("properties", Json.Obj [("layout", Json.Str "default");
                                     ("max_duration", Json.Num 300 0)])].

Definition startRecording : async jsval :=
  let* self := this in
  if negb (truthy (roomName self)) then
    raise (Error "Room Name must be set before starting recording")
  else
    rescue
      (let* room := hole (roomName self) in
       let* data :=
         request POST [Lit "/rooms/"; room; Lit "/recordings"]
           (Some recording_options) in
       let* id := member data "id" in
       set_recordingId id >>
       pure data)
      (fun _ => raise (Error "Failed to start recording")).

Definition stop_options : Json.value :=
  Json.Obj [("properties", Json.Obj [("stop", Json.Bool true)])].

Definition stopRecording : async jsval :=
  let* self := this in
  if negb (truthy (roomName self)) then
    raise (Error "Room Name must be set before stopping recording")
  else
    rescue
      (let* room := hole (roomName self) in
       request PATCH [Lit "/rooms/"; room; Lit "/recordings"]
         (Some stop_options))
      (fun _ => raise (Error "Failed to stop recording")).

Definition listRecordings : async jsval :=
  rescue
    (let* self := this in
     let* u :=
       if truthy (roomName self) then
         let* room := hole (roomName self) in
         pure [Lit "/recordings?room_name="; room]
       else pure [Lit "/recordings"] in
     request GET u None)
    (fun _ => raise (Error "Failed to list recordings")).

(** The methods below are given arguments of the command line, which
    are strings. *)
Definition getRecordingById (recordingId : string) : async jsval :=
  rescue
    (request GET [Lit "/recordings/"; Interp (js_str recordingId)] None)
    (fun _ => raise (Error "Failed to get recording details")).

Definition listRecordingsByRoom (roomName : string) : async jsval :=
  rescue
    (request GET [Lit "/recordings?room_name="; Interp (js_str roomName)] None)
    (fun _ => raise (Error "Failed to list recordings for room")).

Definition getRecordingStatus : async jsval :=
  let* self := this in
  if negb (truthy (recordingId self)) then
    raise (Error "Recording ID must be set before checking status")
  else
    rescue
      (let* id := hole (recordingId self) in
       request GET [Lit "/recordings/"; id] None)
      (fun _ => raise (Error "Failed to get recording status")).

Definition getRecordingDownloadUrl (recordingId : string) : async jsval :=
  rescue
    (let* data :=
       request GET [Lit "/recordings/"; Interp (js_str recordingId)] None in
     let* link := member data "download_link" in
     if truthy link then pure link else pure js_null)
    (fun error => raise error).

(** [s.replace(p, '')] for a string [p] that is not empty: the first
    occurrence of [p] is removed. *)
Fixpoint remove_first (p s : string) : string :=
  if startsWith p s then slice (String.length p) s
  else
    match s with
    | EmptyString => EmptyString
    | String c s' => String c (remove_first p s')
    end.

(** [`https://${domain.replace('.daily.co', '')}.daily.co/rec/`] *)
Definition share_prefix : string :=
  "https://" +:+ remove_first ".daily.co" domain +:+ ".daily.co/rec/".

Definition getRecordingShareUrl (shareToken : jsval) : async (list fragment) :=
  let* token := hole shareToken in
  pure [Lit share_prefix; token].

Definition downloadRecording (recordingId outputPath : string) : async unit :=
  rescue
    (let* downloadUrl := getRecordingDownloadUrl recordingId in
     if negb (truthy downloadUrl) then raise (Error "Download URL not available")
     else
       (if existsSync outputPath then pure tt else perform (Mkdir outputPath)) >>
       perform (Fetch downloadUrl) >>
       match fetch w downloadUrl with
       | NoResponse => raise AxiosError
       | after_response =>
           let* now := Date_now in
           perform (CreateWriteStream outputPath
                      [Part (Lit "recording_"); Part (Interp (js_str recordingId));
                       Part (Lit "_"); Millis now; Part (Lit ".mp4")]) >>
           match after_response with
           | Saved => pure tt
           | WriterFailed => raise StreamError
           | _ => pending
           end
       end)
    (fun error => raise error).

(** One turn of the [forEach] of [listRecordingAccessInfo]: the
    template literals it prints. *)
Definition show_recording (recording : jsval) : async unit :=
  let* id := member recording "id" in
  hole id >>
  let* status := member recording "status" in
  hole status >>
  let* duration := member recording "duration" in
  hole duration >>
  let* share_token := member recording "share_token" in
  hole share_token >>
  let* s3key := member recording "s3key" in
  if truthy s3key then hole s3key >> pure tt else pure tt.

Fixpoint forEach (l : list Json.value) (f : jsval -> async unit) : async unit :=
  match l with
  | [] => pure tt
  | x :: l' => f (Some x) >> forEach l' f
  end.

(** [data.length > 0] for a truthy [data]. *)
Definition has_length (data : jsval) : async bool :=
  match data with
  | Some (Json.Arr l) => pure (negb (bool_decide (l = [])))
  | Some (Json.Str s) => pure (negb (String.eqb s EmptyString))
  | Some (Json.Obj kv) =>
      match Json.get kv "length" with
      | Some v => builtin (exceeds_zero w v)
      | None => pure false
      end
  | _ => pure false
  end.

Definition listRecordingAccessInfo : async jsval :=
  rescue
    (let* recordings := listRecordings in
     let* data := member recordings "data" in
     let* some := (if truthy data then has_length data else pure false) in
     (if some then
        match data with
        | Some (Json.Arr l) => forEach l show_recording
        | _ => raise NotAFunction
        end
      else pure tt) >>
     pure recordings)
    (fun error => raise error).

Definition webhook_options (webhookUrl : string) : Json.value :=
  Json.Obj
    [("url", Json.Str webhookUrl);
     ("events", Json.Arr [Json.Str "recording-started";
                          Json.Str "recording-done";
                          Json.Str "recording-error"])].

Definition configureWebhook (webhookUrl : string) : async jsval :=
  rescue
    (request POST [Lit "/webhooks"] (Some (webhook_options webhookUrl)))
    (fun _ => raise (Error "Failed to configure webhook")).

Definition deleteRoom : async jsval :=
  let* self := this in
  if negb (truthy (roomName self)) then
    raise (Error "Room Name must be set before deleting")
  else
    rescue
      (let* room := hole (roomName self) in
       request DELETE [Lit "/rooms/"; room] None)
      (fun _ => raise (Error "Failed to delete room")).

Definition listRooms : async jsval :=
  rescue (request GET [Lit "/rooms"] None)
         (fun _ => raise (Error "Failed to list rooms")).

Definition getMeetingUrl : async (list piece) :=
  let* self := this in
  if negb (truthy (roomName self)) then
    raise (Error "Room Name must be set before getting meeting URL")
  else
    let* room := hole (roomName self) in
    pure [Part (Lit "https://"); Part (Lit domain); Part (Lit "/"); Part room].

Definition getFullMeetingUrl (token : piece) : async (list piece) :=
  let* baseUrl := getMeetingUrl in
  pure (baseUrl ++ [Part (Lit "?t="); token]).

(** ** The commands *)

(** [args[i]], when it is there and not empty. *)
Definition argument (i : nat) : option string :=
  match argv w !! i with
  | Some a => if truthy_str (Some a) then Some a else None
  | None => None
  end.

Definition create_room : async unit :=
  createRoom >>
  let* interviewerToken := generateMeetingToken true in
  let* candidateToken := generateMeetingToken false in
  getMeetingUrl >>
  getFullMeetingUrl interviewerToken >>
  getFullMeetingUrl candidateToken >>
  let* self := this in
  let* interviewerUrl := getFullMeetingUrl interviewerToken in
  let* candidateUrl := getFullMeetingUrl candidateToken in
  perform (SaveJson "room-info.json"
    [("roomName", Val (roomName self));
     ("domainId", Val (domainId self));
     ("interviewerToken", Text [interviewerToken]);
     ("candidateToken", Text [candidateToken]);
     ("interviewerUrl", Text interviewerUrl);
     ("candidateUrl", Text candidateUrl)]).

Definition start_recording : async unit :=
  (if existsSync "room-info.json" then
     let* roomInfo := read_json "room-info.json" in
     let* name := member roomInfo "roomName" in
     set_roomName name >>
     let* id := member roomInfo "domainId" in
     set_domainId id >>
     hole name >>
     pure tt
   else raise (Error "No room info found. Create a room first.")) >>
  let* recordingData := startRecording in
  let* id := member recordingData "id" in
  let* self := this in
  perform (SaveJson "recording-info.json"
    [("recordingId", Val id); ("roomName", Val (roomName self))]).

Definition stop_recording : async unit :=
  (if existsSync "room-info.json" && existsSync "recording-info.json" then
     let* roomInfo := read_json "room-info.json" in
     let* recordingInfo := read_json "recording-info.json" in
     let* name := member roomInfo "roomName" in
     set_roomName name >>
     let* id := member recordingInfo "recordingId" in
     set_recordingId id
   else raise (Error "No room or recording info found.")) >>
  stopRecording >>
  pure tt.

Definition list_recordings : async unit :=
  (if existsSync "room-info.json" then
     let* roomInfo := read_json "room-info.json" in
     let* name := member roomInfo "roomName" in
     set_roomName name >>
     hole name >>
     pure tt
   else pure tt) >>
  listRecordings >>
  pure tt.

Definition access_recordings : async unit :=
  (if existsSync "room-info.json" then
     let* roomInfo := read_json "room-info.json" in
     let* name := member roomInfo "roomName" in
     set_roomName name
   else pure tt) >>
  listRecordingAccessInfo >>
  pure tt.

Definition download_recording : async unit :=
  match argument 1 with
  | Some downloadRecordingId =>
      downloadRecording downloadRecordingId
        (default "./recordings/" (argument 2))
  | None =>
      raise (Error "Recording ID is required. Usage: node daily-test.js download-recording ID [output-path]")
  end.

Definition get_download_url : async unit :=
  match argument 1 with
  | Some urlRecordingId => getRecordingDownloadUrl urlRecordingId >> pure tt
  | None =>
      raise (Error "Recording ID is required. Usage: node daily-test.js get-download-url ID")
  end.

Definition get_recording : async unit :=
  match argument 1 with
  | Some recordingId => getRecordingById recordingId >> pure tt
  | None =>
      raise (Error "Recording ID is required. Usage: node daily-test.js get-recording ID")
  end.

Definition recordings_by_room : async unit :=
  match argument 1 with
  | Some roomName => listRecordingsByRoom roomName >> pure tt
  | None =>
      raise (Error "Room name is required. Usage: node daily-test.js recordings-by-room ROOM_NAME")
  end.

Definition delete_room : async unit :=
  if existsSync "room-info.json" then
    let* roomInfo := read_json "room-info.json" in
    let* name := member roomInfo "roomName" in
    set_roomName name >>
    hole name >>
    deleteRoom >>
    perform (Unlink "room-info.json") >>
    if existsSync "recording-info.json" then perform (Unlink "recording-info.json")
    else pure tt
  else raise (Error "No room info found.").

Definition webhook : async unit :=
  match argument 1 with
  | Some webhookUrl => configureWebhook webhookUrl >> pure tt
  | None =>
      raise (Error "Webhook URL is required. Usage: node daily-test.js webhook URL")
  end.

(** The [switch] of [runTests]. *)
Definition commands : list (string * async unit) :=
  [("create-room", create_room);
   ("list-rooms", listRooms >> pure tt);
   ("start-recording", start_recording);
   ("stop-recording", stop_recording);
   ("list-recordings", list_recordings);
   ("access-recordings", access_recordings);
   ("download-recording", download_recording);
   ("get-download-url", get_download_url);
   ("get-recording", get_recording);
   ("recordings-by-room", recordings_by_room);
   ("delete-room", delete_room);
   ("webhook", webhook)].

Fixpoint switch (cases : list (string * async unit)) (command : string)
    : async unit :=
  match cases with
  | [] => pure tt
  | (name, block) :: cases' =>
      if String.eqb command name then block else switch cases' command
  end.

(** How a run ends: [runTests] returns, with or without having printed
    an error in its [catch], or the promise it awaits never settles. *)
Inductive ending : Type :=
| Returned
| Reported (e : thrown)
| Unsettled.

Definition report {A} (r : outcome A * state) : ending * list action :=
  match r with
  | (Done _, s) => (Returned, trace s)
  | (Raised e, s) => (Reported e, trace s)
  | (Pending, s) => (Unsettled, trace s)
  end.

Definition runTests : ending * list action :=
  match argument 0 with
  | None => (Returned, [])
  | Some command =>
      if String.eqb command "help" then (Returned, [])
      else report ((getDomainConfig >> switch commands command) constructor)
  end.

End Tool.

End DailyTester.

(** ** Notions used to state the properties of the command-line tool *)

(** The call every command starts with. *)
Definition domain_call : DailyTester.call :=
  DailyTester.mkCall DailyTester.GET [Lit "/"] None.

(** The provider gives the domain configuration: the call is answered,
    and not with [null] or nothing. *)
Definition domain_known (w : DailyTester.world) : bool :=
  match DailyTester.api w domain_call with
  | AxiosResponse (Some Json.Null) | AxiosResponse None | AxiosRejected => false
  | AxiosResponse (Some _) => true
  end.

Definition is_api (a : DailyTester.action) : bool :=
  match a with
  | DailyTester.Api _ => true
  | _ => false
  end.

(** An action that changes nothing at the provider and no file: a [GET]
    call. *)
Definition is_get (a : DailyTester.action) : bool :=
  match a with
  | DailyTester.Api c =>
      match DailyTester.verb_of c with
      | DailyTester.GET => true
      | _ => false
      end
  | _ => false
  end.

(** A computation only appends to the trace, and what it appends
    satisfies [P]. *)
Definition appends {A} (P : DailyTester.action -> bool)
    (m : DailyTester.async A) : Prop :=
  forall s, exists l,
    DailyTester.trace (m s).2 = DailyTester.trace s ++ l /\ forallb P l = true.

(** The tester once the domain configuration has been received. *)
Definition configured (domain_id : jsval) : DailyTester.state :=
  {| DailyTester.domainId := domain_id;
     DailyTester.roomName := js_null;
     DailyTester.recordingId := js_null;
     DailyTester.ticks := 0;
     DailyTester.trace := [DailyTester.Api domain_call] |}.

(** The commands that change something at the provider, and those that
    write or remove a file. *)
Definition changes_provider : list string :=
  ["create-room"; "start-recording"; "stop-recording"; "delete-room"; "webhook"].

Definition changes_files : list string :=
  ["create-room"; "start-recording"; "delete-room"; "download-recording"].

(** A world for the examples: no file, a provider that answers every
    call with the same object, a download that succeeds. *)
Definition sample_answer : jsval :=
  Some (Json.Obj [("domain_id", Json.Str "d1"); ("id", Json.Str "rec1");
                  ("download_link", Json.Str "https://example.org/rec1.mp4")]).

Definition sample_world (args : list string) (fs : gmap string string)
    (answers : DailyTester.call -> axios_result) : DailyTester.world :=
  {| DailyTester.env := ∅;
     DailyTester.argv := args;
     DailyTester.files := fs;
     DailyTester.directories := ∅;
     DailyTester.api := answers;
     DailyTester.fetch := fun _ => DailyTester.Saved;
     DailyTester.uuid := "123e4567-e89b-42d3-a456-426614174000";
     DailyTester.clock := fun n => (1700000000000 + Z.of_nat n)%Z;
     DailyTester.signs := fun _ => true;
     DailyTester.exceeds_zero := fun _ => Return false |}.

Definition always (answer : jsval) : DailyTester.call -> axios_result :=
  fun _ => AxiosResponse answer.

Definition never : DailyTester.call -> axios_result :=
  fun _ => AxiosRejected.

(** An action that changes nothing at the provider: any action but a
    call other than a [GET]. *)
Definition leaves_provider (a : DailyTester.action) : bool :=
  match a with
  | DailyTester.Api _ => is_get a
  | _ => true
  end.

(** The call that deletes a room, and the removals that follow it. *)
Definition delete_call (name : jsval) : DailyTester.call :=
  DailyTester.mkCall DailyTester.DELETE [Lit "/rooms/"; Interp name] None.

Definition unlinked (w : DailyTester.world) : list DailyTester.action :=
  DailyTester.Unlink "room-info.json"
  :: (if DailyTester.existsSync w "recording-info.json"
      then [DailyTester.Unlink "recording-info.json"] else []).

(** The member [k] of the value kept in the file [path]. *)
Definition kept (w : DailyTester.world) (path k : string) : option jsval :=
  match DailyTester.files w !! path with
  | Some text =>
      match Json.parse text with
      | Some v => Some (prop (Some v) k)
      | None => None
      end
  | None => None
  end.

Definition room_file : gmap string string :=
  {[ "room-info.json" :=
       json_text "{'roomName':'test-room-123e4567','domainId':'d1'}" ]}.

Definition start_call (name : jsval) : DailyTester.call :=
  DailyTester.mkCall DailyTester.POST
    [Lit "/rooms/"; Interp name; Lit "/recordings"]
    (Some DailyTester.recording_options).

(** The room [create-room] asks for, the tokens it signs and what it
    saves, for the domain id [d] received from the provider. *)
Definition new_room (w : DailyTester.world) : string :=
  "test-room-" +:+ String.substring 0 8 (DailyTester.uuid w).

Definition create_call (w : DailyTester.world) : DailyTester.call :=
  DailyTester.mkCall DailyTester.POST [Lit "/rooms"]
    (Some (DailyTester.room_options (new_room w)
             (DailyTester.clock w 0 / 1000)%Z)).

Definition token_of (w : DailyTester.world) (d : Json.value)
    (isInterviewer : bool) : Json.value :=
  DailyTester.token_payload (Json.Str (new_room w)) d isInterviewer
    (DailyTester.clock w (if isInterviewer then 1 else 2) / 1000)%Z.

Definition meeting_url (w : DailyTester.world) (name : jsval)
    (token : Json.value) : list DailyTester.piece :=
  [DailyTester.Part (Lit "https://"); DailyTester.Part (Lit (DailyTester.domain w));
   DailyTester.Part (Lit "/"); DailyTester.Part (Interp name);
   DailyTester.Part (Lit "?t="); DailyTester.Jwt token].

Definition room_record (w : DailyTester.world) (d : Json.value)
    : list (string * DailyTester.cell) :=
  [("roomName", DailyTester.Val (js_str (new_room w)));
   ("domainId", DailyTester.Val (Some d));
   ("interviewerToken", DailyTester.Text [DailyTester.Jwt (token_of w d true)]);
   ("candidateToken", DailyTester.Text [DailyTester.Jwt (token_of w d false)]);
   ("interviewerUrl",
    DailyTester.Text (meeting_url w (js_str (new_room w)) (token_of w d true)));
   ("candidateUrl",
    DailyTester.Text (meeting_url w (js_str (new_room w)) (token_of w d false)))].

(** The world [w] with other files. *)
Definition with_files (w : DailyTester.world) (fs : gmap string string)
    : DailyTester.world :=
  {| DailyTester.env := DailyTester.env w;
     DailyTester.argv := DailyTester.argv w;
     DailyTester.files := fs;
     DailyTester.directories := DailyTester.directories w;
     DailyTester.api := DailyTester.api w;
     DailyTester.fetch := DailyTester.fetch w;
     DailyTester.uuid := DailyTester.uuid w;
     DailyTester.clock := DailyTester.clock w;
     DailyTester.signs := DailyTester.signs w;
     DailyTester.exceeds_zero := DailyTester.exceeds_zero w |}.

Definition needs_room_file : list string :=
  ["start-recording"; "stop-recording"; "delete-room"].

Definition needs_argument : list string :=
  ["download-recording"; "get-download-url"; "get-recording";
   "recordings-by-room"; "webhook"].

(** The lookup of a recording, as the tool sends it, and the steps of a
    download into the directory [out]. *)
Definition recording_call (id : string) : DailyTester.call :=
  DailyTester.mkCall DailyTester.GET [Lit "/recordings/"; Interp (js_str id)] None.

Definition output_path (w : DailyTester.world) : string :=
  default "./recordings/" (DailyTester.argument w 2).

Definition download_steps (w : DailyTester.world) (id : string) (link : jsval)
    : list DailyTester.action :=
  (if DailyTester.existsSync w (output_path w) then []
   else [DailyTester.Mkdir (output_path w)])
  ++ [DailyTester.Fetch link;
      DailyTester.CreateWriteStream (output_path w)
        [DailyTester.Part (Lit "recording_");
         DailyTester.Part (Interp (js_str id));
         DailyTester.Part (Lit "_");
         DailyTester.Millis (DailyTester.clock w 0);
         DailyTester.Part (Lit ".mp4")]].

Definition download_ending (t : DailyTester.transfer) : DailyTester.ending :=
  match t with
  | DailyTester.Saved => DailyTester.Returned
  | DailyTester.WriterFailed => DailyTester.Reported DailyTester.StreamError
  | _ => DailyTester.Unsettled
  end.

Definition creates_file (a : DailyTester.action) : bool :=
  match a with
  | DailyTester.CreateWriteStream _ _ => true
  | _ => false
  end.

(** The receiver and the tool look the same recording up at the same
    place: [dailyApi] puts [https://api.daily.co/v1/] before the path. *)
Definition same_answer (p : provider) (w : DailyTester.world) (id : string)
    : Prop :=
  DailyTester.api w (recording_call id)
  = p [Lit "https://api.daily.co/v1/recordings/"; Interp (js_str id)].

(** What the promise of an asynchronous method gives to a caller that
    treats a failure as [null]. *)
Definition or_null (r : DailyTester.outcome jsval) : jsval :=
  match r with
  | DailyTester.Done v => v
  | _ => js_null
  end.

(** [p] occurs in [s]. *)
Fixpoint includes (p s : string) : bool :=
  startsWith p s
  || match s with
     | EmptyString => false
     | String _ s' => includes p s'
     end.

(** An environment in which only [DAILY_DOMAIN] is set. *)
Definition domain_world (name : string) : DailyTester.world :=
  {| DailyTester.env := {[ "DAILY_DOMAIN" := name ]};
     DailyTester.argv := [];
     DailyTester.files := ∅;
     DailyTester.directories := ∅;
     DailyTester.api := never;
     DailyTester.fetch := fun _ => DailyTester.NoResponse;
     DailyTester.uuid := EmptyString;
     DailyTester.clock := fun _ => 0%Z;
     DailyTester.signs := fun _ => false;
     DailyTester.exceeds_zero := fun _ => Return false |}.

(** * Properties *)

(** ** Test vectors for the digest *)

Example sha256_abc :
  Hex.encode (SHA256.sha256 (bytes_of_string "abc"))
  = "ba7816bf8f01cfea414140de5dae2223b00361a396177a9cb410ff61f20015ad".
Proof. vm_compute. reflexivity. Qed.

Example sha256_two_blocks :
  Hex.encode (SHA256.sha256 (bytes_of_string
    "abcdbcdecdefdefgefghfghighijhijkijkljklmklmnlmnomnopnopq"))
  = "248d6a61d20638b8e5c026930c3e6039a33ce45964ff2167f6ecedd419db06c1".
Proof. vm_compute. reflexivity. Qed.

(** RFC 4231, test case 2. *)
Example hmac_rfc4231_2 :
  hmac_sha256_hex "Jefe" "what do ya want for nothing?"
  = "5bdcc146bf60754e6a042426089575c75a003f089d2739839dec58b964ec3843".
Proof. vm_compute. reflexivity. Qed.

(** RFC 4231, test case 6: a key longer than the block size. *)
Example hmac_rfc4231_6 :
  Hex.encode (SHA256.hmac (repeat 0xaa%N 131) (bytes_of_string
    "Test Using Larger Than Block-Size Key - Hash Key First"))
  = "60e431591ee0b67f0d8a26aacbf5b77f8e0bc6213728c5140546040f0ee37f54".
Proof. vm_compute. reflexivity. Qed.

(** ** Hexadecimal text and digests *)

Section HexFacts.

Local Open Scope N_scope.

Lemma unhex_digit (n : N) : n < 16 -> Hex.unhex (Hex.digit n) = Some n.
Proof.
  intros Hn. destruct n as [| p]; [reflexivity |].
  do 4 (try (destruct p as [p | p |]; try reflexivity)); lia.
Qed.

(** Decoding the hex text of a buffer gives the buffer back. *)
Lemma decode_encode (l : list N) :
  Forall (fun b => b < 256) l -> Hex.decode (Hex.encode l) = l.
Proof.
  induction 1 as [| b l Hb _ IH]; simpl; [reflexivity |].
  rewrite !unhex_digit, IH.
  - f_equal. rewrite N.mul_comm. symmetry. apply N.div_mod'.
  - apply N.mod_lt. discriminate.
  - apply N.Div0.div_lt_upper_bound. exact Hb.
Qed.

Lemma digit_not_s (n : N) : Ascii.eqb "s"%char (Hex.digit n) = false.
Proof.
  destruct n as [| p]; [reflexivity |].
  do 4 (try (destruct p as [p | p |]; try reflexivity)).
Qed.

(** The hex text of a buffer never starts with the algorithm tag. *)
Lemma encode_no_tag (l : list N) : startsWith "sha256=" (Hex.encode l) = false.
Proof.
  destruct l as [| b l]; [reflexivity |].
  cbn [Hex.encode startsWith]. rewrite digit_not_s. reflexivity.
Qed.

Lemma encode_nonempty (l : list N) :
  l <> [] -> String.eqb (Hex.encode l) EmptyString = false.
Proof. destruct l; [congruence | reflexivity]. Qed.

Lemma word_bytes_lt (x : N) : Forall (fun b => b < 256) (SHA256.word_bytes x).
Proof.
  unfold SHA256.word_bytes.
  repeat constructor;
    change 0xFF with (N.ones 8); rewrite N.land_ones;
    apply N.mod_lt; discriminate.
Qed.

Lemma sha256_length (msg : list N) : length (SHA256.sha256 msg) = 32%nat.
Proof.
  unfold SHA256.sha256.
  destruct (fold_left SHA256.compress _ SHA256.H0)
    as [[[[[[[a b] c] d] e] f] g] h].
  reflexivity.
Qed.

Lemma sha256_bytes (msg : list N) :
  Forall (fun b => b < 256) (SHA256.sha256 msg).
Proof.
  unfold SHA256.sha256.
  destruct (fold_left SHA256.compress _ SHA256.H0)
    as [[[[[[[a b] c] d] e] f] g] h].
  unfold SHA256.digest_of_regs.
  repeat (apply Forall_app; split); apply word_bytes_lt.
Qed.

Lemma hmac_length (key msg : list N) : length (SHA256.hmac key msg) = 32%nat.
Proof. apply sha256_length. Qed.

Lemma hmac_bytes (key msg : list N) :
  Forall (fun b => b < 256) (SHA256.hmac key msg).
Proof. apply sha256_bytes. Qed.

(** [Buffer.from(expectedSignature, 'hex')] is the 32-byte digest. *)
Lemma decode_expected (secret data : string) :
  Hex.decode (hmac_sha256_hex secret data)
  = SHA256.hmac (bytes_of_string secret) (bytes_of_string data).
Proof. apply decode_encode, hmac_bytes. Qed.

Lemma expected_no_tag (secret data : string) :
  startsWith "sha256=" (hmac_sha256_hex secret data) = false.
Proof. apply encode_no_tag. Qed.

Lemma expected_truthy (secret data : string) :
  truthy_str (Some (hmac_sha256_hex secret data)) = true.
Proof.
  unfold truthy_str, hmac_sha256_hex. rewrite encode_nonempty; [reflexivity |].
  intros H. pose proof (hmac_length (bytes_of_string secret) (bytes_of_string data)) as L.
  rewrite H in L. discriminate.
Qed.

End HexFacts.

(** ** The blocks of SHA-256 *)

Section Blocks.

(** Cutting the padded message into blocks loses nothing. *)
Lemma chunks_concat {A} (n : nat) (fuel : nat) :
  forall l : list A,
    (0 < n)%nat -> (length l <= fuel)%nat ->
    concat (SHA256.chunks fuel n l) = l.
Proof.
  induction fuel as [| fuel IH]; intros l Hn Hl.
  - destruct l; [reflexivity | cbn in Hl; lia].
  - destruct l as [| a l]; [reflexivity |].
    cbn [SHA256.chunks concat]. rewrite IH, firstn_skipn; [reflexivity | assumption |].
    rewrite length_skipn. cbn [length] in *. lia.
Qed.

(** The padded message is a whole number of 64-byte blocks. *)
Lemma pad_length (msg : list N) :
  exists k, length (SHA256.pad msg) = (64 * k)%nat.
Proof.
  unfold SHA256.pad, SHA256.be_bytes.
  rewrite !length_app, repeat_length, length_map, length_rev, length_seq.
  cbn [length]. generalize (length msg) as len. intros len.
  pose proof (Nat.div_mod_eq len 64) as Hdm.
  pose proof (Nat.mod_upper_bound len 64 ltac:(lia)) as Hlt.
  assert (N.of_nat len mod 64 = N.of_nat (len mod 64))%N as ->
    by (rewrite Nat2N.inj_mod; reflexivity).
  set (r := (len mod 64)%nat) in *.
  destruct (le_lt_dec r 55).
  - exists (len / 64 + 1)%nat.
    assert ((119 - N.of_nat r) mod 64 = 55 - N.of_nat r)%N as ->.
    { replace (119 - N.of_nat r)%N with (55 - N.of_nat r + 1 * 64)%N by lia.
      rewrite N.Div0.mod_add. apply N.mod_small. lia. }
    lia.
  - exists (len / 64 + 2)%nat.
    assert ((119 - N.of_nat r) mod 64 = 119 - N.of_nat r)%N as ->
      by (apply N.mod_small; lia).
    lia.
Qed.

End Blocks.

(** ** The signature verifier *)

Lemma substring_all (s : string) : String.substring 0 (String.length s) s = s.
Proof. induction s as [| c s IH]; simpl; [reflexivity | now rewrite IH]. Qed.

Lemma startsWith_app (p s : string) : startsWith p (p +:+ s) = true.
Proof.
  induction p as [| c p IH]; [reflexivity |].
  change (String c p +:+ s) with (String c (p +:+ s)).
  cbn [startsWith]. now rewrite Ascii.eqb_refl, IH.
Qed.

Lemma slice_app (p s : string) : slice (String.length p) (p +:+ s) = s.
Proof.
  unfold slice. induction p as [| c p IH].
  - change (EmptyString +:+ s) with s. cbn [String.length]. rewrite Nat.sub_0_r.
    apply substring_all.
  - change (String c p +:+ s) with (String c (p +:+ s)).
    cbn [String.length Nat.sub String.substring]. exact IH.
Qed.

Lemma strip_tag_tagged (s : string) : strip_tag ("sha256=" +:+ s) = s.
Proof.
  unfold strip_tag. rewrite startsWith_app. apply (slice_app "sha256=").
Qed.

Lemma strip_tag_expected (secret data : string) :
  strip_tag (hmac_sha256_hex secret data) = hmac_sha256_hex secret data.
Proof. unfold strip_tag. now rewrite expected_no_tag. Qed.

Lemma timingSafeEqual_same (a : list N) : timingSafeEqual a a = Return true.
Proof. unfold timingSafeEqual. now rewrite !bool_decide_eq_true_2. Qed.

Lemma timingSafeEqual_length (a b : list N) :
  length a <> length b -> timingSafeEqual a b = Throw RangeError_length.
Proof. intros H. unfold timingSafeEqual. now rewrite bool_decide_eq_false_2. Qed.

Lemma timingSafeEqual_differ (a b : list N) :
  length a = length b -> a <> b -> timingSafeEqual a b = Return false.
Proof.
  intros HL H. unfold timingSafeEqual.
  now rewrite bool_decide_eq_true_2, bool_decide_eq_false_2.
Qed.

(** What the verifier computes once the secret and the header are both
    present and the payload can be hashed. *)
Lemma verify_present (payload : body) (data signature secret : string) :
  truthy_str (Some secret) = true ->
  truthy_str (Some signature) = true ->
  hmac_input payload = Return data ->
  verifyWebhookSignature payload (Some signature) (Some secret)
  = timingSafeEqual
      (SHA256.hmac (bytes_of_string secret) (bytes_of_string data))
      (Hex.decode (strip_tag signature)).
Proof.
  intros Hs Hg Hp. unfold verifyWebhookSignature.
  rewrite Hs, Hg, Hp. cbn [negb orb default]. now rewrite decode_expected.
Qed.

(** The verifier returns [false] when the secret or the header is
    missing or empty. *)
Lemma verify_missing (payload : body) (signature secret : option string) :
  truthy_str secret = false \/ truthy_str signature = false ->
  verifyWebhookSignature payload signature secret = Return false.
Proof.
  intros [H | H]; unfold verifyWebhookSignature; rewrite H;
    [reflexivity | now rewrite orb_true_r].
Qed.

(** The digest of the payload under the configured secret verifies. *)
Lemma verify_correct_digest (payload : body) (data secret : string) :
  truthy_str (Some secret) = true ->
  hmac_input payload = Return data ->
  verifyWebhookSignature payload (Some (hmac_sha256_hex secret data)) (Some secret)
  = Return true.
Proof.
  intros Hs Hp.
  rewrite (verify_present payload data) by auto using expected_truthy.
  rewrite strip_tag_expected, decode_expected. apply timingSafeEqual_same.
Qed.

Lemma verify_correct_digest_tagged (payload : body) (data secret : string) :
  truthy_str (Some secret) = true ->
  hmac_input payload = Return data ->
  verifyWebhookSignature payload
    (Some ("sha256=" +:+ hmac_sha256_hex secret data)) (Some secret)
  = Return true.
Proof.
  intros Hs Hp.
  rewrite (verify_present payload data) by auto.
  rewrite strip_tag_tagged, decode_expected. apply timingSafeEqual_same.
Qed.

(** A signature that does not decode to 32 bytes makes the verifier
    throw: [crypto.timingSafeEqual] rejects buffers of different
    lengths. *)
Lemma verify_wrong_length (payload : body) (data signature secret : string) :
  truthy_str (Some secret) = true ->
  truthy_str (Some signature) = true ->
  hmac_input payload = Return data ->
  length (Hex.decode (strip_tag signature)) <> 32%nat ->
  verifyWebhookSignature payload (Some signature) (Some secret)
  = Throw RangeError_length.
Proof.
  intros Hs Hg Hp HL. rewrite (verify_present payload data) by auto.
  apply timingSafeEqual_length. rewrite hmac_length. congruence.
Qed.

(** ** [JSON.parse] never runs out of fuel *)

Section ParserFuel.

Import Json.

Lemma skip_ws_length (s : string) : String.length (skip_ws s) <= String.length s.
Proof.
  induction s as [| c s IH]; cbn [skip_ws]; [lia |].
  destruct (is_ws c); cbn [String.length]; lia.
Qed.

Lemma starts_with_length (c : ascii) (s r : string) :
  starts_with c s = Some r -> String.length s = S (String.length r).
Proof.
  destruct s as [| c' s]; cbn; [discriminate |].
  destruct (Ascii.eqb c' c); now intros [= ->].
Qed.

Lemma strip_prefix_length (lit s r : string) :
  strip_prefix lit s = Some r ->
  String.length s = String.length lit + String.length r.
Proof.
  revert s. induction lit as [| a lit IH]; intros s; cbn [strip_prefix].
  - now intros [= ->].
  - destruct s as [| b s]; [discriminate |].
    destruct (Ascii.eqb a b); [| discriminate].
    intros H. apply IH in H. cbn [String.length]. lia.
Qed.

Lemma pmap_ok {A B} (f : A -> B) (x : presult A) (b : B) (r : string) :
  pmap f x = POk b r -> exists a, x = POk a r.
Proof.
  destruct x as [a' rest | |]; cbn; [| discriminate | discriminate].
  intros [= _ ->]. now exists a'.
Qed.

Lemma pmap_fuel {A B} (f : A -> B) (x : presult A) :
  pmap f x = PFuel -> x = PFuel.
Proof. now destruct x. Qed.

Lemma parse_chars_bound (n : nat) :
  forall (s : string) (pending : option N),
    String.length s <= n ->
    parse_chars pending s <> PFuel
    /\ forall t r, parse_chars pending s = POk t r ->
                   String.length r < String.length s.
Proof.
  induction n as [| n IH]; intros s pending Hn.
  - destruct s; [| cbn in Hn; lia]. split; [discriminate | discriminate].
  - destruct s as [| c s]; [split; discriminate |].
    cbn [String.length] in Hn. cbn [parse_chars].
    destruct (Ascii.eqb c dquote).
    { split; [discriminate |]. intros t r [= _ <-]. cbn. lia. }
    destruct (Ascii.eqb c "\"%char).
    + destruct s as [| c' s]; [split; discriminate |].
      destruct (Ascii.eqb c' "u"%char).
      * destruct s as [| c1 [| c2 [| c3 [| c4 s]]]]; try (split; discriminate).
        destruct (hex4 c1 c2 c3 c4) as [u |]; [| split; discriminate].
        destruct (unicode_escape pending u) as [out pending'].
        cbn [String.length] in *.
        destruct (IH s pending' ltac:(lia)) as [Hf Hs]. split.
        -- intros H. now apply pmap_fuel in H.
        -- intros t r H. apply pmap_ok in H as [t0 H]. apply Hs in H. lia.
      * destruct (simple_escape c') as [esc |]; [| split; discriminate].
        cbn [String.length] in *.
        destruct (IH s None ltac:(lia)) as [Hf Hs]. split.
        -- intros H. now apply pmap_fuel in H.
        -- intros t r H. apply pmap_ok in H as [t0 H]. apply Hs in H. lia.
    + destruct (N_of_ascii c <? 32)%N; [split; discriminate |].
      destruct (IH s None ltac:(lia)) as [Hf Hs]. split.
      * intros H. now apply pmap_fuel in H.
      * intros t r H. apply pmap_ok in H as [t0 H]. apply Hs in H.
        cbn [String.length]. lia.
Qed.

Lemma parse_chars_fuel (pending : option N) (s : string) :
  parse_chars pending s <> PFuel.
Proof. now apply (parse_chars_bound (String.length s)). Qed.

Lemma parse_chars_shorter (pending : option N) (s t r : string) :
  parse_chars pending s = POk t r -> String.length r < String.length s.
Proof. now apply (parse_chars_bound (String.length s)). Qed.

Lemma digits_length (s : string) :
  forall acc n v n' r, digits acc n s = (v, n', r) ->
                       String.length r <= String.length s.
Proof.
  induction s as [| c s IH]; intros acc n v n' r; cbn [digits].
  - intros [= _ _ <-]. lia.
  - destruct (is_digit c).
    + intros H. apply IH in H. cbn [String.length]. lia.
    + intros [= _ _ <-]. lia.
Qed.

Lemma parse_int_part_shorter (s : string) (i : Z) (r : string) :
  parse_int_part s = Some (i, r) -> String.length r < String.length s.
Proof.
  unfold parse_int_part. destruct s as [| c s]; [discriminate |].
  destruct (Ascii.eqb c "0"%char); [intros [= _ <-]; cbn; lia |].
  destruct (is_digit c) eqn:Hd; [| discriminate]. cbn [digits]. rewrite Hd.
  destruct (digits _ _ s) as [[v n] r0] eqn:E. intros [= _ <-].
  apply digits_length in E. cbn [String.length]. lia.
Qed.

Lemma parse_frac_length (m : Z) (s : string) (m' k : Z) (r : string) :
  parse_frac m s = Some (m', k, r) -> String.length r <= String.length s.
Proof.
  unfold parse_frac. destruct (starts_with "."%char s) as [s' |] eqn:E.
  - apply starts_with_length in E.
    destruct (digits m 0 s') as [[v n] r0] eqn:Ed.
    destruct (n =? 0)%Z; [discriminate |]. intros [= _ _ <-].
    apply digits_length in Ed. lia.
  - intros [= _ _ <-]. lia.
Qed.

Lemma parse_exp_digits_length (sign : Z) (s : string) (v : Z) (r : string) :
  parse_exp_digits sign s = Some (v, r) -> String.length r <= String.length s.
Proof.
  unfold parse_exp_digits. destruct (digits 0 0 s) as [[v0 n] r0] eqn:Ed.
  destruct (n =? 0)%Z; [discriminate |]. intros [= _ <-].
  now apply digits_length in Ed.
Qed.

Lemma parse_exp_length (s : string) (ex : Z) (r : string) :
  parse_exp s = Some (ex, r) -> String.length r <= String.length s.
Proof.
  unfold parse_exp. destruct s as [| c s]; [intros [= _ <-]; lia |].
  destruct (Ascii.eqb c "e" || Ascii.eqb c "E")%char; [| intros [= _ <-]; lia].
  destruct (starts_with "+"%char s) as [s' |] eqn:Ep;
    [| destruct (starts_with "-"%char s) as [s' |] eqn:Em];
    intros H; apply parse_exp_digits_length in H;
    try apply starts_with_length in Ep; try apply starts_with_length in Em;
    cbn [String.length]; lia.
Qed.

Lemma parse_sign_length (s : string) :
  String.length (parse_sign s).2 <= String.length s.
Proof.
  unfold parse_sign. destruct (starts_with "-"%char s) as [s' |] eqn:E; cbn; [| lia].
  apply starts_with_length in E. lia.
Qed.

Lemma parse_number_bound (s : string) :
  parse_number s <> PFuel
  /\ forall v r, parse_number s = POk v r -> String.length r < String.length s.
Proof.
  unfold parse_number. pose proof (parse_sign_length s) as Hsign.
  destruct (parse_sign s) as [sign s1]. cbn in Hsign.
  destruct (parse_int_part s1) as [[i s2] |] eqn:E1; [| split; discriminate].
  destruct (parse_frac i s2) as [[[m k] s3] |] eqn:E2; [| split; discriminate].
  destruct (parse_exp s3) as [[ex s4] |] eqn:E3; [| split; discriminate].
  split; [discriminate |]. intros v r [= _ <-].
  apply parse_int_part_shorter in E1. apply parse_frac_length in E2.
  apply parse_exp_length in E3. lia.
Qed.

Lemma expect_bound (lit : string) (v : value) (s : string) :
  expect lit v s <> PFuel
  /\ forall v' r, expect lit v s = POk v' r ->
                  String.length s = String.length lit + String.length r.
Proof.
  unfold expect. destruct (strip_prefix lit s) as [rest |] eqn:E;
    [| split; discriminate].
  split; [discriminate |]. intros v' r [= _ <-]. now apply strip_prefix_length.
Qed.

(** Every successful parse consumes at least one character. *)
Lemma parse_shorter (fuel : nat) :
  (forall s v r, parse_value fuel s = POk v r ->
                 String.length r < String.length s)
  /\ (forall s l r, parse_elements fuel s = POk l r ->
                    String.length r < String.length s)
  /\ (forall s kv r, parse_members fuel s = POk kv r ->
                     String.length r < String.length s).
Proof.
  induction fuel as [| f (IHv & IHe & IHm)]; [repeat split; discriminate |].
  repeat split.
  - intros s v r. cbn [parse_value]. pose proof (skip_ws_length s) as Hw.
    destruct (skip_ws s) as [| c r0]; [discriminate |].
    cbn [String.length] in Hw. pose proof (skip_ws_length r0) as Hw0.
    destruct (Ascii.eqb c "{"%char).
    { destruct (starts_with _ _) as [r' |] eqn:E.
      - intros [= _ <-]. apply starts_with_length in E. lia.
      - intros H. apply pmap_ok in H as [kv H]. apply IHm in H. lia. }
    destruct (Ascii.eqb c "["%char).
    { destruct (starts_with _ _) as [r' |] eqn:E.
      - intros [= _ <-]. apply starts_with_length in E. lia.
      - intros H. apply pmap_ok in H as [l H]. apply IHe in H. lia. }
    destruct (Ascii.eqb c dquote).
    { intros H. apply pmap_ok in H as [t H]. apply parse_chars_shorter in H. lia. }
    destruct (Ascii.eqb c "t"%char).
    { intros H. apply expect_bound in H. cbn [String.length] in H. lia. }
    destruct (Ascii.eqb c "f"%char).
    { intros H. apply expect_bound in H. cbn [String.length] in H. lia. }
    destruct (Ascii.eqb c "n"%char).
    { intros H. apply expect_bound in H. cbn [String.length] in H. lia. }
    intros H. apply parse_number_bound in H. cbn [String.length] in H. lia.
  - intros s l r. cbn [parse_elements].
    destruct (parse_value f s) as [v r1 | |] eqn:E; try discriminate.
    apply IHv in E. pose proof (skip_ws_length r1) as Hw.
    destruct (skip_ws r1) as [| c r2]; [discriminate |].
    cbn [String.length] in Hw.
    destruct (Ascii.eqb c ","%char).
    { intros H. apply pmap_ok in H as [l' H]. apply IHe in H. lia. }
    destruct (Ascii.eqb c "]"%char); [| discriminate].
    intros [= _ <-]. lia.
  - intros s kv r. cbn [parse_members]. pose proof (skip_ws_length s) as Hw.
    destruct (starts_with dquote (skip_ws s)) as [r0 |] eqn:E0; [| discriminate].
    apply starts_with_length in E0.
    destruct (parse_chars None r0) as [k r1 | |] eqn:E1; try discriminate.
    apply parse_chars_shorter in E1. pose proof (skip_ws_length r1) as Hw1.
    destruct (starts_with ":"%char (skip_ws r1)) as [r2 |] eqn:E2; [| discriminate].
    apply starts_with_length in E2.
    destruct (parse_value f r2) as [v r3 | |] eqn:E3; try discriminate.
    apply IHv in E3. pose proof (skip_ws_length r3) as Hw3.
    destruct (skip_ws r3) as [| c r4]; [discriminate |].
    cbn [String.length] in Hw3.
    destruct (Ascii.eqb c ","%char).
    { intros H. apply pmap_ok in H as [kv' H]. apply IHm in H. lia. }
    destruct (Ascii.eqb c "}"%char); [| discriminate].
    intros [= _ <-]. lia.
Qed.

(** With twice the length of the text as fuel, the parser ends with a
    value or a syntax error. *)
Lemma parse_fuel_enough (fuel : nat) :
  (forall s, 2 * String.length s < fuel -> parse_value fuel s <> PFuel)
  /\ (forall s, 2 * String.length s + 1 < fuel -> parse_elements fuel s <> PFuel)
  /\ (forall s, 2 * String.length s + 1 < fuel -> parse_members fuel s <> PFuel).
Proof.
  induction fuel as [| f (IHv & IHe & IHm)]; [repeat split; intros; lia |].
  destruct (parse_shorter f) as (Sv & Se & Sm).
  repeat split.
  - intros s Hs. cbn [parse_value]. pose proof (skip_ws_length s) as Hw.
    destruct (skip_ws s) as [| c r0]; [discriminate |].
    cbn [String.length] in Hw. pose proof (skip_ws_length r0) as Hw0.
    destruct (Ascii.eqb c "{"%char).
    { destruct (starts_with _ _) as [r' |]; [discriminate |].
      intros H. apply pmap_fuel in H. revert H. apply IHm. lia. }
    destruct (Ascii.eqb c "["%char).
    { destruct (starts_with _ _) as [r' |]; [discriminate |].
      intros H. apply pmap_fuel in H. revert H. apply IHe. lia. }
    destruct (Ascii.eqb c dquote).
    { intros H. apply pmap_fuel in H. revert H. apply parse_chars_fuel. }
    destruct (Ascii.eqb c "t"%char); [apply expect_bound |].
    destruct (Ascii.eqb c "f"%char); [apply expect_bound |].
    destruct (Ascii.eqb c "n"%char); [apply expect_bound |].
    apply parse_number_bound.
  - intros s Hs. cbn [parse_elements].
    destruct (parse_value f s) as [v r1 | |] eqn:E; [| discriminate |].
    + apply Sv in E. pose proof (skip_ws_length r1) as Hw.
      destruct (skip_ws r1) as [| c r2]; [discriminate |].
      cbn [String.length] in Hw.
      destruct (Ascii.eqb c ","%char).
      { intros H. apply pmap_fuel in H. revert H. apply IHe. lia. }
      destruct (Ascii.eqb c "]"%char); discriminate.
    + exfalso. revert E. apply IHv. lia.
  - intros s Hs. cbn [parse_members]. pose proof (skip_ws_length s) as Hw.
    destruct (starts_with dquote (skip_ws s)) as [r0 |] eqn:E0; [| discriminate].
    apply starts_with_length in E0.
    destruct (parse_chars None r0) as [k r1 | |] eqn:E1; [| discriminate |].
    + apply parse_chars_shorter in E1. pose proof (skip_ws_length r1) as Hw1.
      destruct (starts_with ":"%char (skip_ws r1)) as [r2 |] eqn:E2; [| discriminate].
      apply starts_with_length in E2.
      destruct (parse_value f r2) as [v r3 | |] eqn:E3; [| discriminate |].
      * apply Sv in E3. pose proof (skip_ws_length r3) as Hw3.
        destruct (skip_ws r3) as [| c r4]; [discriminate |].
        cbn [String.length] in Hw3.
        destruct (Ascii.eqb c ","%char).
        { intros H. apply pmap_fuel in H. revert H. apply IHm. lia. }
        destruct (Ascii.eqb c "}"%char); discriminate.
      * exfalso. revert E3. apply IHv. lia.
    + exfalso. revert E1. apply parse_chars_fuel.
Qed.

Theorem parse_value_total (text : string) :
  parse_value (S (2 * String.length text)) text <> PFuel.
Proof. apply parse_fuel_enough. lia. Qed.

End ParserFuel.

(** ** The monad of the handlers *)

Lemma and_then_nil_l (x : effects) : and_then no_effects x = x.
Proof. now destruct x. Qed.

Lemma and_then_nil_r (x : effects) : and_then x no_effects = x.
Proof. destruct x. unfold and_then. cbn. now rewrite !app_nil_r. Qed.

Lemma bind_ret {A B} (a : A) (f : A -> M B) : bind (ret a) f = f a.
Proof. unfold bind, ret. destruct (f a) as [c y]. now rewrite and_then_nil_l. Qed.

Lemma bind_lift_return {A B} (a : A) (f : A -> M B) : bind (lift (Return a)) f = f a.
Proof. apply bind_ret. Qed.

Lemma bind_lift_throw {A B} (e : js_error) (f : A -> M B) :
  bind (lift (Throw e)) f = throw e.
Proof. reflexivity. Qed.

Lemma try_catch_throw (e : js_error) :
  try_catch (throw e) on_error
  = (Return internal_error, {| logged := [webhook_error_line e]; handled := [] |}).
Proof. reflexivity. Qed.

(** ** The webhook route, by outcome of the verification *)

Section PostWebhook.

Variables (cfg : config) (api : provider) (req : request).

Lemma post_webhook_accepted :
  accepted cfg req ->
  post_webhook cfg api req = try_catch (process_event api (req_body req)) on_error.
Proof.
  unfold accepted, verification_runs, verification_result, post_webhook.
  intros [Hskip | Hok].
  - rewrite Hskip, bind_ret. reflexivity.
  - destruct (truthy_str (WEBHOOK_SECRET cfg) && truthy_str (signature_header req)).
    + rewrite Hok, bind_lift_return, bind_ret. reflexivity.
    + rewrite bind_ret. reflexivity.
Qed.

(** The verifier answers [false]: 401, one line, nothing else. *)
Lemma post_webhook_rejected :
  verification_runs cfg req = true ->
  verification_result cfg req = Return false ->
  post_webhook cfg api req
  = (Return unauthorized, {| logged := [invalid_signature_line]; handled := [] |}).
Proof.
  unfold verification_runs, verification_result, post_webhook.
  intros Hrun Hres. rewrite Hrun, Hres. reflexivity.
Qed.

(** The verifier throws: the [catch] block answers 500. *)
Lemma post_webhook_verifier_throws (e : js_error) :
  verification_runs cfg req = true ->
  verification_result cfg req = Throw e ->
  post_webhook cfg api req
  = (Return internal_error, {| logged := [webhook_error_line e]; handled := [] |}).
Proof.
  unfold verification_runs, verification_result, post_webhook.
  intros Hrun Hres. rewrite Hrun, Hres. reflexivity.
Qed.

End PostWebhook.

(** A signature of the right length that is not the digest is answered
    with 401 and the authentication-failure line; the event is not
    decoded and no handler runs. *)
Lemma post_webhook_wrong_digest
    (cfg : config) (api : provider) (req : request) (secret signature data : string) :
  WEBHOOK_SECRET cfg = Some secret ->
  signature_header req = Some signature ->
  truthy_str (Some secret) = true ->
  truthy_str (Some signature) = true ->
  hmac_input (req_body req) = Return data ->
  length (Hex.decode (strip_tag signature)) = 32%nat ->
  Hex.decode (strip_tag signature)
    <> SHA256.hmac (bytes_of_string secret) (bytes_of_string data) ->
  post_webhook cfg api req
  = (Return unauthorized, {| logged := [invalid_signature_line]; handled := [] |}).
Proof.
  intros Hsec Hsig Ts Tg Hin HL Hne.
  apply post_webhook_rejected.
  - unfold verification_runs. now rewrite Hsec, Hsig, Ts, Tg.
  - unfold verification_result. rewrite Hsec, Hsig.
    rewrite (verify_present _ data) by assumption.
    apply timingSafeEqual_differ; [now rewrite hmac_length | congruence].
Qed.

Lemma bind_return_inv {A B} (m : M A) (f : A -> M B) (b : B) (eff : effects) :
  bind m f = (Return b, eff) ->
  exists a e1 e2, m = (Return a, e1) /\ f a = (Return b, e2).
Proof.
  unfold bind. destruct m as [[a | e] e1]; [| discriminate].
  destruct (f a) as [c e2] eqn:E. intros [= -> _]. eauto.
Qed.

(** The route always answers, with 200, 401 or 500: no exception leaves
    the handler. *)
Lemma post_webhook_answers (cfg : config) (api : provider) (req : request) :
  exists r eff,
    post_webhook cfg api req = (Return r, eff)
    /\ (r = received \/ r = unauthorized \/ r = internal_error).
Proof.
  unfold post_webhook.
  match goal with |- context [try_catch ?b _] => destruct b as [[r | e] eff] eqn:E end.
  - exists r, eff. split; [reflexivity |].
    apply bind_return_inv in E as ([] & e1 & e2 & _ & H).
    + right. left. now inversion H.
    + left. apply bind_return_inv in H as (ev & e3 & e4 & _ & H).
      apply bind_return_inv in H as ([] & e5 & e6 & _ & H). now inversion H.
  - eexists _, _. split; [reflexivity | auto].
Qed.

(** ** Decoding and dispatch *)

Lemma convertible_str (v : jsval) : is_str v = true -> convertible v = true.
Proof. now destruct v as [[]|]. Qed.

Lemma convertible_num (v : jsval) : is_num v = true -> convertible v = true.
Proof. now destruct v as [[]|]. Qed.

Lemma convertible_or (a b : jsval) :
  convertible a = true -> convertible b = true -> convertible (js_or a b) = true.
Proof. unfold js_or. now destruct (truthy a). Qed.

Section Dispatch.

Variable api : provider.

Lemma process_buffer (b : string) (v : Json.value) :
  Json.parse b = Some v ->
  process_event api (Buffer b) = (dispatch api (Some v) >> ret received).
Proof.
  intros H. unfold process_event, decode_event, JSON_parse. rewrite H.
  now rewrite bind_ret.
Qed.

Lemma process_buffer_syntax_error (b : string) :
  Json.parse b = None ->
  try_catch (process_event api (Buffer b)) on_error
  = (Return internal_error,
     {| logged := [webhook_error_line SyntaxError_JSON]; handled := [] |}).
Proof.
  intros H. unfold process_event, decode_event, JSON_parse. now rewrite H.
Qed.

(** An event whose [type] is none of the known strings falls to the
    [default] case. *)
Lemma dispatch_default (event type : jsval) :
  get_prop event "type" = Return type ->
  is_string type "recording.started" = false ->
  is_string type "recording.ready-to-download" = false ->
  is_string type "recording.error" = false ->
  convertible type = true ->
  dispatch api event = writeLog (unknown_type_line type).
Proof.
  intros Ht H1 H2 H3 Hc. unfold dispatch, interp.
  rewrite Ht, bind_lift_return, H1, H2, H3, Hc. now rewrite bind_ret.
Qed.

Lemma handler_of_cases (t : string) (h : handler) :
  handler_of t = Some h ->
  (t = "recording.started" /\ h = HandleRecordingStarted)
  \/ (t = "recording.ready-to-download" /\ h = HandleRecordingReady)
  \/ (t = "recording.error" /\ h = HandleRecordingError).
Proof.
  unfold handler_of.
  destruct (String.eqb_spec t "recording.started"); [intros [= <-]; auto |].
  destruct (String.eqb_spec t "recording.ready-to-download"); [intros [= <-]; auto |].
  destruct (String.eqb_spec t "recording.error"); [intros [= <-]; auto |].
  discriminate.
Qed.

Lemma handler_of_none (t : string) :
  handler_of t = None ->
  String.eqb t "recording.started" = false
  /\ String.eqb t "recording.ready-to-download" = false
  /\ String.eqb t "recording.error" = false.
Proof.
  unfold handler_of.
  destruct (String.eqb t "recording.started"); [discriminate |].
  destruct (String.eqb t "recording.ready-to-download"); [discriminate |].
  destruct (String.eqb t "recording.error"); [discriminate | auto].
Qed.

(** A known event without payload: the handler is called and writes
    the INVALID EVENT line. *)
Lemma dispatch_missing_payload
    (kv : list (string * Json.value)) (t : string) (h : handler) :
  Json.get kv "type" = Some (Json.Str t) ->
  handler_of t = Some h ->
  truthy (Json.get kv "payload") = false ->
  dispatch api (Some (Json.Obj kv))
  = (Return tt, {| logged := [invalid_event t]; handled := [h] |}).
Proof.
  intros Ht Hh Hp. unfold dispatch, get_prop, prop.
  rewrite bind_lift_return, Ht.
  destruct (handler_of_cases t h Hh) as [[-> ->] | [[-> ->] | [-> ->]]];
    cbn [is_string String.eqb Ascii.eqb Bool.eqb];
    unfold handleRecordingStarted, handleRecordingReady, handleRecordingError,
      missing_payload, prop; rewrite Hp; reflexivity.
Qed.

Lemma well_formed_ready_fields (payload : jsval) :
  well_formed_ready payload = true ->
  truthy payload = true
  /\ convertible (prop payload "room_name") = true
  /\ convertible (prop payload "recording_id") = true
  /\ convertible (prop payload "duration") = true
  /\ convertible (prop payload "start_ts") = true
  /\ convertible (js_or (prop payload "s3_key") not_available) = true.
Proof.
  unfold well_formed_ready.
  destruct payload as [[| | | | | p] |]; try discriminate.
  intros H. apply andb_prop in H as [H Hs3]. apply andb_prop in H as [H Hts].
  apply andb_prop in H as [H Hdur]. apply andb_prop in H as [Hroom Hid].
  repeat split; auto using convertible_str, convertible_num.
  apply convertible_or; [| reflexivity].
  apply orb_prop in Hs3 as [Hs3 | Hs3];
    [now apply convertible_str | now destruct (prop _ "s3_key")].
Qed.

(** A ready event with a well-formed payload: one line, whatever the
    lookups give, as long as the links can be printed. *)
Lemma handleRecordingReady_line (event : jsval) :
  truthy event = true ->
  well_formed_ready (prop event "payload") = true ->
  convertible (getRecordingDownloadUrl api
                 (prop (prop event "payload") "recording_id")) = true ->
  convertible (getRecordingAccessLink api
                 (prop (prop event "payload") "recording_id")
                 default_valid_for_secs) = true ->
  handleRecordingReady api event
  = writeLog (ready_line (prop event "payload")
                (js_or (getRecordingDownloadUrl api
                          (prop (prop event "payload") "recording_id"))
                       not_available)
                (js_or (getRecordingAccessLink api
                          (prop (prop event "payload") "recording_id")
                          default_valid_for_secs)
                       not_available)).
Proof.
  intros He Hwf Hd Ha.
  destruct (well_formed_ready_fields _ Hwf) as (Hp & Hroom & Hid & Hdur & Hts & Hs3).
  unfold handleRecordingReady, missing_payload, to_number, interp.
  rewrite He, Hp, Hts, Hdur, Hroom, Hid, Hs3. cbn [negb orb].
  rewrite !convertible_or by (assumption || reflexivity).
  rewrite !bind_ret. reflexivity.
Qed.

End Dispatch.

(** ** Accepted requests *)

Section Accepted.

Variables (cfg : config) (api : provider) (req : request) (b : string).
Hypothesis Hbody : req_body req = Buffer b.
Hypothesis Hacc : accepted cfg req.

Lemma post_webhook_syntax_error :
  Json.parse b = None ->
  post_webhook cfg api req
  = (Return internal_error,
     {| logged := [webhook_error_line SyntaxError_JSON]; handled := [] |}).
Proof.
  intros H. rewrite post_webhook_accepted, Hbody by assumption.
  now apply process_buffer_syntax_error.
Qed.

Lemma post_webhook_dispatched (v : Json.value) (eff : effects) :
  Json.parse b = Some v ->
  dispatch api (Some v) = (Return tt, eff) ->
  post_webhook cfg api req = (Return received, eff).
Proof.
  intros Hv Hd. rewrite post_webhook_accepted, Hbody by assumption.
  rewrite (process_buffer api b v Hv), Hd.
  unfold bind, ret, try_catch. now rewrite and_then_nil_r.
Qed.

Lemma post_webhook_dispatch_throws (v : Json.value) (e : js_error) :
  Json.parse b = Some v ->
  dispatch api (Some v) = throw e ->
  post_webhook cfg api req
  = (Return internal_error,
     {| logged := [webhook_error_line e]; handled := [] |}).
Proof.
  intros Hv Hd. rewrite post_webhook_accepted, Hbody by assumption.
  rewrite (process_buffer api b v Hv), Hd. reflexivity.
Qed.

End Accepted.

Lemma accepted_signed (secret text : string) :
  truthy_str (Some secret) = true ->
  accepted (config_with (Some secret)) (signed_request secret text).
Proof.
  intros Hs. right. unfold verification_result.
  apply (verify_correct_digest_tagged (Buffer text) text secret Hs eq_refl).
Qed.

(** Without a signature header the configured secret plays no part: the
    request is processed as in unauthenticated mode. *)
Lemma post_webhook_without_header (cfg : config) (api : provider) (req : request) :
  signature_header req = None ->
  post_webhook cfg api req = try_catch (process_event api (req_body req)) on_error.
Proof.
  intros H. apply post_webhook_accepted. left.
  unfold verification_runs. rewrite H. apply andb_false_r.
Qed.

Lemma accepted_unsigned (secret : option string) (b : body) :
  accepted (config_with secret) (post_request None b).
Proof.
  left. unfold verification_runs. cbn. apply andb_false_r.
Qed.

Lemma lookups_fail_null (api : provider) (recordingId : jsval) :
  lookups_fail api recordingId ->
  getRecordingDownloadUrl api recordingId = js_null
  /\ getRecordingAccessLink api recordingId default_valid_for_secs = js_null.
Proof.
  intros [H1 H2]. unfold getRecordingDownloadUrl, getRecordingAccessLink.
  rewrite H1, H2. cbn [download_link_of].
  destruct (convertible recordingId); split; reflexivity.
Qed.

(** ** The two paths *)

Lemma parse_container (raw : string) (v : Json.value) :
  Json.parse raw = Some v ->
  first_char raw = Some "{"%char \/ first_char raw = Some "["%char ->
  is_container v = true.
Proof.
  unfold Json.parse, first_char. cbn [Json.parse_value].
  destruct (Json.skip_ws raw) as [| c r]; [intros _ [H | H]; discriminate |].
  intros Hp [[= ->] | [= ->]]; cbn [Ascii.eqb Bool.eqb] in Hp.
  - destruct (Json.starts_with _ _).
    + destruct (Json.skip_ws _); now inversion Hp.
    + destruct (Json.parse_members _ r) as [kv rest | |]; try discriminate.
      cbn in Hp. destruct (Json.skip_ws rest); now inversion Hp.
  - destruct (Json.starts_with _ _).
    + destruct (Json.skip_ws _); now inversion Hp.
    + destruct (Json.parse_elements _ r) as [l rest | |]; try discriminate.
      cbn in Hp. destruct (Json.skip_ws rest); now inversion Hp.
Qed.

Lemma express_json_accepts (raw : string) (v : jsval) :
  raw <> EmptyString ->
  express_json raw = Some v ->
  exists jv, v = Some jv /\ Json.parse raw = Some jv /\ is_container jv = true.
Proof.
  intros Hne. unfold express_json.
  destruct (String.eqb_spec raw EmptyString); [contradiction |].
  destruct (first_char raw) as [c |] eqn:Ec; [| discriminate].
  destruct (Json.parse raw) as [jv |] eqn:Ep.
  - intros H. exists jv.
    assert (c = "{"%char \/ c = "["%char) as Hc.
    { destruct c as [[] [] [] [] [] [] [] []]; try discriminate H; auto. }
    assert (v = Some jv) as ->.
    { destruct Hc as [-> | ->]; now inversion H. }
    repeat split. apply (parse_container raw jv Ep).
    destruct Hc as [-> | ->]; auto.
  - destruct c as [[] [] [] [] [] [] [] []]; discriminate.
Qed.

Lemma container_type (jv : Json.value) :
  is_container jv = true ->
  get_prop (Some jv) "type" = Return (prop (Some jv) "type").
Proof. now destruct jv. Qed.

Lemma inconvertible_not_string (v : jsval) (s : string) :
  convertible v = false -> is_string v s = false.
Proof. now destruct v as [[] |]. Qed.

(** * The claims *)

(** C1 (code defect).  The claim: on malformed input (missing header,
    missing secret, non-hex signature, length mismatch) the verifier
    returns false and never throws.  The code returns false when the
    header or the secret is missing, but a signature that is not hex, or
    whose decoded length is not the digest's 32 bytes, makes
    [crypto.timingSafeEqual] throw a RangeError, which the verifier does
    not catch; the webhook route then answers 500 instead of 401. *)
Theorem verify_throws_on_malformed_signature :
  verifyWebhookSignature (Buffer "{}") (Some "not-hex") (Some "secret")
    = Throw RangeError_length
  /\ verifyWebhookSignature (Buffer "{}") (Some "sha256=abcd") (Some "secret")
    = Throw RangeError_length
  /\ post_webhook (config_with (Some "secret")) provider_down
       (post_request (Some "not-hex") (Buffer "{}"))
    = (Return internal_error,
       {| logged := [webhook_error_line RangeError_length]; handled := [] |}).
Proof. repeat split; vm_compute; reflexivity. Qed.

(** C2 (code defect).  The claim: with a signing secret configured, a
    request whose signature is bad or whose signature header is missing
    is answered with 401, an authentication-failure line is logged and
    the event is not processed.  The routes verify only under
    [WEBHOOK_SECRET && signature]: a request without the header skips the
    verification, is dispatched to its handler and acknowledged with
    200. *)
Theorem unsigned_request_is_processed :
  post_webhook (config_with (Some "secret")) provider_down
    (post_request None (Buffer error_event_text))
  = (Return received,
     {| logged := [error_event_line]; handled := [HandleRecordingError] |}).
Proof. vm_compute. reflexivity. Qed.

(** C3, counterexample.  The claim: a POST delivered to [/] and to
    [/webhook] has the same status, response body and processing
    outcome.  Without verification the root route logs one more line;
    a body that is not JSON is refused with 400 by the body parser of
    [/] and with 500 by the route of [/webhook]; with a valid signature
    [/webhook] answers 200 and [/], where the body reaching the verifier
    is the parsed object, answers 500. *)
Lemma root_differs_from_webhook :
  deliver_post (config_with None) provider_down Root
    (unsigned_delivery unknown_event_text)
  <> deliver_post (config_with None) provider_down Webhook
       (unsigned_delivery unknown_event_text)
  /\ fst (deliver_post (config_with None) provider_down Root
            (unsigned_delivery "{not json"))
     = Return bad_request
  /\ fst (deliver_post (config_with None) provider_down Webhook
            (unsigned_delivery "{not json"))
     = Return internal_error
  /\ fst (deliver_post (config_with (Some "secret")) provider_down Webhook
            (signed_delivery "secret" unknown_event_text))
     = Return received
  /\ fst (deliver_post (config_with (Some "secret")) provider_down Root
            (signed_delivery "secret" unknown_event_text))
     = Return internal_error.
Proof.
  split; [| repeat split; vm_compute; reflexivity].
  intros H. vm_compute in H. discriminate H.
Qed.

(** C3, as amended.  For every POST request whose body is a non-empty
    JSON text accepted by the body parser of [/] and for which no
    signature verification takes place (no secret configured, or no
    signature header), delivering it to [/] and to [/webhook] produces
    the same HTTP status and response body and runs the same handler;
    the log lines are those of [/webhook] preceded, on [/], by one
    EVENT RECEIVED line (when the event type can be printed). *)
Theorem paths_agree_without_verification
    (cfg : config) (api : provider) (d : delivery) (v : jsval) :
  verification_runs cfg (request_of d (Buffer (d_body d))) = false ->
  d_body d <> EmptyString ->
  express_json (d_body d) = Some v ->
  fst (deliver_post cfg api Root d) = fst (deliver_post cfg api Webhook d)
  /\ handled (snd (deliver_post cfg api Root d))
     = handled (snd (deliver_post cfg api Webhook d))
  /\ logged (snd (deliver_post cfg api Root d))
     = root_extra_line (prop v "type")
       ++ logged (snd (deliver_post cfg api Webhook d)).
Proof.
  intros Hskip Hne Hj.
  destruct (express_json_accepts _ _ Hne Hj) as (jv & -> & Hp & Hc).
  unfold deliver_post. rewrite Hj.
  unfold all_root, post_webhook, verification_runs, signature_header, request_of in *.
  cbn [method headers req_body String.eqb Ascii.eqb Bool.eqb] in *.
  rewrite Hskip, !bind_ret.
  assert (decode_event (Parsed (Some jv)) = ret (Some jv)) as -> by now destruct jv.
  unfold decode_event, JSON_parse. rewrite Hp, !bind_ret.
  rewrite (container_type jv Hc), bind_lift_return.
  unfold root_extra_line, interp.
  destruct (convertible (prop (Some jv) "type")) eqn:Hconv.
  - rewrite bind_ret.
    destruct (dispatch api (Some jv)) as [[[] | e] [lg hd]];
      cbn; rewrite ?app_nil_r; auto.
  - unfold dispatch.
    rewrite (container_type jv Hc), bind_lift_return.
    rewrite !inconvertible_not_string by assumption.
    unfold interp. rewrite Hconv. cbn. auto.
Qed.

Lemma paths_agree_without_verification_witness :
  fst (deliver_post (config_with (Some "secret")) provider_down Root
         (unsigned_delivery error_event_text))
  = fst (deliver_post (config_with (Some "secret")) provider_down Webhook
           (unsigned_delivery error_event_text))
  /\ handled (snd (deliver_post (config_with (Some "secret")) provider_down Root
                     (unsigned_delivery error_event_text)))
     = handled (snd (deliver_post (config_with (Some "secret")) provider_down
                       Webhook (unsigned_delivery error_event_text)))
  /\ logged (snd (deliver_post (config_with (Some "secret")) provider_down Root
                    (unsigned_delivery error_event_text)))
     = root_extra_line (prop error_event_value "type")
       ++ logged (snd (deliver_post (config_with (Some "secret")) provider_down
                         Webhook (unsigned_delivery error_event_text))).
Proof.
  apply (paths_agree_without_verification (config_with (Some "secret"))
           provider_down (unsigned_delivery error_event_text) error_event_value).
  - reflexivity.
  - discriminate.
  - vm_compute. reflexivity.
Defined.

(** C4, counterexample.  The claim: without the API key the webhook
    receiver exits with a non-zero status before binding the listener.
    With an empty environment the receiver binds port 3001 and does not
    exit. *)
Lemma receiver_starts_without_api_key :
  (∅ : environment) !! "DAILY_API_KEY" = None
  /\ webhook_server_startup ∅ true = [Listen "3001"]
  /\ ~ (exits_nonzero (webhook_server_startup ∅ true) = true
        /\ listens (webhook_server_startup ∅ true) = false).
Proof.
  split; [reflexivity |]. split; [reflexivity |].
  intros [H _]. vm_compute in H. discriminate H.
Qed.

(** C4, as amended.  The webhook receiver does not read the API key at
    start-up: whether or not the key is set, it binds the HTTP listener
    on the configured port and does not exit.  It is the command-line
    tool [daily-test.js] that, once its [.env] file exists, exits at once
    with status 1 when the API key is not set. *)
Theorem startup_binds_whatever_the_api_key (env : environment) (log_dir_exists : bool) :
  listens (webhook_server_startup env log_dir_exists) = true
  /\ exits_nonzero (webhook_server_startup env log_dir_exists) = false
  /\ In (Listen (PORT (load_config env))) (webhook_server_startup env log_dir_exists)
  /\ daily_test_startup env true
     = if truthy_str (env !! "DAILY_API_KEY") then [] else [Exit 1].
Proof.
  unfold webhook_server_startup, daily_test_startup.
  destruct log_dir_exists; cbn; repeat split; auto;
    now destruct (truthy_str (env !! "DAILY_API_KEY")).
Qed.

(** C5, counterexample.  The claim: a request whose decoded body lacks a
    [type] field is answered with 500 and an error line.  The body [{}]
    is valid JSON without a [type]; the route answers 200. *)
Lemma typeless_event_not_rejected :
  Json.parse "{}" = Some (Json.Obj [])
  /\ Json.get [] "type" = None
  /\ accepted (config_with None) (post_request None (Buffer "{}"))
  /\ ~ rejected_as_malformed
         (post_webhook (config_with None) provider_down
            (post_request None (Buffer "{}"))).
Proof.
  split; [reflexivity |]. split; [reflexivity |].
  split; [apply accepted_unsigned |].
  intros [e H]. vm_compute in H. discriminate H.
Qed.

(** C5, as amended.  For every accepted POST to [/webhook] (authenticated,
    or in unauthenticated mode): if the body is not valid JSON, or is the
    JSON text [null], the server responds with HTTP 500 and writes one
    error log line, and no handler runs.  A decoded body without a [type]
    field is not rejected: it is logged as an event of type [undefined]
    and acknowledged with 200, and no handler runs. *)
Theorem malformed_body_outcome
    (cfg : config) (api : provider) (req : request) (b : string) :
  req_body req = Buffer b ->
  accepted cfg req ->
  (Json.parse b = None \/ Json.parse b = Some Json.Null ->
   rejected_as_malformed (post_webhook cfg api req))
  /\ (forall v, Json.parse b = Some v -> v <> Json.Null ->
      prop (Some v) "type" = None ->
      post_webhook cfg api req
      = (Return received,
         {| logged := [unknown_type_line undefined]; handled := [] |})).
Proof.
  intros Hb Hacc. split.
  - intros [H | H].
    + exists SyntaxError_JSON. now apply (post_webhook_syntax_error cfg api req b).
    + exists TypeError_property.
      now apply (post_webhook_dispatch_throws cfg api req b Hb Hacc Json.Null).
  - intros v Hv Hnull Ht.
    apply (post_webhook_dispatched cfg api req b Hb Hacc v); [assumption |].
    apply (dispatch_default api (Some v) undefined); try reflexivity.
    unfold get_prop. rewrite Ht. now destruct v.
Qed.

Lemma malformed_body_outcome_witness :
  rejected_as_malformed
    (post_webhook (config_with (Some "secret")) provider_down
       (signed_request "secret" "{not json"))
  /\ post_webhook (config_with (Some "secret")) provider_down
       (signed_request "secret" "{}")
     = (Return received,
        {| logged := [unknown_type_line undefined]; handled := [] |}).
Proof.
  split.
  - apply (malformed_body_outcome (config_with (Some "secret")) provider_down
             (signed_request "secret" "{not json") "{not json" eq_refl).
    + apply accepted_signed. reflexivity.
    + left. vm_compute. reflexivity.
  - apply (malformed_body_outcome (config_with (Some "secret")) provider_down
             (signed_request "secret" "{}") "{}" eq_refl) with (v := Json.Obj []).
    + apply accepted_signed. reflexivity.
    + vm_compute. reflexivity.
    + discriminate.
    + reflexivity.
Defined.

(** C6.  For every payload [P] and secret [S], the digest of [P] under
    [S] verifies the same with the [sha256=] tag before it and as bare
    hex: the tag is stripped and has no other effect.  Both calls return
    true, unless the secret is empty, in which case both return false. *)
Theorem prefix_insensitive (P S : string) :
  verifyWebhookSignature (Buffer P)
    (Some ("sha256=" +:+ hmac_sha256_hex S P)) (Some S)
  = verifyWebhookSignature (Buffer P) (Some (hmac_sha256_hex S P)) (Some S)
  /\ verifyWebhookSignature (Buffer P) (Some (hmac_sha256_hex S P)) (Some S)
     = Return (truthy_str (Some S)).
Proof.
  destruct (truthy_str (Some S)) eqn:HS.
  - rewrite (verify_correct_digest (Buffer P) P S) by auto.
    rewrite (verify_correct_digest_tagged (Buffer P) P S) by auto.
    split; reflexivity.
  - rewrite !verify_missing by auto. split; reflexivity.
Qed.

(** C7.  For every well-formed, accepted webhook event whose [type] is a
    string that is none of the three known recording event kinds, the
    event is accepted: one log line recording the unknown event type is
    written, no handler runs, and the server responds with HTTP 200. *)
Theorem unknown_event_acknowledged
    (cfg : config) (api : provider) (req : request) (b : string)
    (kv : list (string * Json.value)) (t : string) :
  req_body req = Buffer b ->
  accepted cfg req ->
  Json.parse b = Some (Json.Obj kv) ->
  Json.get kv "type" = Some (Json.Str t) ->
  handler_of t = None ->
  post_webhook cfg api req
  = (Return received,
     {| logged := [unknown_type_line (js_str t)]; handled := [] |})
  /\ status received = 200%Z.
Proof.
  intros Hb Hacc Hv Ht Hh. split; [| reflexivity].
  apply (post_webhook_dispatched cfg api req b Hb Hacc (Json.Obj kv) _ Hv).
  destruct (handler_of_none t Hh) as (H1 & H2 & H3).
  apply (dispatch_default api (Some (Json.Obj kv)) (js_str t)); try assumption.
  - unfold get_prop, prop. now rewrite Ht.
  - reflexivity.
Qed.

Lemma unknown_event_acknowledged_witness :
  post_webhook (config_with (Some "secret")) provider_down
    (signed_request "secret" unknown_event_text)
  = (Return received,
     {| logged := [unknown_type_line (js_str "meeting.ended")]; handled := [] |})
  /\ status received = 200%Z.
Proof.
  apply (unknown_event_acknowledged (config_with (Some "secret")) provider_down
           (signed_request "secret" unknown_event_text) unknown_event_text
           [("type", Json.Str "meeting.ended");
            ("payload", Json.Obj [("room", Json.Str "demo")])]
           "meeting.ended" eq_refl).
  - apply accepted_signed. reflexivity.
  - vm_compute. reflexivity.
  - reflexivity.
  - reflexivity.
Defined.

(** C8.  For every accepted [recording.ready-to-download] event with a
    well-formed payload, if both enrichment lookups (recording metadata
    and access link) fail, exactly one log line is appended, the READY
    line of the event with the download URL and the streaming URL both
    printed as [Not available], and the HTTP response is 200. *)
Theorem ready_event_logged_when_lookups_fail
    (cfg : config) (api : provider) (req : request) (b : string)
    (kv : list (string * Json.value)) :
  req_body req = Buffer b ->
  accepted cfg req ->
  Json.parse b = Some (Json.Obj kv) ->
  Json.get kv "type" = Some (Json.Str "recording.ready-to-download") ->
  well_formed_ready (Json.get kv "payload") = true ->
  lookups_fail api (prop (Json.get kv "payload") "recording_id") ->
  post_webhook cfg api req
  = (Return received,
     {| logged := [ready_line (Json.get kv "payload") not_available not_available];
        handled := [HandleRecordingReady] |})
  /\ status received = 200%Z.
Proof.
  intros Hb Hacc Hv Ht Hwf Hfail. split; [| reflexivity].
  apply (post_webhook_dispatched cfg api req b Hb Hacc (Json.Obj kv) _ Hv).
  destruct (lookups_fail_null _ _ Hfail) as [Hd Ha].
  unfold dispatch, get_prop.
  change (prop (Some (Json.Obj kv)) "type") with (Json.get kv "type").
  rewrite bind_lift_return, Ht. cbn [is_string String.eqb Ascii.eqb Bool.eqb].
  rewrite handleRecordingReady_line.
  - change (prop (Some (Json.Obj kv)) "payload") with (Json.get kv "payload").
    rewrite Hd, Ha. reflexivity.
  - reflexivity.
  - exact Hwf.
  - change (prop (Some (Json.Obj kv)) "payload") with (Json.get kv "payload").
    now rewrite Hd.
  - change (prop (Some (Json.Obj kv)) "payload") with (Json.get kv "payload").
    now rewrite Ha.
Qed.

Lemma ready_event_logged_when_lookups_fail_witness :
  post_webhook (config_with (Some "secret")) provider_down
    (signed_request "secret" ready_event_text)
  = (Return received,
     {| logged := [ready_line ready_event_payload not_available not_available];
        handled := [HandleRecordingReady] |})
  /\ status received = 200%Z.
Proof.
  apply (ready_event_logged_when_lookups_fail
           (config_with (Some "secret")) provider_down
           (signed_request "secret" ready_event_text) ready_event_text
           [("type", Json.Str "recording.ready-to-download");
            ("payload", Json.Obj
               [("room_name", Json.Str "demo"); ("recording_id", Json.Str "r1");
                ("duration", Json.Num 125 0); ("start_ts", Json.Num 1700000000 0)])]
           eq_refl).
  - apply accepted_signed. reflexivity.
  - vm_compute. reflexivity.
  - reflexivity.
  - reflexivity.
  - split; reflexivity.
Defined.

(** C10.  For every accepted webhook event whose [type] is one of the
    three known recording event kinds but whose [payload] field is
    absent, the handler of that kind is called, writes the INVALID EVENT
    line of the kind and returns without throwing, and the server
    acknowledges the request with HTTP 200. *)
Theorem known_event_without_payload
    (cfg : config) (api : provider) (req : request) (b : string)
    (kv : list (string * Json.value)) (t : string) (h : handler) :
  req_body req = Buffer b ->
  accepted cfg req ->
  Json.parse b = Some (Json.Obj kv) ->
  Json.get kv "type" = Some (Json.Str t) ->
  handler_of t = Some h ->
  Json.get kv "payload" = None ->
  post_webhook cfg api req
  = (Return received, {| logged := [invalid_event t]; handled := [h] |})
  /\ status received = 200%Z.
Proof.
  intros Hb Hacc Hv Ht Hh Hp. split; [| reflexivity].
  apply (post_webhook_dispatched cfg api req b Hb Hacc (Json.Obj kv) _ Hv).
  apply (dispatch_missing_payload api kv t h Ht Hh). now rewrite Hp.
Qed.

Lemma known_event_without_payload_witness :
  post_webhook (config_with (Some "secret")) provider_down
    (signed_request "secret" started_without_payload_text)
  = (Return received,
     {| logged := [invalid_event "recording.started"];
        handled := [HandleRecordingStarted] |})
  /\ status received = 200%Z.
Proof.
  apply (known_event_without_payload (config_with (Some "secret")) provider_down
           (signed_request "secret" started_without_payload_text)
           started_without_payload_text
           [("type", Json.Str "recording.started")] "recording.started"
           HandleRecordingStarted eq_refl).
  - apply accepted_signed. reflexivity.
  - vm_compute. reflexivity.
  - reflexivity.
  - reflexivity.
  - reflexivity.
Defined.

(** * Further properties *)

(** ** One line per delivery *)

Ltac convert_all :=
  unfold to_number, interp;
  repeat match goal with
         | |- context [convertible ?v] => destruct (convertible v)
         end.

Lemma handleRecordingStarted_lines (event : jsval) :
  one_line_or_throw (handleRecordingStarted event)
  /\ handled (snd (handleRecordingStarted event)) = [].
Proof.
  unfold handleRecordingStarted.
  destruct (missing_payload event); [split; reflexivity |].
  convert_all; split; reflexivity.
Qed.

Lemma handleRecordingError_lines (event : jsval) :
  one_line_or_throw (handleRecordingError event)
  /\ handled (snd (handleRecordingError event)) = [].
Proof.
  unfold handleRecordingError.
  destruct (missing_payload event); [split; reflexivity |].
  convert_all; split; reflexivity.
Qed.

Lemma handleRecordingReady_lines (api : provider) (event : jsval) :
  one_line_or_throw (handleRecordingReady api event)
  /\ handled (snd (handleRecordingReady api event)) = [].
Proof.
  unfold handleRecordingReady.
  destruct (missing_payload event); [split; reflexivity |].
  cbv zeta.
  generalize (getRecordingDownloadUrl api (prop (prop event "payload") "recording_id")).
  generalize (getRecordingAccessLink api (prop (prop event "payload") "recording_id")
                default_valid_for_secs).
  intros a d. convert_all; split; reflexivity.
Qed.

Lemma dispatch_lines (api : provider) (event : jsval) :
  one_line_or_throw (dispatch api event)
  /\ (length (handled (snd (dispatch api event))) <= 1)%nat.
Proof.
  unfold dispatch.
  destruct (get_prop event "type") as [type | e]; [| split; cbn; auto].
  rewrite bind_lift_return.
  destruct (is_string type "recording.started").
  { destruct (handleRecordingStarted_lines event) as [Hl Hh].
    destruct (handleRecordingStarted event) as [c eff]. cbn in *. now rewrite Hh. }
  destruct (is_string type "recording.ready-to-download").
  { destruct (handleRecordingReady_lines api event) as [Hl Hh].
    destruct (handleRecordingReady api event) as [c eff]. cbn in *. now rewrite Hh. }
  destruct (is_string type "recording.error").
  { destruct (handleRecordingError_lines event) as [Hl Hh].
    destruct (handleRecordingError event) as [c eff]. cbn in *. now rewrite Hh. }
  convert_all; split; cbn; auto.
Qed.

Lemma decode_event_quiet (payload : body) : snd (decode_event payload) = no_effects.
Proof.
  unfold decode_event, JSON_parse.
  destruct payload as [b | [[| | | s | |] |]]; try reflexivity;
    match goal with |- context [Json.parse ?t] => now destruct (Json.parse t) end.
Qed.

Lemma process_event_lines (api : provider) (payload : body) :
  exists r eff,
    try_catch (process_event api payload) on_error = (Return r, eff)
    /\ (r = received \/ r = internal_error)
    /\ length (logged eff) = 1%nat
    /\ (length (handled eff) <= 1)%nat.
Proof.
  unfold process_event. pose proof (decode_event_quiet payload) as Hq.
  destruct (decode_event payload) as [[event | e] eff0]; cbn in Hq; subst eff0.
  - change (Return event, no_effects) with (ret (A := jsval) event). rewrite bind_ret.
    destruct (dispatch_lines api event) as [Hl Hh].
    destruct (dispatch api event) as [[[] | e] [lg hd]]; cbn in *.
    + eexists _, _. split; [reflexivity |]. rewrite and_then_nil_r. cbn. auto.
    + eexists _, _. split; [reflexivity |]. subst lg. cbn.
      rewrite app_nil_r. auto.
  - eexists _, _. split; [reflexivity |]. cbn. auto.
Qed.

(** X1.  Every POST handled by the [/webhook] route is answered, with
    200, 401 or 500, never with an exception; it appends exactly one
    line to the log and calls at most one handler. *)
Theorem post_webhook_one_line (cfg : config) (api : provider) (req : request) :
  exists r eff,
    post_webhook cfg api req = (Return r, eff)
    /\ (r = received \/ r = unauthorized \/ r = internal_error)
    /\ length (logged eff) = 1%nat
    /\ (length (handled eff) <= 1)%nat.
Proof.
  destruct (verification_runs cfg req) eqn:Hrun.
  - destruct (verification_result cfg req) as [[] | e] eqn:Hres.
    + rewrite post_webhook_accepted by (right; exact Hres).
      destruct (process_event_lines api (req_body req)) as (r & eff & -> & Hr & H).
      exists r, eff. intuition.
    + rewrite (post_webhook_rejected cfg api req Hrun Hres).
      eexists _, _. split; [reflexivity |]. cbn. auto.
    + rewrite (post_webhook_verifier_throws cfg api req e Hrun Hres).
      eexists _, _. split; [reflexivity |]. cbn. auto.
  - rewrite post_webhook_accepted by (left; exact Hrun).
    destruct (process_event_lines api (req_body req)) as (r & eff & -> & Hr & H).
    exists r, eff. intuition.
Qed.

(** ** What the verifier accepts *)

Lemma truthy_str_nonempty (s : string) :
  truthy_str (Some s) = true <-> s <> EmptyString.
Proof.
  unfold truthy_str. destruct (String.eqb_spec s EmptyString); cbn; split; congruence.
Qed.

(** X2.  The verifier returns true exactly when the secret and the
    signature are both present and not empty, the payload is a string or a
    buffer, and the signature, without its [sha256=] tag, decodes from hex
    to the HMAC-SHA256 of the payload under the secret. *)
Theorem verify_accepts_iff (payload : body) (signature secret : option string) :
  verifyWebhookSignature payload signature secret = Return true
  <-> exists g s data,
        signature = Some g /\ secret = Some s
        /\ g <> EmptyString /\ s <> EmptyString
        /\ hmac_input payload = Return data
        /\ Hex.decode (strip_tag g)
           = SHA256.hmac (bytes_of_string s) (bytes_of_string data).
Proof.
  split.
  - intros H.
    destruct secret as [s |]; [| discriminate H].
    destruct signature as [g |];
      [| unfold verifyWebhookSignature in H; cbn in H;
         rewrite orb_true_r in H; discriminate H].
    destruct (truthy_str (Some s)) eqn:Hs;
      [| rewrite verify_missing in H by auto; discriminate H].
    destruct (truthy_str (Some g)) eqn:Hg;
      [| rewrite verify_missing in H by auto; discriminate H].
    destruct (hmac_input payload) as [data | e] eqn:Hp.
    + exists g, s, data. rewrite (verify_present payload data g s Hs Hg Hp) in H.
      unfold timingSafeEqual in H.
      destruct (bool_decide (length _ = length _)); [| discriminate H].
      injection H as H. apply bool_decide_eq_true_1 in H.
      repeat split; auto; now apply truthy_str_nonempty.
    + unfold verifyWebhookSignature in H. rewrite Hs, Hg, Hp in H. discriminate H.
  - intros (g & s & data & -> & -> & Hg & Hs & Hp & Hd).
    apply truthy_str_nonempty in Hg, Hs.
    rewrite (verify_present payload data g s Hs Hg Hp), Hd.
    apply timingSafeEqual_same.
Qed.

(** X3.  On [/webhook], with a secret configured and a signature header
    present, the answer depends on the signature alone: if it does not
    decode to 32 bytes the route answers 500 with an error line; if it
    decodes to 32 bytes that are not the digest of the raw body, 401 with
    the authentication-failure line and no processing; if it decodes to the
    digest, the event is processed as in unauthenticated mode. *)
Theorem authentication_outcome
    (cfg : config) (api : provider) (req : request) (secret signature text : string) :
  WEBHOOK_SECRET cfg = Some secret ->
  signature_header req = Some signature ->
  req_body req = Buffer text ->
  secret <> EmptyString ->
  signature <> EmptyString ->
  post_webhook cfg api req
  = if bool_decide (length (Hex.decode (strip_tag signature)) = 32%nat) then
      if bool_decide (Hex.decode (strip_tag signature)
                      = SHA256.hmac (bytes_of_string secret) (bytes_of_string text))
      then try_catch (process_event api (Buffer text)) on_error
      else (Return unauthorized,
            {| logged := [invalid_signature_line]; handled := [] |})
    else (Return internal_error,
          {| logged := [webhook_error_line RangeError_length]; handled := [] |}).
Proof.
  intros Hsec Hsig Hb Hs Hg. apply truthy_str_nonempty in Hs, Hg.
  assert (verification_runs cfg req = true) as Hrun
    by (unfold verification_runs; now rewrite Hsec, Hsig, Hs, Hg).
  assert (verification_result cfg req
          = timingSafeEqual
              (SHA256.hmac (bytes_of_string secret) (bytes_of_string text))
              (Hex.decode (strip_tag signature))) as Hres.
  { unfold verification_result. rewrite Hsec, Hsig, Hb.
    now apply verify_present. }
  case_bool_decide as HL; [case_bool_decide as HD |].
  - rewrite post_webhook_accepted, Hb; [reflexivity |].
    right. rewrite Hres, HD. apply timingSafeEqual_same.
  - apply post_webhook_rejected; [assumption |]. rewrite Hres.
    apply timingSafeEqual_differ; [now rewrite hmac_length | congruence].
  - apply post_webhook_verifier_throws; [assumption |]. rewrite Hres.
    apply timingSafeEqual_length. now rewrite hmac_length.
Qed.

Lemma authentication_outcome_witness :
  post_webhook (config_with (Some "secret")) provider_down
    (post_request (Some "sha256=00ff") (Buffer "{}"))
  = (Return internal_error,
     {| logged := [webhook_error_line RangeError_length]; handled := [] |}).
Proof.
  apply (authentication_outcome (config_with (Some "secret")) provider_down
           (post_request (Some "sha256=00ff") (Buffer "{}"))
           "secret" "sha256=00ff" "{}" eq_refl eq_refl eq_refl);
    discriminate.
Defined.

Section HexVariants.

Local Open Scope N_scope.

Lemma unhex_upper_digit (n : N) :
  n < 16 -> Hex.unhex (upper_digit (Hex.digit n)) = Some n.
Proof.
  intros Hn. destruct n as [| p]; [reflexivity |].
  do 4 (try (destruct p as [p | p |]; try reflexivity)); lia.
Qed.

Lemma upper_digit_not_s (n : N) :
  Ascii.eqb "s"%char (upper_digit (Hex.digit n)) = false.
Proof.
  destruct n as [| p]; [reflexivity |].
  do 4 (try (destruct p as [p | p |]; try reflexivity)).
Qed.

Lemma decode_upper_encode (l : list N) :
  Forall (fun b => b < 256) l -> Hex.decode (upper_hex (Hex.encode l)) = l.
Proof.
  induction 1 as [| b l Hb _ IH]; [reflexivity |].
  cbn [Hex.encode upper_hex Hex.decode].
  rewrite !unhex_upper_digit, IH.
  - f_equal. rewrite N.mul_comm. symmetry. apply N.div_mod'.
  - apply N.mod_lt. discriminate.
  - apply N.Div0.div_lt_upper_bound. exact Hb.
Qed.

Lemma decode_encode_junk (l : list N) (junk : string) :
  Forall (fun b => b < 256) l ->
  stops_decoding junk = true ->
  Hex.decode (Hex.encode l +:+ junk) = l.
Proof.
  intros Hl Hj. induction Hl as [| b l Hb _ IH].
  - change (Hex.encode [] +:+ junk) with junk.
    destruct junk as [| c1 [| c2 junk]]; try reflexivity.
    cbn [stops_decoding] in Hj. cbn [Hex.decode].
    destruct (Hex.unhex c1), (Hex.unhex c2); try reflexivity; discriminate.
  - change (Hex.encode (b :: l) +:+ junk)
      with (String (Hex.digit (b / 16))
              (String (Hex.digit (b mod 16)) (Hex.encode l +:+ junk))).
    cbn [Hex.decode]. rewrite !unhex_digit, IH.
    + f_equal. rewrite N.mul_comm. symmetry. apply N.div_mod'.
    + apply N.mod_lt. discriminate.
    + apply N.Div0.div_lt_upper_bound. exact Hb.
Qed.

End HexVariants.

Lemma hmac_nonempty (key msg : list N) : SHA256.hmac key msg <> [].
Proof.
  intros H. pose proof (hmac_length key msg) as L. rewrite H in L. discriminate.
Qed.

(** X4.  The hex digits of the signature may be capital letters: the
    digest written in upper case verifies like the digest itself (true,
    unless the secret is empty). *)
Theorem upper_case_signature_verifies (P S : string) :
  verifyWebhookSignature (Buffer P) (Some (upper_hex (hmac_sha256_hex S P))) (Some S)
  = Return (truthy_str (Some S)).
Proof.
  destruct (truthy_str (Some S)) eqn:HS; [| now rewrite verify_missing by auto].
  unfold hmac_sha256_hex.
  pose proof (hmac_nonempty (bytes_of_string S) (bytes_of_string P)) as Hne.
  pose proof (hmac_bytes (bytes_of_string S) (bytes_of_string P)) as Hb.
  destruct (SHA256.hmac (bytes_of_string S) (bytes_of_string P)) as [| b l] eqn:E;
    [contradiction |].
  rewrite (verify_present (Buffer P) P) by (auto; reflexivity).
  unfold strip_tag. cbn [Hex.encode upper_hex startsWith].
  rewrite upper_digit_not_s. cbn [andb].
  change (String (upper_digit (Hex.digit (b / 16)))
            (String (upper_digit (Hex.digit (b mod 16))) (upper_hex (Hex.encode l))))
    with (upper_hex (Hex.encode (b :: l))).
  rewrite decode_upper_encode, E by assumption. apply timingSafeEqual_same.
Qed.

(** X5.  Characters after the digest are ignored: a signature made of
    the hex digest followed by text that is not hex (or by one more
    character) verifies like the digest itself, because
    [Buffer.from(_, 'hex')] stops at the first pair that is not hex. *)
Theorem trailing_text_is_ignored (P S junk : string) :
  stops_decoding junk = true ->
  verifyWebhookSignature (Buffer P) (Some (hmac_sha256_hex S P +:+ junk)) (Some S)
  = Return (truthy_str (Some S)).
Proof.
  intros Hj.
  destruct (truthy_str (Some S)) eqn:HS; [| now rewrite verify_missing by auto].
  unfold hmac_sha256_hex.
  pose proof (hmac_nonempty (bytes_of_string S) (bytes_of_string P)) as Hne.
  pose proof (hmac_bytes (bytes_of_string S) (bytes_of_string P)) as Hb.
  destruct (SHA256.hmac (bytes_of_string S) (bytes_of_string P)) as [| b l] eqn:E;
    [contradiction |].
  assert (startsWith "sha256=" (Hex.encode (b :: l) +:+ junk) = false) as Htag.
  { change (Hex.encode (b :: l) +:+ junk)
      with (String (Hex.digit (b / 16))
              (String (Hex.digit (b mod 16)) (Hex.encode l +:+ junk))).
    cbn [startsWith]. now rewrite digit_not_s. }
  rewrite (verify_present (Buffer P) P); [| assumption | reflexivity | reflexivity].
  unfold strip_tag. rewrite Htag, decode_encode_junk, E by assumption.
  apply timingSafeEqual_same.
Qed.

Lemma trailing_text_is_ignored_witness :
  verifyWebhookSignature (Buffer "{}")
    (Some (hmac_sha256_hex "secret" "{}" +:+ " and more")) (Some "secret")
  = Return true.
Proof.
  apply (trailing_text_is_ignored "{}" "secret" " and more"). reflexivity.
Defined.

(** ** Modes of authentication *)

(** X6.  When [DAILY_WEBHOOK_SECRET] is not set, or is set to the empty
    string, no request is verified: the answer does not depend on the
    headers, and it is never 401. *)
Theorem no_secret_no_verification
    (env : environment) (api : provider) (req req' : request) :
  env !! "DAILY_WEBHOOK_SECRET" = None
  \/ env !! "DAILY_WEBHOOK_SECRET" = Some EmptyString ->
  req_body req = req_body req' ->
  post_webhook (load_config env) api req = post_webhook (load_config env) api req'
  /\ fst (post_webhook (load_config env) api req) <> Return unauthorized.
Proof.
  intros Henv Hb.
  assert (forall r, accepted (load_config env) r) as Hacc.
  { intros r. left. unfold verification_runs, load_config. cbn.
    destruct Henv as [-> | ->]; reflexivity. }
  rewrite !post_webhook_accepted by apply Hacc. rewrite Hb. split; [reflexivity |].
  destruct (process_event_lines api (req_body req')) as (r & eff & -> & [-> | ->] & _);
    discriminate.
Qed.

Lemma no_secret_no_verification_witness :
  post_webhook (load_config ∅) provider_down
    (post_request (Some "not-hex") (Buffer unknown_event_text))
  = post_webhook (load_config ∅) provider_down
      (post_request None (Buffer unknown_event_text))
  /\ fst (post_webhook (load_config ∅) provider_down
            (post_request (Some "not-hex") (Buffer unknown_event_text)))
     <> Return unauthorized.
Proof.
  apply (no_secret_no_verification ∅ provider_down
           (post_request (Some "not-hex") (Buffer unknown_event_text))
           (post_request None (Buffer unknown_event_text))).
  - left. reflexivity.
  - reflexivity.
Defined.

(** X7.  The signature is read from [x-daily-signature] or from
    [x-signature]: a request that carries it under one name is answered
    like the request that carries it under the other. *)
Theorem signature_header_names
    (cfg : config) (api : provider) (m : string) (h : gmap string string)
    (s : string) (b : body) (t : string) :
  h !! "x-daily-signature" = None ->
  h !! "x-signature" = None ->
  post_webhook cfg api
    {| method := m; headers := <["x-signature" := s]> h; req_body := b; now := t |}
  = post_webhook cfg api
      {| method := m; headers := <["x-daily-signature" := s]> h;
         req_body := b; now := t |}.
Proof.
  intros Hd Hx.
  set (r1 := {| method := m; headers := <["x-signature" := s]> h;
                req_body := b; now := t |}).
  set (r2 := {| method := m; headers := <["x-daily-signature" := s]> h;
                req_body := b; now := t |}).
  assert (signature_header r1 = Some s) as H1.
  { unfold signature_header, r1. cbn [headers].
    rewrite (lookup_insert_ne h "x-signature" "x-daily-signature") by discriminate.
    now rewrite Hd, lookup_insert_eq. }
  assert (signature_header r2 = if truthy_str (Some s) then Some s else None) as H2.
  { unfold signature_header, r2. cbn [headers].
    rewrite (lookup_insert_ne h "x-daily-signature" "x-signature") by discriminate.
    now rewrite lookup_insert_eq, Hx. }
  unfold post_webhook. rewrite H1, H2. cbn [req_body r1 r2].
  destruct (truthy_str (Some s)) eqn:E; cbn [truthy_str];
    change (negb (String.eqb s EmptyString)) with (truthy_str (Some s));
    rewrite ?E, ?andb_false_r; reflexivity.
Qed.

Lemma signature_header_names_witness :
  post_webhook (config_with (Some "secret")) provider_down
    {| method := "POST"; headers := <["x-signature" := "00"]> ∅;
       req_body := Buffer "{}"; now := EmptyString |}
  = post_webhook (config_with (Some "secret")) provider_down
      {| method := "POST"; headers := <["x-daily-signature" := "00"]> ∅;
         req_body := Buffer "{}"; now := EmptyString |}.
Proof.
  apply (signature_header_names (config_with (Some "secret")) provider_down
           "POST" ∅ "00" (Buffer "{}") EmptyString); reflexivity.
Defined.

(** X8.  A delivery to [/webhook] signed with the HMAC of its raw body
    under the configured secret, with or without the [sha256=] tag, is
    never rejected: it is processed exactly as the same body is when no
    secret is configured. *)
Theorem signed_delivery_is_processed
    (cfg cfg' : config) (api : provider) (d : delivery) (secret signature : string) :
  WEBHOOK_SECRET cfg = Some secret ->
  WEBHOOK_SECRET cfg' = None ->
  secret <> EmptyString ->
  signature_header (request_of d (Buffer (d_body d))) = Some signature ->
  signature = hmac_sha256_hex secret (d_body d)
  \/ signature = "sha256=" +:+ hmac_sha256_hex secret (d_body d) ->
  deliver_post cfg api Webhook d = deliver_post cfg' api Webhook d.
Proof.
  intros Hsec Hnone Hs Hsig Hdigest. apply truthy_str_nonempty in Hs.
  unfold deliver_post. rewrite !post_webhook_accepted; [reflexivity | |].
  - left. unfold verification_runs. now rewrite Hnone.
  - right. unfold verification_result. rewrite Hsec, Hsig.
    destruct Hdigest as [-> | ->].
    + now apply verify_correct_digest.
    + now apply verify_correct_digest_tagged.
Qed.

Lemma signed_delivery_is_processed_witness :
  deliver_post (config_with (Some "secret")) provider_down Webhook
    (signed_delivery "secret" error_event_text)
  = deliver_post (config_with None) provider_down Webhook
      (signed_delivery "secret" error_event_text).
Proof.
  apply (signed_delivery_is_processed (config_with (Some "secret")) (config_with None)
           provider_down (signed_delivery "secret" error_event_text) "secret"
           ("sha256=" +:+ hmac_sha256_hex "secret" error_event_text)
           eq_refl eq_refl).
  - discriminate.
  - reflexivity.
  - right. reflexivity.
Defined.

(** ** The root route *)

Lemma express_json_container (raw : string) (v : jsval) :
  express_json raw = Some v -> exists jv, v = Some jv /\ is_container jv = true.
Proof.
  destruct (String.eqb_spec raw EmptyString) as [-> | Hne].
  - intros [= <-]. now exists (Json.Obj []).
  - intros H. destruct (express_json_accepts raw v Hne H) as (jv & -> & _ & Hc).
    now exists jv.
Qed.

(** X9.  On [/] the verifier is given the body parsed by
    [express.json], an object or an array, which [hmac.update] refuses:
    with a secret configured, every POST to [/] that carries a signature
    header, whatever the signature, is answered with 500 and one error
    line, and no handler runs. *)
Theorem root_cannot_verify
    (cfg : config) (api : provider) (d : delivery) (v : jsval) :
  verification_runs cfg (request_of d (Parsed v)) = true ->
  express_json (d_body d) = Some v ->
  deliver_post cfg api Root d
  = (Return internal_error,
     {| logged := [webhook_error_line TypeError_arg_type]; handled := [] |}).
Proof.
  intros Hrun Hj. unfold deliver_post. rewrite Hj.
  destruct (express_json_container _ _ Hj) as (jv & -> & Hc).
  unfold verification_runs in Hrun. unfold all_root.
  cbn [method request_of String.eqb Ascii.eqb Bool.eqb req_body] in *.
  cbv zeta. rewrite Hrun.
  assert (verifyWebhookSignature (Parsed (Some jv))
            (signature_header (request_of d (Parsed (Some jv)))) (WEBHOOK_SECRET cfg)
          = Throw TypeError_arg_type) as Hv.
  { apply andb_prop in Hrun as [Hs Hg]. unfold verifyWebhookSignature.
    unfold request_of in *. rewrite Hs, Hg. now destruct jv. }
  rewrite Hv. reflexivity.
Qed.

Lemma root_cannot_verify_witness :
  deliver_post (config_with (Some "secret")) provider_down Root
    (signed_delivery "secret" error_event_text)
  = (Return internal_error,
     {| logged := [webhook_error_line TypeError_arg_type]; handled := [] |}).
Proof.
  apply (root_cannot_verify (config_with (Some "secret")) provider_down
           (signed_delivery "secret" error_event_text) error_event_value).
  - vm_compute. reflexivity.
  - vm_compute. reflexivity.
Defined.

(** X10.  The root route answers every request, whatever its method:
    with the verification answer, 200, 401, 405 or 500, never with an
    exception; it appends at most two lines to the log and calls at most
    one handler. *)
Theorem all_root_answers (cfg : config) (api : provider) (req : request) :
  exists r eff,
    all_root cfg api req = (Return r, eff)
    /\ (r = verified req \/ r = received \/ r = unauthorized
        \/ r = internal_error \/ r = method_not_allowed)
    /\ (length (logged eff) <= 2)%nat
    /\ (length (handled eff) <= 1)%nat.
Proof.
  assert (forall (event : jsval),
    exists r eff,
      try_catch
        (let* type := lift (get_prop event "type") in
         let* t := interp type in
         writeLog [Lit "📝 WEBHOOK EVENT RECEIVED: "; t] >>
         dispatch api event >> ret received) on_error = (Return r, eff)
      /\ (r = received \/ r = internal_error)
      /\ (length (logged eff) <= 2)%nat
      /\ (length (handled eff) <= 1)%nat) as Hevent.
  { intros event.
    destruct (get_prop event "type") as [type | e];
      [| eexists _, _; split; [reflexivity |]; cbn; auto].
    rewrite bind_lift_return. unfold interp.
    destruct (convertible type);
      [| eexists _, _; split; [reflexivity |]; cbn; auto].
    rewrite bind_ret. destruct (dispatch_lines api event) as [Hl Hh].
    destruct (dispatch api event) as [[[] | e] [lg hd]]; cbn in *;
      eexists _, _; (split; [reflexivity |]); subst;
      cbn; rewrite ?length_app; cbn; repeat split; auto; lia. }
  assert (exists r eff,
    try_catch
      (let* event := decode_event (req_body req) in
       let* type := lift (get_prop event "type") in
       let* t := interp type in
       writeLog [Lit "📝 WEBHOOK EVENT RECEIVED: "; t] >>
       dispatch api event >> ret received) on_error = (Return r, eff)
    /\ (r = received \/ r = internal_error)
    /\ (length (logged eff) <= 2)%nat
    /\ (length (handled eff) <= 1)%nat) as Hbody.
  { pose proof (decode_event_quiet (req_body req)) as Hq.
    destruct (decode_event (req_body req)) as [[event | e] eff0]; cbn in Hq; subst eff0.
    - change (Return event, no_effects) with (ret (A := jsval) event).
      rewrite bind_ret. apply Hevent.
    - eexists _, _. split; [reflexivity |]. cbn. auto. }
  unfold all_root. cbv zeta.
  destruct (String.eqb (method req) "GET").
  { eexists _, _. split; [reflexivity |]. cbn. auto. }
  destruct (String.eqb (method req) "POST").
  2: { eexists _, _. split; [reflexivity |]. cbn. auto 6. }
  destruct (truthy_str (WEBHOOK_SECRET cfg) && truthy_str (signature_header req)).
  - destruct (verifyWebhookSignature _ _ _) as [[] | e].
    + rewrite bind_lift_return, bind_ret. cbn [negb].
      destruct Hbody as (r & eff & -> & [-> | ->] & H); eexists _, _; eauto 7.
    + eexists _, _. split; [reflexivity |]. cbn. auto 7.
    + eexists _, _. split; [reflexivity |]. cbn. auto 7.
  - rewrite bind_ret.
    destruct Hbody as (r & eff & -> & [-> | ->] & H); eexists _, _; eauto 7.
Qed.

(** ** What the handlers write *)

Section Handlers.

Variable api : provider.

Lemma handleRecordingStarted_outcome (event : jsval) :
  missing_payload event = false ->
  handleRecordingStarted event
  = if forallb convertible (started_fields (prop event "payload"))
    then writeLog (started_line (prop event "payload"))
    else throw TypeError_primitive.
Proof.
  intros Hm. unfold handleRecordingStarted, started_fields. rewrite Hm.
  cbn [forallb]. convert_all; reflexivity.
Qed.

Lemma handleRecordingError_outcome (event : jsval) :
  missing_payload event = false ->
  handleRecordingError event
  = if forallb convertible (error_fields (prop event "payload"))
    then writeLog (error_line (prop event "payload"))
    else throw TypeError_primitive.
Proof.
  intros Hm. unfold handleRecordingError, error_fields. rewrite Hm.
  cbn [forallb]. convert_all; reflexivity.
Qed.

Lemma handleRecordingReady_throws (event : jsval) :
  missing_payload event = false ->
  forallb convertible (ready_fields (prop event "payload")) = false ->
  handleRecordingReady api event = throw TypeError_primitive.
Proof.
  intros Hm. unfold handleRecordingReady, ready_fields. rewrite Hm.
  cbn [forallb]. cbv zeta.
  generalize (getRecordingDownloadUrl api (prop (prop event "payload") "recording_id")).
  generalize (getRecordingAccessLink api (prop (prop event "payload") "recording_id")
                default_valid_for_secs).
  intros a d. convert_all; cbn; intros H; try discriminate H; reflexivity.
Qed.

Lemma dispatch_known (kv : list (string * Json.value)) (t : string) (h : handler) :
  Json.get kv "type" = Some (Json.Str t) ->
  handler_of t = Some h ->
  dispatch api (Some (Json.Obj kv))
  = (called h >> run_handler api h (Some (Json.Obj kv))).
Proof.
  intros Ht Hh. unfold dispatch, get_prop, prop. rewrite bind_lift_return, Ht.
  destruct (handler_of_cases t h Hh) as [[-> ->] | [[-> ->] | [-> ->]]]; reflexivity.
Qed.

Lemma payload_present (kv : list (string * Json.value)) :
  truthy (Json.get kv "payload") = true ->
  missing_payload (Some (Json.Obj kv)) = false.
Proof. intros H. unfold missing_payload, prop. now rewrite H. Qed.

End Handlers.

(** X11.  An accepted [recording.started] event whose payload is present
    and whose fields can be printed is logged as one RECORDING STARTED
    line with the room, the recording id, who started it (or [Unknown])
    and the start time, and acknowledged with 200. *)
Theorem started_event_logged
    (cfg : config) (api : provider) (req : request) (b : string)
    (kv : list (string * Json.value)) :
  req_body req = Buffer b ->
  accepted cfg req ->
  Json.parse b = Some (Json.Obj kv) ->
  Json.get kv "type" = Some (Json.Str "recording.started") ->
  truthy (Json.get kv "payload") = true ->
  forallb convertible (started_fields (Json.get kv "payload")) = true ->
  post_webhook cfg api req
  = (Return received,
     {| logged := [started_line (Json.get kv "payload")];
        handled := [HandleRecordingStarted] |}).
Proof.
  intros Hb Hacc Hv Ht Hp Hc.
  apply (post_webhook_dispatched cfg api req b Hb Hacc (Json.Obj kv) _ Hv).
  rewrite (dispatch_known api kv _ HandleRecordingStarted Ht eq_refl).
  cbn [run_handler].
  rewrite handleRecordingStarted_outcome by now apply payload_present.
  cbn [prop]. now rewrite Hc.
Qed.

Lemma started_event_logged_witness :
  post_webhook (config_with (Some "secret")) provider_down
    (signed_request "secret" started_event_text)
  = (Return received,
     {| logged := [started_line started_event_payload];
        handled := [HandleRecordingStarted] |}).
Proof.
  apply (started_event_logged (config_with (Some "secret")) provider_down
           (signed_request "secret" started_event_text) started_event_text
           [("type", Json.Str "recording.started");
            ("payload", Json.Obj
               [("room_name", Json.Str "demo"); ("recording_id", Json.Str "r1");
                ("started_by", Json.Str "alice");
                ("start_ts", Json.Num 1700000000 0)])] eq_refl).
  - apply accepted_signed. reflexivity.
  - vm_compute. reflexivity.
  - reflexivity.
  - reflexivity.
  - reflexivity.
Defined.

(** X12.  An accepted [recording.error] event whose payload is present
    and whose fields can be printed is logged as one RECORDING ERROR line
    with the room, the recording id and the error message (or
    [Unknown error]), and acknowledged with 200. *)
Theorem error_event_logged
    (cfg : config) (api : provider) (req : request) (b : string)
    (kv : list (string * Json.value)) :
  req_body req = Buffer b ->
  accepted cfg req ->
  Json.parse b = Some (Json.Obj kv) ->
  Json.get kv "type" = Some (Json.Str "recording.error") ->
  truthy (Json.get kv "payload") = true ->
  forallb convertible (error_fields (Json.get kv "payload")) = true ->
  post_webhook cfg api req
  = (Return received,
     {| logged := [error_line (Json.get kv "payload")];
        handled := [HandleRecordingError] |}).
Proof.
  intros Hb Hacc Hv Ht Hp Hc.
  apply (post_webhook_dispatched cfg api req b Hb Hacc (Json.Obj kv) _ Hv).
  rewrite (dispatch_known api kv _ HandleRecordingError Ht eq_refl).
  cbn [run_handler].
  rewrite handleRecordingError_outcome by now apply payload_present.
  cbn [prop]. now rewrite Hc.
Qed.

Lemma error_event_logged_witness :
  post_webhook (config_with (Some "secret")) provider_down
    (signed_request "secret" error_event_text)
  = (Return received,
     {| logged := [error_line error_event_payload];
        handled := [HandleRecordingError] |}).
Proof.
  apply (error_event_logged (config_with (Some "secret")) provider_down
           (signed_request "secret" error_event_text) error_event_text
           [("type", Json.Str "recording.error");
            ("payload", Json.Obj
               [("room_name", Json.Str "demo"); ("recording_id", Json.Str "r1");
                ("error_msg", Json.Str "disk full")])] eq_refl).
  - apply accepted_signed. reflexivity.
  - vm_compute. reflexivity.
  - reflexivity.
  - reflexivity.
  - reflexivity.
Defined.

(** X13.  An accepted [recording.ready-to-download] event with a
    well-formed payload, for which the provider answers the metadata
    call and the access-link call each with a non-empty [download_link]
    string, is logged as one READY line that shows the two links, and
    acknowledged with 200. *)
Theorem ready_event_enriched
    (cfg : config) (api : provider) (req : request) (b : string)
    (kv r1 r2 : list (string * Json.value)) (download streaming : string) :
  req_body req = Buffer b ->
  accepted cfg req ->
  Json.parse b = Some (Json.Obj kv) ->
  Json.get kv "type" = Some (Json.Str "recording.ready-to-download") ->
  well_formed_ready (Json.get kv "payload") = true ->
  api (recording_url (prop (Json.get kv "payload") "recording_id"))
    = AxiosResponse (Some (Json.Obj r1)) ->
  api (access_link_url (prop (Json.get kv "payload") "recording_id"))
    = AxiosResponse (Some (Json.Obj r2)) ->
  Json.get r1 "download_link" = Some (Json.Str download) ->
  Json.get r2 "download_link" = Some (Json.Str streaming) ->
  download <> EmptyString ->
  streaming <> EmptyString ->
  post_webhook cfg api req
  = (Return received,
     {| logged := [ready_line (Json.get kv "payload")
                     (js_str download) (js_str streaming)];
        handled := [HandleRecordingReady] |}).
Proof.
  intros Hb Hacc Hv Ht Hwf H1 H2 Hd Hs Hdn Hsn.
  apply truthy_str_nonempty in Hdn, Hsn.
  apply (post_webhook_dispatched cfg api req b Hb Hacc (Json.Obj kv) _ Hv).
  rewrite (dispatch_known api kv _ HandleRecordingReady Ht eq_refl).
  cbn [run_handler].
  destruct (well_formed_ready_fields _ Hwf) as (Hp & _ & Hid & _).
  assert (getRecordingDownloadUrl api (prop (Json.get kv "payload") "recording_id")
          = js_str download) as Hdl.
  { unfold getRecordingDownloadUrl. rewrite Hid.
    change (api [Lit "https://api.daily.co/v1/recordings/";
                 Interp (prop (Json.get kv "payload") "recording_id")])
      with (api (recording_url (prop (Json.get kv "payload") "recording_id"))).
    rewrite H1. cbn [download_link_of get_prop prop]. rewrite Hd.
    unfold js_or. cbn [truthy]. cbn [truthy_str] in Hdn. now rewrite Hdn. }
  assert (getRecordingAccessLink api (prop (Json.get kv "payload") "recording_id")
            default_valid_for_secs = js_str streaming) as Hal.
  { unfold getRecordingAccessLink. rewrite Hid. cbn [andb convertible].
    change (api [Lit "https://api.daily.co/v1/recordings/";
                 Interp (prop (Json.get kv "payload") "recording_id");
                 Lit "/access-link?valid_for_secs="; Interp default_valid_for_secs])
      with (api (access_link_url (prop (Json.get kv "payload") "recording_id"))).
    cbn. rewrite H2. cbn [download_link_of get_prop prop]. rewrite Hs.
    unfold js_or. cbn [truthy]. cbn [truthy_str] in Hsn. now rewrite Hsn. }
  rewrite handleRecordingReady_line.
  - change (prop (Some (Json.Obj kv)) "payload") with (Json.get kv "payload").
    rewrite Hdl, Hal. unfold js_or. cbn [truthy js_str].
    cbn [truthy_str] in Hdn, Hsn. now rewrite Hdn, Hsn.
  - reflexivity.
  - exact Hwf.
  - change (prop (Some (Json.Obj kv)) "payload") with (Json.get kv "payload").
    now rewrite Hdl.
  - change (prop (Some (Json.Obj kv)) "payload") with (Json.get kv "payload").
    now rewrite Hal.
Qed.

Lemma ready_event_enriched_witness :
  post_webhook (config_with (Some "secret")) provider_up
    (signed_request "secret" ready_event_text)
  = (Return received,
     {| logged := [ready_line ready_event_payload
                     (js_str "https://dl/r1.mp4") (js_str "https://stream/r1")];
        handled := [HandleRecordingReady] |}).
Proof.
  apply (ready_event_enriched (config_with (Some "secret")) provider_up
           (signed_request "secret" ready_event_text) ready_event_text
           [("type", Json.Str "recording.ready-to-download");
            ("payload", Json.Obj
               [("room_name", Json.Str "demo"); ("recording_id", Json.Str "r1");
                ("duration", Json.Num 125 0); ("start_ts", Json.Num 1700000000 0)])]
           [("download_link", Json.Str "https://dl/r1.mp4")]
           [("download_link", Json.Str "https://stream/r1")]
           "https://dl/r1.mp4" "https://stream/r1" eq_refl).
  - apply accepted_signed. reflexivity.
  - vm_compute. reflexivity.
  - reflexivity.
  - reflexivity.
  - reflexivity.
  - reflexivity.
  - reflexivity.
  - reflexivity.
  - discriminate.
  - discriminate.
Defined.

(** X14.  A [payload] that is present but falsy ([null], [false], [0] or
    the empty string) counts as missing: for each of the three known
    event types the handler writes the INVALID EVENT line and the request
    is acknowledged with 200. *)
Theorem falsy_payload_is_missing
    (cfg : config) (api : provider) (req : request) (b : string)
    (kv : list (string * Json.value)) (t : string) (h : handler) (p : Json.value) :
  req_body req = Buffer b ->
  accepted cfg req ->
  Json.parse b = Some (Json.Obj kv) ->
  Json.get kv "type" = Some (Json.Str t) ->
  handler_of t = Some h ->
  Json.get kv "payload" = Some p ->
  truthy (Some p) = false ->
  post_webhook cfg api req
  = (Return received, {| logged := [invalid_event t]; handled := [h] |}).
Proof.
  intros Hb Hacc Hv Ht Hh Hp Hf.
  apply (post_webhook_dispatched cfg api req b Hb Hacc (Json.Obj kv) _ Hv).
  apply (dispatch_missing_payload api kv t h Ht Hh). now rewrite Hp.
Qed.

Lemma falsy_payload_is_missing_witness :
  post_webhook (config_with (Some "secret")) provider_down
    (signed_request "secret" null_payload_text)
  = (Return received,
     {| logged := [invalid_event "recording.error"];
        handled := [HandleRecordingError] |}).
Proof.
  apply (falsy_payload_is_missing (config_with (Some "secret")) provider_down
           (signed_request "secret" null_payload_text) null_payload_text
           [("type", Json.Str "recording.error"); ("payload", Json.Null)]
           "recording.error" HandleRecordingError Json.Null eq_refl).
  - apply accepted_signed. reflexivity.
  - vm_compute. reflexivity.
  - reflexivity.
  - reflexivity.
  - reflexivity.
  - reflexivity.
Defined.

(** X15.  When a known event has a payload but one of the fields its
    handler prints cannot be converted to a primitive (an object with a
    [toString] member of its own), the handler throws before it writes
    anything: the route answers 500 and the only line logged is the
    error line. *)
Theorem unprintable_field_is_internal_fault
    (cfg : config) (api : provider) (req : request) (b : string)
    (kv : list (string * Json.value)) (t : string) (h : handler) :
  req_body req = Buffer b ->
  accepted cfg req ->
  Json.parse b = Some (Json.Obj kv) ->
  Json.get kv "type" = Some (Json.Str t) ->
  handler_of t = Some h ->
  truthy (Json.get kv "payload") = true ->
  forallb convertible (handler_fields h (Json.get kv "payload")) = false ->
  post_webhook cfg api req
  = (Return internal_error,
     {| logged := [webhook_error_line TypeError_primitive]; handled := [h] |}).
Proof.
  intros Hb Hacc Hv Ht Hh Hp Hc.
  rewrite post_webhook_accepted, Hb by assumption.
  rewrite (process_buffer api b _ Hv), (dispatch_known api kv t h Ht Hh).
  pose proof (payload_present kv Hp) as Hm.
  destruct h; cbn [run_handler handler_fields] in *.
  - rewrite handleRecordingStarted_outcome by assumption.
    cbn [prop]. now rewrite Hc.
  - rewrite handleRecordingReady_throws by assumption. reflexivity.
  - rewrite handleRecordingError_outcome by assumption.
    cbn [prop]. now rewrite Hc.
Qed.

Lemma unprintable_field_is_internal_fault_witness :
  post_webhook (config_with (Some "secret")) provider_down
    (signed_request "secret" unprintable_text)
  = (Return internal_error,
     {| logged := [webhook_error_line TypeError_primitive];
        handled := [HandleRecordingError] |}).
Proof.
  apply (unprintable_field_is_internal_fault (config_with (Some "secret"))
           provider_down (signed_request "secret" unprintable_text) unprintable_text
           [("type", Json.Str "recording.error");
            ("payload", Json.Obj
               [("room_name", Json.Obj [("toString", Json.Num 1 0)])])]
           "recording.error" HandleRecordingError eq_refl).
  - apply accepted_signed. reflexivity.
  - vm_compute. reflexivity.
  - reflexivity.
  - reflexivity.
  - reflexivity.
  - reflexivity.
Defined.
(** * Properties of the command-line tool *)

Section Frame.

Import DailyTester.

Context {A B : Type} (P : action -> bool).

Lemma appends_pure (a : A) : appends P (pure a).
Proof. intros s. exists []. cbn. rewrite app_nil_r. auto. Qed.

Lemma appends_raise (e : thrown) : appends P (@raise A e).
Proof. intros s. exists []. cbn. rewrite app_nil_r. auto. Qed.

Lemma appends_pending : appends P (@pending A).
Proof. intros s. exists []. cbn. rewrite app_nil_r. auto. Qed.

Lemma appends_chain (m : async A) (f : A -> async B) :
  appends P m -> (forall a, appends P (f a)) -> appends P (chain m f).
Proof.
  intros Hm Hf s. unfold chain. destruct (Hm s) as (l & Hl & HP).
  destruct (m s) as [[a | e |] s']; cbn in Hl.
  - destruct (Hf a s') as (l' & Hl' & HP'). exists (l ++ l').
    rewrite Hl', Hl, forallb_app, HP, HP', app_assoc. auto.
  - exists l. auto.
  - exists l. auto.
Qed.

Lemma appends_rescue (m : async A) (h : thrown -> async A) :
  appends P m -> (forall e, appends P (h e)) -> appends P (rescue m h).
Proof.
  intros Hm Hh s. unfold rescue. destruct (Hm s) as (l & Hl & HP).
  destruct (m s) as [[a | e |] s']; cbn in Hl.
  - exists l. auto.
  - destruct (Hh e s') as (l' & Hl' & HP'). exists (l ++ l').
    rewrite Hl', Hl, forallb_app, HP, HP', app_assoc. auto.
  - exists l. auto.
Qed.

Lemma appends_builtin (c : completion A) : appends P (builtin c).
Proof. destruct c; [apply appends_pure | apply appends_raise]. Qed.

End Frame.

Section FrameOfMethods.

Import DailyTester.

Variable w : world.
Variable P : action -> bool.

Lemma appends_this : appends P this.
Proof. intros s. exists []. cbn. rewrite app_nil_r. auto. Qed.

Lemma appends_perform a : P a = true -> appends P (perform a).
Proof. intros H s. exists [a]. cbn. rewrite H. auto. Qed.

Lemma appends_set_domainId v : appends P (set_domainId v).
Proof. intros s. exists []. cbn. rewrite app_nil_r. auto. Qed.

Lemma appends_set_roomName v : appends P (set_roomName v).
Proof. intros s. exists []. cbn. rewrite app_nil_r. auto. Qed.

Lemma appends_set_recordingId v : appends P (set_recordingId v).
Proof. intros s. exists []. cbn. rewrite app_nil_r. auto. Qed.

Lemma appends_Date_now : appends P (Date_now w).
Proof. intros s. exists []. cbn. rewrite app_nil_r. auto. Qed.

Lemma appends_member v k : appends P (member v k).
Proof. apply appends_builtin. Qed.

Lemma appends_hole v : appends P (hole v).
Proof. unfold hole. destruct (convertible v); [apply appends_pure | apply appends_raise]. Qed.

Lemma appends_request v u d :
  P (Api (mkCall v u d)) = true -> appends P (request w v u d).
Proof.
  intros H. unfold request. apply appends_chain.
  - apply appends_perform, H.
  - intros _. destruct (api w _); [apply appends_raise | apply appends_pure].
Qed.

End FrameOfMethods.

Ltac frame_step side :=
  first
    [ apply appends_pure | apply appends_raise | apply appends_pending
    | apply appends_this | apply appends_set_domainId
    | apply appends_set_roomName | apply appends_set_recordingId
    | apply appends_member | apply appends_hole | apply appends_Date_now
    | apply appends_builtin
    | apply appends_request; side
    | apply appends_perform; side
    | progress cbv zeta
    | apply appends_chain; [| intros ?]
    | apply appends_rescue; [| intros ?]
    | match goal with
      | |- appends _ (if ?b then _ else _) => destruct b
      | |- appends _ (match ?x with _ => _ end) => destruct x
      end ].

Ltac frame_methods := repeat frame_step ltac:(reflexivity).

Section FrameOfCommands.

Import DailyTester.

Variable w : world.

Lemma appends_forEach P l :
  appends P (forEach l show_recording).
Proof.
  induction l as [| x l IH]; cbn [forEach]; [apply appends_pure |].
  apply appends_chain; [| intros _; exact IH].
  unfold show_recording. frame_methods.
Qed.

Lemma appends_has_length P data : appends P (has_length w data).
Proof. unfold has_length. frame_methods. Qed.

Lemma appends_switch P cases c :
  (forall name block, In (name, block) cases -> String.eqb c name = true ->
                      appends P block) ->
  appends P (switch cases c).
Proof.
  induction cases as [| [name block] cases IH]; intros H; cbn [switch].
  - apply appends_pure.
  - destruct (String.eqb c name) eqn:E.
    + apply (H name block); [left; reflexivity | exact E].
    + apply IH. intros n b Hin. apply H. right. exact Hin.
Qed.

End FrameOfCommands.

Ltac frame_with side :=
  repeat first
    [ apply appends_forEach | apply appends_has_length | frame_step side ].

Ltac frame := frame_with ltac:(reflexivity).

Section Runs.

Import DailyTester.

Variable w : world.

Lemma runTests_command command :
  argument w 0 = Some command -> command <> "help" ->
  runTests w
  = report ((chain (getDomainConfig w) (fun _ => switch (commands w) command))
              constructor).
Proof.
  intros Ha Hc. unfold runTests. rewrite Ha.
  destruct (String.eqb_spec command "help"); [contradiction | reflexivity].
Qed.

Lemma getDomainConfig_fails :
  domain_known w = false ->
  getDomainConfig w constructor
  = (Raised (Error "Failed to get domain configuration"),
     configured js_null).
Proof.
  unfold domain_known, getDomainConfig, rescue, chain, request, perform.
  cbn. fold domain_call.
  destruct (api w domain_call) as [| [[]|]]; cbn; intros H;
    try discriminate H; reflexivity.
Qed.

Lemma getDomainConfig_succeeds :
  domain_known w = true ->
  exists data,
    api w domain_call = AxiosResponse data
    /\ get_prop data "domain_id" = Return (prop data "domain_id")
    /\ getDomainConfig w constructor
       = (Done data, configured (prop data "domain_id")).
Proof.
  unfold domain_known, getDomainConfig, rescue, chain, request, perform.
  cbn. fold domain_call.
  destruct (api w domain_call) as [| [[]|]]; cbn; intros H;
    try discriminate H; eexists; repeat split; reflexivity.
Qed.

Ltac each_block H :=
  cbn in H; repeat (destruct H as [H | H]); try contradiction;
  inversion H; subst; clear H;
  unfold create_room, start_recording, stop_recording, list_recordings,
    access_recordings, download_recording, get_download_url, get_recording,
    recordings_by_room, delete_room, webhook,
    createRoom, generateMeetingToken, startRecording, stopRecording,
    listRecordings, getRecordingById, listRecordingsByRoom,
    getRecordingDownloadUrl, downloadRecording, configureWebhook, deleteRoom,
    listRecordingAccessInfo, listRooms, getMeetingUrl, getFullMeetingUrl,
    seconds, read_json.

Lemma appends_block name block :
  In (name, block) (commands w) -> appends (fun _ => true) block.
Proof.
  intros H. each_block H; frame.
Qed.

Lemma readers_append name block :
  In (name, block) (commands w) -> ~ In name changes_provider ->
  appends leaves_provider block.
Proof.
  intros H Hn.
  each_block H; try (exfalso; apply Hn; cbn; tauto); frame.
Qed.

Lemma file_keepers_append name block :
  In (name, block) (commands w) -> ~ In name changes_files ->
  appends is_api block.
Proof.
  intros H Hn.
  each_block H; try (exfalso; apply Hn; cbn; tauto); frame.
Qed.

(** The trace of a run whose command is not [help]: the domain call,
    then what the block of the command appends. *)
Lemma run_appends P command :
  argument w 0 = Some command -> command <> "help" ->
  P (Api domain_call) = true ->
  (forall name block, In (name, block) (commands w) ->
                      String.eqb command name = true -> appends P block) ->
  exists rest,
    (runTests w).2 = Api domain_call :: rest /\ forallb P rest = true.
Proof.
  intros Ha Hc HP Hb. rewrite (runTests_command command Ha Hc).
  unfold chain. destruct (domain_known w) eqn:Hk.
  - destruct (getDomainConfig_succeeds Hk) as (data & _ & _ & ->).
    destruct (appends_switch P (commands w) command Hb
                (configured (prop data "domain_id"))) as (l & Hl & Hall).
    exists l. split; [| exact Hall].
    destruct (switch _ _ _) as [[] s']; exact Hl.
  - rewrite (getDomainConfig_fails Hk). exists []. auto.
Qed.

End Runs.

(** X16. Whatever the command, known or not, other than [help]: the
    first thing a run does is to ask the provider for the domain
    configuration; when that call fails, or is answered with [null] or
    nothing, the run does nothing else and reports that failure. *)
Theorem domain_configuration_comes_first
    (w : DailyTester.world) (command : string) :
  DailyTester.argument w 0 = Some command -> command <> "help" ->
  (exists rest, (DailyTester.runTests w).2 = DailyTester.Api domain_call :: rest)
  /\ (domain_known w = false ->
      DailyTester.runTests w
      = (DailyTester.Reported
           (DailyTester.Error "Failed to get domain configuration"),
         [DailyTester.Api domain_call])).
Proof.
  intros Ha Hc. split.
  - destruct (run_appends w (fun _ => true) command Ha Hc eq_refl)
      as (rest & H & _).
    + intros name block Hin _. exact (appends_block w name block Hin).
    + exists rest. exact H.
  - intros Hk. rewrite (runTests_command w command Ha Hc).
    unfold DailyTester.chain. rewrite (getDomainConfig_fails w Hk).
    reflexivity.
Qed.

Lemma domain_configuration_comes_first_witness :
  (exists rest,
     (DailyTester.runTests (sample_world ["no-such-command"] ∅ never)).2
     = DailyTester.Api domain_call :: rest)
  /\ (domain_known (sample_world ["no-such-command"] ∅ never) = false ->
      DailyTester.runTests (sample_world ["no-such-command"] ∅ never)
      = (DailyTester.Reported
           (DailyTester.Error "Failed to get domain configuration"),
         [DailyTester.Api domain_call])).
Proof.
  apply (domain_configuration_comes_first
           (sample_world ["no-such-command"] ∅ never) "no-such-command").
  - reflexivity.
  - discriminate.
Defined.

(** X17. A command that is not one of [create-room], [start-recording],
    [delete-room] and [download-recording] writes and removes no file:
    all a run does is to call the provider.  A command that is not one of
    [create-room], [start-recording], [stop-recording], [delete-room] and
    [webhook] changes nothing at the provider: every call it sends is a
    [GET].  Both hold for commands the tool does not know. *)
Theorem reading_commands_only_read
    (w : DailyTester.world) (command : string) :
  DailyTester.argument w 0 = Some command ->
  (~ In command changes_files ->
   forallb is_api (DailyTester.runTests w).2 = true)
  /\ (~ In command changes_provider ->
      forallb leaves_provider (DailyTester.runTests w).2 = true).
Proof.
  intros Ha.
  destruct (String.eqb_spec command "help") as [-> | Hc].
  { unfold DailyTester.runTests. rewrite Ha. cbn. auto. }
  split; intros Hn.
  - destruct (run_appends w is_api command Ha Hc eq_refl) as (rest & -> & H).
    + intros name block Hin He. apply String.eqb_eq in He. subst name.
      exact (file_keepers_append w command block Hin Hn).
    + cbn. exact H.
  - destruct (run_appends w leaves_provider command Ha Hc eq_refl)
      as (rest & -> & H).
    + intros name block Hin He. apply String.eqb_eq in He. subst name.
      exact (readers_append w command block Hin Hn).
    + cbn. exact H.
Qed.

Lemma reading_commands_only_read_witness :
  (~ In "access-recordings" changes_files ->
   forallb is_api
     (DailyTester.runTests
        (sample_world ["access-recordings"] ∅ (always sample_answer))).2 = true)
  /\ (~ In "access-recordings" changes_provider ->
      forallb leaves_provider
        (DailyTester.runTests
           (sample_world ["access-recordings"] ∅ (always sample_answer))).2
      = true).
Proof.
  apply (reading_commands_only_read
           (sample_world ["access-recordings"] ∅ (always sample_answer))
           "access-recordings").
  reflexivity.
Defined.

(** Symbolic execution of a command: the definitions of the tool are
    unfolded, and the run is split on each thing it depends on. *)
Ltac unfold_tool :=
  cbv beta iota zeta delta
    [DailyTester.create_room DailyTester.start_recording
     DailyTester.stop_recording DailyTester.list_recordings
     DailyTester.access_recordings DailyTester.download_recording
     DailyTester.get_download_url DailyTester.get_recording
     DailyTester.recordings_by_room DailyTester.delete_room
     DailyTester.webhook DailyTester.createRoom
     DailyTester.generateMeetingToken DailyTester.startRecording
     DailyTester.stopRecording DailyTester.listRecordings
     DailyTester.getRecordingById DailyTester.listRecordingsByRoom
     DailyTester.getRecordingDownloadUrl DailyTester.downloadRecording
     DailyTester.configureWebhook DailyTester.deleteRoom
     DailyTester.listRooms DailyTester.getMeetingUrl
     DailyTester.getFullMeetingUrl DailyTester.seconds
     DailyTester.read_json DailyTester.chain DailyTester.rescue
     DailyTester.member DailyTester.hole DailyTester.builtin
     DailyTester.pure DailyTester.raise DailyTester.pending
     DailyTester.this DailyTester.perform DailyTester.request
     DailyTester.set_domainId DailyTester.set_roomName
     DailyTester.set_recordingId DailyTester.Date_now
     DailyTester.domainId DailyTester.roomName DailyTester.recordingId
     DailyTester.ticks DailyTester.trace DailyTester.report
     DailyTester.constructor configured negb orb andb app fst snd].

Ltac split_run_with known :=
  repeat (unfold_tool; known;
          match goal with
          | |- context [match ?x with _ => _ end] =>
              lazymatch x with
              | context [match _ with _ => _ end] => fail
              | _ => destruct x eqn:?
              end
          end);
  unfold_tool; known.

Ltac split_run := split_run_with idtac.

Lemma get_prop_Return v k a : get_prop v k = Return a -> a = prop v k.
Proof. destruct v as [[]|]; cbn; congruence. Qed.

Ltac read_members :=
  repeat match goal with
         | H : get_prop _ _ = Return _ |- _ => apply get_prop_Return in H; subst
         end.

Section Commands.

Import DailyTester.

Variable w : world.

Lemma run_configured command data :
  argument w 0 = Some command -> command <> "help" ->
  api w domain_call = AxiosResponse data -> domain_known w = true ->
  runTests w
  = report (switch (commands w) command (configured (prop data "domain_id"))).
Proof.
  intros Ha Hc Hd Hk. rewrite (runTests_command w command Ha Hc).
  unfold chain. destruct (getDomainConfig_succeeds w Hk) as (d & Hd' & _ & ->).
  rewrite Hd in Hd'. injection Hd' as <-. reflexivity.
Qed.

Lemma run_unconfigured command :
  argument w 0 = Some command -> command <> "help" ->
  domain_known w = false ->
  runTests w
  = (Reported (Error "Failed to get domain configuration"), [Api domain_call]).
Proof.
  intros Ha Hc Hk. rewrite (runTests_command w command Ha Hc).
  unfold chain. rewrite (getDomainConfig_fails w Hk). reflexivity.
Qed.

End Commands.

(** X18. [delete-room] removes the info files only after the provider
    has confirmed the deletion.  Either the run returns normally, and
    then it has deleted the room named in [room-info.json] and has
    removed that file, and [recording-info.json] if there is one, in this
    order and doing nothing else; or it reports an error and has removed
    no file. *)
Theorem delete_room_removes_after_deleting (w : DailyTester.world) :
  DailyTester.argument w 0 = Some "delete-room" ->
  (exists name,
     kept w "room-info.json" "roomName" = Some name
     /\ DailyTester.api w (delete_call name) <> AxiosRejected
     /\ DailyTester.runTests w
        = (DailyTester.Returned,
           [DailyTester.Api domain_call; DailyTester.Api (delete_call name)]
           ++ unlinked w))
  \/ (exists e,
        (DailyTester.runTests w).1 = DailyTester.Reported e
        /\ forallb is_api (DailyTester.runTests w).2 = true).
Proof.
  intros Ha.
  assert (Hc : "delete-room" <> "help") by discriminate.
  destruct (domain_known w) eqn:Hk.
  2:{ right. rewrite (run_unconfigured w _ Ha Hc Hk). eexists. split; reflexivity. }
  destruct (getDomainConfig_succeeds w Hk) as (data & Hd & _ & _).
  rewrite (run_configured w _ data Ha Hc Hd Hk).
  change (DailyTester.switch (DailyTester.commands w) "delete-room")
    with (DailyTester.delete_room w).
  unfold kept, unlinked, delete_call.
  split_run.
  all: try (right; eexists; split; reflexivity).
  all: read_members; left; eexists; repeat split; try reflexivity; congruence.
Qed.

Lemma delete_room_removes_after_deleting_witness :
  (exists name,
     kept (sample_world ["delete-room"] room_file (always sample_answer))
       "room-info.json" "roomName" = Some name
     /\ DailyTester.api
          (sample_world ["delete-room"] room_file (always sample_answer))
          (delete_call name) <> AxiosRejected
     /\ DailyTester.runTests
          (sample_world ["delete-room"] room_file (always sample_answer))
        = (DailyTester.Returned,
           [DailyTester.Api domain_call; DailyTester.Api (delete_call name)]
           ++ unlinked
                (sample_world ["delete-room"] room_file (always sample_answer))))
  \/ (exists e,
        (DailyTester.runTests
           (sample_world ["delete-room"] room_file (always sample_answer))).1
        = DailyTester.Reported e
        /\ forallb is_api
             (DailyTester.runTests
                (sample_world ["delete-room"] room_file (always sample_answer))).2
           = true).
Proof.
  apply (delete_room_removes_after_deleting
           (sample_world ["delete-room"] room_file (always sample_answer))).
  reflexivity.
Defined.

(** X19. [start-recording] writes [recording-info.json] only after the
    provider has started the recording.  Either the run returns normally,
    and then it has asked for a recording of the room named in
    [room-info.json] and has saved the [id] of the answer with that room
    name, doing nothing else; or it reports an error and has written no
    file. *)
Theorem start_recording_saves_after_starting (w : DailyTester.world) :
  DailyTester.argument w 0 = Some "start-recording" ->
  (exists name data,
     kept w "room-info.json" "roomName" = Some name
     /\ DailyTester.api w (start_call name) = AxiosResponse data
     /\ DailyTester.runTests w
        = (DailyTester.Returned,
           [DailyTester.Api domain_call; DailyTester.Api (start_call name);
            DailyTester.SaveJson "recording-info.json"
              [("recordingId", DailyTester.Val (prop data "id"));
               ("roomName", DailyTester.Val name)]]))
  \/ (exists e,
        (DailyTester.runTests w).1 = DailyTester.Reported e
        /\ forallb is_api (DailyTester.runTests w).2 = true).
Proof.
  intros Ha.
  assert (Hc : "start-recording" <> "help") by discriminate.
  destruct (domain_known w) eqn:Hk.
  2:{ right. rewrite (run_unconfigured w _ Ha Hc Hk). eexists. split; reflexivity. }
  destruct (getDomainConfig_succeeds w Hk) as (data & Hd & _ & _).
  rewrite (run_configured w _ data Ha Hc Hd Hk).
  change (DailyTester.switch (DailyTester.commands w) "start-recording")
    with (DailyTester.start_recording w).
  unfold kept, start_call.
  split_run.
  all: try (right; eexists; split; reflexivity).
  all: read_members; left; do 2 eexists; repeat split; try reflexivity; eassumption.
Qed.

Lemma start_recording_saves_after_starting_witness :
  (exists name data,
     kept (sample_world ["start-recording"] room_file (always sample_answer))
       "room-info.json" "roomName" = Some name
     /\ DailyTester.api
          (sample_world ["start-recording"] room_file (always sample_answer))
          (start_call name) = AxiosResponse data
     /\ DailyTester.runTests
          (sample_world ["start-recording"] room_file (always sample_answer))
        = (DailyTester.Returned,
           [DailyTester.Api domain_call; DailyTester.Api (start_call name);
            DailyTester.SaveJson "recording-info.json"
              [("recordingId", DailyTester.Val (prop data "id"));
               ("roomName", DailyTester.Val name)]]))
  \/ (exists e,
        (DailyTester.runTests
           (sample_world ["start-recording"] room_file (always sample_answer))).1
        = DailyTester.Reported e
        /\ forallb is_api
             (DailyTester.runTests
                (sample_world ["start-recording"] room_file
                   (always sample_answer))).2
           = true).
Proof.
  apply (start_recording_saves_after_starting
           (sample_world ["start-recording"] room_file (always sample_answer))).
  reflexivity.
Defined.

(** X20. The three commands that work on the last room created need
    [room-info.json]: when nothing is at that path, [start-recording],
    [stop-recording] and [delete-room] send nothing but the domain call
    and report an error. *)
Theorem room_file_is_required (w : DailyTester.world) (command : string) :
  DailyTester.argument w 0 = Some command -> In command needs_room_file ->
  DailyTester.existsSync w "room-info.json" = false ->
  domain_known w = true ->
  exists message,
    DailyTester.runTests w
    = (DailyTester.Reported (DailyTester.Error message),
       [DailyTester.Api domain_call]).
Proof.
  intros Ha Hin Hex Hk.
  destruct (getDomainConfig_succeeds w Hk) as (data & Hd & _ & _).
  cbn in Hin. repeat (destruct Hin as [<- | Hin]); try contradiction.
  all: rewrite (run_configured w _ data Ha ltac:(discriminate) Hd Hk).
  all: cbn [DailyTester.switch DailyTester.commands String.eqb Ascii.eqb
            Bool.eqb].
  all: unfold DailyTester.start_recording, DailyTester.stop_recording,
         DailyTester.delete_room; rewrite Hex; cbn [andb].
  all: eexists; reflexivity.
Qed.

Lemma room_file_is_required_witness :
  exists message,
    DailyTester.runTests (sample_world ["stop-recording"] ∅ (always sample_answer))
    = (DailyTester.Reported (DailyTester.Error message),
       [DailyTester.Api domain_call]).
Proof.
  apply (room_file_is_required
           (sample_world ["stop-recording"] ∅ (always sample_answer))
           "stop-recording").
  - reflexivity.
  - right. left. reflexivity.
  - reflexivity.
  - reflexivity.
Defined.

(** X21. A command that takes an argument checks it only after the
    domain call: [download-recording], [get-download-url],
    [get-recording], [recordings-by-room] and [webhook], given no
    argument or an empty one, send nothing but the domain call and report
    an error. *)
Theorem argument_is_required (w : DailyTester.world) (command : string) :
  DailyTester.argument w 0 = Some command -> In command needs_argument ->
  DailyTester.argument w 1 = None ->
  domain_known w = true ->
  exists message,
    DailyTester.runTests w
    = (DailyTester.Reported (DailyTester.Error message),
       [DailyTester.Api domain_call]).
Proof.
  intros Ha Hin Hex Hk.
  destruct (getDomainConfig_succeeds w Hk) as (data & Hd & _ & _).
  cbn in Hin. repeat (destruct Hin as [<- | Hin]); try contradiction.
  all: rewrite (run_configured w _ data Ha ltac:(discriminate) Hd Hk).
  all: cbn [DailyTester.switch DailyTester.commands String.eqb Ascii.eqb
            Bool.eqb].
  all: unfold DailyTester.download_recording, DailyTester.get_download_url,
         DailyTester.get_recording, DailyTester.recordings_by_room,
         DailyTester.webhook; rewrite Hex.
  all: eexists; reflexivity.
Qed.

Lemma argument_is_required_witness :
  exists message,
    DailyTester.runTests
      (sample_world ["get-recording"; EmptyString] ∅ (always sample_answer))
    = (DailyTester.Reported (DailyTester.Error message),
       [DailyTester.Api domain_call]).
Proof.
  apply (argument_is_required
           (sample_world ["get-recording"; EmptyString] ∅ (always sample_answer))
           "get-recording").
  - reflexivity.
  - right. right. left. reflexivity.
  - reflexivity.
  - reflexivity.
Defined.

(** X22. A run of [create-room] in which the provider gives a domain id,
    creates the room and both tokens are signed does three things, in
    this order: the domain call, the creation of a room named
    [test-room-] followed by the first eight characters of the UUID, and
    the writing of [room-info.json]; the record holds that same room
    name, the domain id received, and for each role a token signed for
    that room and domain and the meeting URL carrying that token. *)
Theorem create_room_records_what_it_created
    (w : DailyTester.world) (data : jsval) (d : Json.value) :
  DailyTester.argument w 0 = Some "create-room" ->
  DailyTester.api w domain_call = AxiosResponse data ->
  prop data "domain_id" = Some d -> truthy (Some d) = true ->
  DailyTester.api w (create_call w) <> AxiosRejected ->
  DailyTester.signs w (token_of w d true) = true ->
  DailyTester.signs w (token_of w d false) = true ->
  DailyTester.runTests w
  = (DailyTester.Returned,
     [DailyTester.Api domain_call; DailyTester.Api (create_call w);
      DailyTester.SaveJson "room-info.json" (room_record w d)]).
Proof.
  intros Ha Hd Hid Ht Hc Hs1 Hs2.
  assert (Hk : domain_known w = true).
  { unfold domain_known. rewrite Hd. destruct data as [[]|]; try discriminate Hid; reflexivity. }
  rewrite (run_configured w _ data Ha ltac:(discriminate) Hd Hk).
  change (DailyTester.switch (DailyTester.commands w) "create-room")
    with (DailyTester.create_room w).
  rewrite Hid. unfold create_call, token_of, new_room in *.
  assert (Hr : truthy (js_str ("test-room-"
                                 +:+ substring 0 8 (DailyTester.uuid w))) = true)
    by reflexivity.
  split_run_with ltac:(rewrite ?Hr, ?Ht;
                       cbn [convertible js_str to_primitive_ok]);
    try (cbv [default from_option js_str id] in *; congruence).
  reflexivity.
Qed.

Lemma create_room_records_what_it_created_witness :
  DailyTester.runTests (sample_world ["create-room"] ∅ (always sample_answer))
  = (DailyTester.Returned,
     [DailyTester.Api domain_call;
      DailyTester.Api
        (create_call (sample_world ["create-room"] ∅ (always sample_answer)));
      DailyTester.SaveJson "room-info.json"
        (room_record (sample_world ["create-room"] ∅ (always sample_answer))
           (Json.Str "d1"))]).
Proof.
  apply (create_room_records_what_it_created
           (sample_world ["create-room"] ∅ (always sample_answer))
           sample_answer (Json.Str "d1")).
  - reflexivity.
  - reflexivity.
  - reflexivity.
  - reflexivity.
  - discriminate.
  - reflexivity.
  - reflexivity.
Defined.

(** X23. When the provider's domain configuration has no usable
    [domain_id] (none, or a falsy one), [create-room] still creates the
    room and only then fails, on the first token: the run reports the
    error and writes no [room-info.json], so that the room exists at the
    provider while no later command can find it. *)
Theorem room_created_but_not_recorded (w : DailyTester.world) (data : jsval) :
  DailyTester.argument w 0 = Some "create-room" ->
  DailyTester.api w domain_call = AxiosResponse data ->
  domain_known w = true ->
  truthy (prop data "domain_id") = false ->
  DailyTester.api w (create_call w) <> AxiosRejected ->
  DailyTester.runTests w
  = (DailyTester.Reported
       (DailyTester.Error
          "Domain ID and Room Name must be set before generating token"),
     [DailyTester.Api domain_call; DailyTester.Api (create_call w)]).
Proof.
  intros Ha Hd Hk Ht Hc.
  rewrite (run_configured w _ data Ha ltac:(discriminate) Hd Hk).
  change (DailyTester.switch (DailyTester.commands w) "create-room")
    with (DailyTester.create_room w).
  unfold create_call, new_room in *.
  split_run_with ltac:(rewrite ?Ht); try congruence; reflexivity.
Qed.

Lemma room_created_but_not_recorded_witness :
  DailyTester.runTests
    (sample_world ["create-room"] ∅ (always (Some (Json.Obj []))))
  = (DailyTester.Reported
       (DailyTester.Error
          "Domain ID and Room Name must be set before generating token"),
     [DailyTester.Api domain_call;
      DailyTester.Api
        (create_call
           (sample_world ["create-room"] ∅ (always (Some (Json.Obj [])))))]).
Proof.
  apply (room_created_but_not_recorded
           (sample_world ["create-room"] ∅ (always (Some (Json.Obj []))))
           (Some (Json.Obj []))).
  - reflexivity.
  - reflexivity.
  - reflexivity.
  - reflexivity.
  - discriminate.
Defined.


(** X24. [stop-recording] insists on [recording-info.json] but makes no
    use of what it holds: for any two contents of that file that parse
    to a value other than [null], the run is the same.  The call that
    stops the recording names the room only. *)
Theorem stop_recording_ignores_the_recording
    (w : DailyTester.world) (text1 text2 : string) (v1 v2 : Json.value) :
  DailyTester.argument w 0 = Some "stop-recording" ->
  Json.parse text1 = Some v1 -> v1 <> Json.Null ->
  Json.parse text2 = Some v2 -> v2 <> Json.Null ->
  DailyTester.runTests
    (with_files w (<["recording-info.json" := text1]> (DailyTester.files w)))
  = DailyTester.runTests
      (with_files w (<["recording-info.json" := text2]> (DailyTester.files w))).
Proof.
  intros Ha Hp1 Hn1 Hp2 Hn2.
  assert (Hm : forall v, v <> Json.Null ->
                 get_prop (Some v) "recordingId"
                 = Return (prop (Some v) "recordingId")).
  { intros [] H; try reflexivity. contradiction. }
  unfold DailyTester.runTests.
  change (DailyTester.argument (with_files w _) 0)
    with (DailyTester.argument w 0).
  rewrite Ha. cbn [String.eqb Ascii.eqb Bool.eqb].
  cbn [DailyTester.switch DailyTester.commands String.eqb Ascii.eqb Bool.eqb].
  unfold DailyTester.getDomainConfig, DailyTester.stop_recording,
    DailyTester.stopRecording, DailyTester.existsSync.
  unfold_tool. cbn [with_files DailyTester.files DailyTester.api
                    DailyTester.directories].
  rewrite !lookup_insert_eq, !(lookup_insert_ne _ "recording-info.json"
                                 "room-info.json") by discriminate.
  assert (Hs : forall t : string, bool_decide (is_Some (Some t)) = true)
    by (intros t; apply bool_decide_eq_true_2; eauto).
  rewrite !Hs, Hp1, Hp2, (Hm v1 Hn1), (Hm v2 Hn2).
  split_run; first [reflexivity | congruence].
Qed.

Lemma stop_recording_ignores_the_recording_witness :
  DailyTester.runTests
    (with_files (sample_world ["stop-recording"] room_file (always sample_answer))
       (<["recording-info.json" := json_text "{'recordingId':'rec1'}"]>
          room_file))
  = DailyTester.runTests
      (with_files (sample_world ["stop-recording"] room_file (always sample_answer))
         (<["recording-info.json" := "[]"]> room_file)).
Proof.
  apply (stop_recording_ignores_the_recording
           (sample_world ["stop-recording"] room_file (always sample_answer))
           (json_text "{'recordingId':'rec1'}") "[]"
           (Json.Obj [("recordingId", Json.Str "rec1")]) (Json.Arr [])).
  - reflexivity.
  - vm_compute. reflexivity.
  - discriminate.
  - vm_compute. reflexivity.
  - discriminate.
Defined.

(** X25. The tool and the receiver look a recording up in the same way:
    when both get the same answer from the provider, the receiver's
    [getRecordingDownloadUrl] returns what the tool's returns, and
    [null] where the tool's throws. *)
Theorem lookups_agree
    (p : provider) (w : DailyTester.world) (id : string)
    (s : DailyTester.state) :
  same_answer p w id ->
  getRecordingDownloadUrl p (js_str id)
  = or_null (DailyTester.getRecordingDownloadUrl w id s).1.
Proof.
  unfold same_answer, recording_call, getRecordingDownloadUrl,
    download_link_of, js_or.
  intros <-. cbn [convertible js_str to_primitive_ok].
  unfold DailyTester.getRecordingDownloadUrl.
  split_run; first [reflexivity | congruence].
Qed.

Lemma lookups_agree_witness :
  getRecordingDownloadUrl (fun _ => AxiosResponse sample_answer) (js_str "rec1")
  = or_null (DailyTester.getRecordingDownloadUrl
               (sample_world [] ∅ (always sample_answer)) "rec1"
               DailyTester.constructor).1.
Proof.
  apply (lookups_agree (fun _ => AxiosResponse sample_answer)
           (sample_world [] ∅ (always sample_answer)) "rec1"
           DailyTester.constructor).
  reflexivity.
Defined.

(** X27. [download-recording] creates the file only once the provider
    has given a link and the link has answered.  Either the run looks
    the recording up, creates the output directory if nothing is at its
    path, fetches the link and opens the file, ending as the transfer
    ends; or it reports an error and has opened no file. *)
Theorem download_needs_a_link (w : DailyTester.world) (id : string) :
  DailyTester.argument w 0 = Some "download-recording" ->
  DailyTester.argument w 1 = Some id ->
  (exists data,
     DailyTester.api w (recording_call id) = AxiosResponse data
     /\ truthy (prop data "download_link") = true
     /\ DailyTester.fetch w (prop data "download_link") <> DailyTester.NoResponse
     /\ DailyTester.runTests w
        = (download_ending (DailyTester.fetch w (prop data "download_link")),
           [DailyTester.Api domain_call; DailyTester.Api (recording_call id)]
           ++ download_steps w id (prop data "download_link")))
  \/ (exists e,
        (DailyTester.runTests w).1 = DailyTester.Reported e
        /\ existsb creates_file (DailyTester.runTests w).2 = false).
Proof.
  intros Ha Hid.
  assert (Hc : "download-recording" <> "help") by discriminate.
  destruct (domain_known w) eqn:Hk.
  2:{ right. rewrite (run_unconfigured w _ Ha Hc Hk). eexists. split; reflexivity. }
  destruct (getDomainConfig_succeeds w Hk) as (data & Hd & _ & _).
  rewrite (run_configured w _ data Ha Hc Hd Hk).
  change (DailyTester.switch (DailyTester.commands w) "download-recording")
    with (DailyTester.download_recording w).
  unfold DailyTester.download_recording. rewrite Hid.
  unfold download_steps, download_ending, recording_call, output_path.
  split_run_with ltac:(try change (truthy js_null) with false).
  all: try (right; eexists; split; reflexivity).
  all: read_members; left; eexists; repeat split; try eassumption;
    repeat match goal with
           | H : DailyTester.fetch _ _ = _ |- _ => rewrite H; clear H
           end;
    first [reflexivity | congruence].
Qed.

Lemma download_needs_a_link_witness :
  (exists data,
     DailyTester.api
       (sample_world ["download-recording"; "rec1"] ∅ (always sample_answer))
       (recording_call "rec1") = AxiosResponse data
     /\ truthy (prop data "download_link") = true
     /\ DailyTester.fetch
          (sample_world ["download-recording"; "rec1"] ∅ (always sample_answer))
          (prop data "download_link") <> DailyTester.NoResponse
     /\ DailyTester.runTests
          (sample_world ["download-recording"; "rec1"] ∅ (always sample_answer))
        = (download_ending
             (DailyTester.fetch
                (sample_world ["download-recording"; "rec1"] ∅
                   (always sample_answer))
                (prop data "download_link")),
           [DailyTester.Api domain_call; DailyTester.Api (recording_call "rec1")]
           ++ download_steps
                (sample_world ["download-recording"; "rec1"] ∅
                   (always sample_answer))
                "rec1" (prop data "download_link")))
  \/ (exists e,
        (DailyTester.runTests
           (sample_world ["download-recording"; "rec1"] ∅
              (always sample_answer))).1
        = DailyTester.Reported e
        /\ existsb creates_file
             (DailyTester.runTests
                (sample_world ["download-recording"; "rec1"] ∅
                   (always sample_answer))).2
           = false).
Proof.
  apply (download_needs_a_link
           (sample_world ["download-recording"; "rec1"] ∅ (always sample_answer))
           "rec1").
  - reflexivity.
  - reflexivity.
Defined.


(** ** The domain in a share link *)

(** Decides a [startsWith] between texts of known length, one character
    at a time. *)
Ltac compare_chars :=
  repeat (cbn [startsWith andb];
          match goal with
          | |- context [Ascii.eqb ?a ?b] =>
              first [ is_var b; destruct (Ascii.eqb a b)
                    | change (Ascii.eqb a b) with false
                    | change (Ascii.eqb a b) with true ]
          end);
  reflexivity.

Section ShareLink.

Lemma remove_first_absent p s :
  includes p s = false -> DailyTester.remove_first p s = s.
Proof.
  induction s as [| c s IH]; cbn [includes DailyTester.remove_first]; intros H;
    apply orb_false_elim in H as [H1 H2]; rewrite H1; [reflexivity |].
  rewrite (IH H2). reflexivity.
Qed.

Lemma startsWith_append p s t :
  (String.length p <= String.length s)%nat ->
  startsWith p (s +:+ t) = startsWith p s.
Proof.
  revert s. induction p as [| a p IH]; intros s H; [reflexivity |].
  destruct s as [| b s]; cbn in H; [lia |].
  change (String b s +:+ t) with (String b (s +:+ t)).
  cbn [startsWith]. rewrite IH by lia. reflexivity.
Qed.

(** [.daily.co] is no proper prefix of itself shifted: after a text that
    does not start with it, it starts only where it was appended. *)
Lemma suffix_not_earlier c s :
  startsWith ".daily.co" (String c s) = false ->
  startsWith ".daily.co" (String c s +:+ ".daily.co") = false.
Proof.
  intros H.
  destruct (le_lt_dec 9 (String.length (String c s))) as [Hl | Hl].
  - rewrite startsWith_append; [exact H | exact Hl].
  - clear H. revert Hl.
    do 8 (destruct s as [| ? s]; [ intros _; cbv [String.append]; compare_chars |]).
    cbn. lia.
Qed.

Lemma remove_first_suffix s :
  includes ".daily.co" s = false ->
  DailyTester.remove_first ".daily.co" (s +:+ ".daily.co") = s.
Proof.
  induction s as [| c s IH]; intros H; [reflexivity |].
  cbn [includes] in H. apply orb_false_elim in H as [H1 H2].
  pose proof (suffix_not_earlier c s H1) as H3.
  change (String c s +:+ ".daily.co") with (String c (s +:+ ".daily.co")) in *.
  cbn [DailyTester.remove_first]. rewrite H3, (IH H2). reflexivity.
Qed.

End ShareLink.

(** X26. The share link of a recording is the same whether
    [DAILY_DOMAIN] holds the bare team name or the name followed by
    [.daily.co]: for a name that is not empty and does not contain
    [.daily.co], both settings give [https://<name>.daily.co/rec/]
    followed by the share token. *)
Theorem share_link_takes_both_domain_forms
    (w w' : DailyTester.world) (name : string) (token : jsval)
    (s : DailyTester.state) :
  DailyTester.env w !! "DAILY_DOMAIN" = Some name ->
  DailyTester.env w' !! "DAILY_DOMAIN" = Some (name +:+ ".daily.co") ->
  name <> EmptyString -> includes ".daily.co" name = false ->
  convertible token = true ->
  DailyTester.getRecordingShareUrl w token s
  = (DailyTester.Done [Lit ("https://" +:+ name +:+ ".daily.co/rec/"); Interp token], s)
  /\ DailyTester.getRecordingShareUrl w' token s
     = (DailyTester.Done [Lit ("https://" +:+ name +:+ ".daily.co/rec/"); Interp token], s).
Proof.
  intros Hw Hw' Hn Hi Hc.
  assert (Hd : DailyTester.domain w = name).
  { unfold DailyTester.domain, env_or. rewrite Hw.
    destruct name; [contradiction | reflexivity]. }
  assert (Hd' : DailyTester.domain w' = name +:+ ".daily.co").
  { unfold DailyTester.domain, env_or. rewrite Hw'.
    destruct name; [contradiction | reflexivity]. }
  unfold DailyTester.getRecordingShareUrl, DailyTester.share_prefix,
    DailyTester.hole, DailyTester.chain.
  rewrite Hd, Hd', Hc, (remove_first_absent _ _ Hi), (remove_first_suffix _ Hi).
  split; reflexivity.
Qed.

Lemma share_link_takes_both_domain_forms_witness :
  DailyTester.getRecordingShareUrl (domain_world "acme") (js_str "tok")
    DailyTester.constructor
  = (DailyTester.Done [Lit ("https://" +:+ "acme" +:+ ".daily.co/rec/");
                       Interp (js_str "tok")],
     DailyTester.constructor)
  /\ DailyTester.getRecordingShareUrl (domain_world "acme.daily.co")
       (js_str "tok") DailyTester.constructor
     = (DailyTester.Done [Lit ("https://" +:+ "acme" +:+ ".daily.co/rec/");
                          Interp (js_str "tok")],
        DailyTester.constructor).
Proof.
  apply (share_link_takes_both_domain_forms
           (domain_world "acme") (domain_world "acme.daily.co") "acme"
           (js_str "tok") DailyTester.constructor).
  - reflexivity.
  - reflexivity.
  - discriminate.
  - reflexivity.
  - reflexivity.
Defined.
